(** * Deployment record and reconciler of the zos command line tool

    A shallow embedding of
    - [packages/cli/src/models/files/ZosNetworkFile.ts]  (the deployment record),
    - [packages/cli/src/models/dependency/Dependency.ts] (version satisfaction),
    - [packages/cli/src/models/network/NetworkController.ts] (the reconciler),
    followed by the properties the specification states about them.

    Conventions.
    - An optional or possibly [undefined] JavaScript value is an [option];
      [None] stands for both a missing key and [undefined].
    - JavaScript objects used as dictionaries are [gmap string _].  The order
      in which JavaScript enumerates the keys is not modelled; no property
      below depends on it.
    - A method that mutates [this] is a computation in the monad [M S], which
      threads the state explicitly and keeps the state reached when an
      exception is thrown.
    - [Loggy] calls only print diagnostics and are left out. *)

From Stdlib Require Import Ascii.
From stdpp Require Import base option strings list gmap.

(* ===================================================================== *)
(** * Part I: definitions                                                 *)
(* ===================================================================== *)

(** ** JavaScript values *)

(** [!!s] for a possibly undefined string: [undefined] and the empty string
    are falsy. *)
Definition truthy (s : option string) : bool :=
  match s with
  | Some s => negb (bool_decide (s = ""))
  | None => false
  end.

(** [a || b] on possibly undefined strings. *)
Definition js_or (a b : option string) : option string :=
  if truthy a then a else b.

(** [!!b] for a possibly undefined boolean. *)
Definition truthy_bool (b : option bool) : bool := default false b.

(** Interpolation [`${s}`] of a possibly undefined string. *)
Definition show (s : option string) : string := default "undefined" s.

(** ** Exceptions and stateful computations *)

(** A JavaScript [Error] is represented by its message. *)
Inductive Result (A : Type) : Type :=
| Ok (a : A)
| Throw (message : string).
Arguments Ok {A} a.
Arguments Throw {A} message.

#[global] Instance Result_eq_dec {A} `{EqDecision A} : EqDecision (Result A).
Proof. solve_decision. Defined.

Definition is_Throw {A} (r : Result A) : bool :=
  match r with Throw _ => true | Ok _ => false end.

(** Computations over a mutable state [S].  The state is returned also when
    the computation throws: mutations made before a [throw] persist. *)
Definition M (S A : Type) : Type := S → Result A * S.

Definition ret {S A} (a : A) : M S A := λ s, (Ok a, s).
Definition throw {S A} (message : string) : M S A := λ s, (Throw message, s).
Definition bind {S A B} (m : M S A) (k : A → M S B) : M S B := λ s,
  match m s with
  | (Ok a, s') => k a s'
  | (Throw e, s') => (Throw e, s')
  end.
Definition get {S} : M S S := λ s, (Ok s, s).
Definition gets {S A} (f : S → A) : M S A := λ s, (Ok (f s), s).
Definition modify {S} (f : S → S) : M S unit := λ s, (Ok tt, f s).
Definition lift_result {S A} (r : Result A) : M S A := λ s, (r, s).

(** [try { m } catch (error) { error.message = f(error.message); throw error }] *)
Definition rethrow {S A} (f : string → string) (m : M S A) : M S A := λ s,
  match m s with
  | (Throw e, s') => (Throw (f e), s')
  | r => r
  end.

(** [try { m } finally { fin }]: [fin] runs in both cases; an exception of
    [fin] replaces the outcome of [m]. *)
Definition try_finally {S A} (m : M S A) (fin : M S unit) : M S A := λ s,
  match m s with
  | (r, s') =>
      match fin s' with
      | (Ok _, s'') => (r, s'')
      | (Throw e, s'') => (Throw e, s'')
      end
  end.

#[global] Instance M_ret {S} : MRet (M S) := λ A, ret.
#[global] Instance M_bind {S} : MBind (M S) := λ A B k m, bind m k.

(** ** Data model of the deployment record (ZosNetworkFile.ts) *)

(** [ProxyType] of [scripts/interfaces]: the two kinds the controller
    switches on. *)
Inductive ProxyType : Set := Upgradeable | Minimal.

#[global] Instance ProxyType_eq_dec : EqDecision ProxyType.
Proof. solve_decision. Defined.

(** [interface ContractInterface]; the untyped members [types], [storage] and
    [warnings] are kept as opaque serialised values. *)
Record ContractInterface : Type := mkContractInterface {
  contract_address : option string;
  contract_constructorCode : option string;
  contract_localBytecodeHash : option string;
  contract_deployedBytecodeHash : option string;
  contract_bodyBytecodeHash : option string;
  contract_types : option string;
  contract_storage : option string;
  contract_warnings : option string;
}.

#[global] Instance ContractInterface_eq_dec : EqDecision ContractInterface.
Proof. solve_decision. Defined.

(** [interface SolidityLibInterface] *)
Record SolidityLibInterface : Type := mkSolidityLibInterface {
  lib_address : string;
  lib_constructorCode : string;
  lib_bodyBytecodeHash : string;
  lib_localBytecodeHash : string;
  lib_deployedBytecodeHash : string;
}.

#[global] Instance SolidityLibInterface_eq_dec : EqDecision SolidityLibInterface.
Proof. solve_decision. Defined.

(** [interface ProxyInterface]: every member is optional.  The same type is
    used for the entries stored in the record and for the entries returned by
    [getProxies], which carry [package] and [contract]. *)
Record ProxyInterface : Type := mkProxyInterface {
  proxy_alias : option string;
  proxy_package : option string;
  proxy_contract : option string;
  proxy_address : option string;
  proxy_version : option string;
  proxy_implementation : option string;
  proxy_admin : option string;
  proxy_kind : option ProxyType;
}.

#[global] Instance ProxyInterface_eq_dec : EqDecision ProxyInterface.
Proof. solve_decision. Defined.

(** [interface DependencyInterface] *)
Record DependencyInterface : Type := mkDependencyInterface {
  dep_name : option string;
  dep_package : option string;
  dep_version : option string;
  dep_customDeploy : option bool;
}.

#[global] Instance DependencyInterface_eq_dec : EqDecision DependencyInterface.
Proof. solve_decision. Defined.

(** [interface AddressWrapper] *)
Record AddressWrapper : Type := mkAddressWrapper {
  wrapper_address : option string;
}.

#[global] Instance AddressWrapper_eq_dec : EqDecision AddressWrapper.
Proof. solve_decision. Defined.

(** The member [data] of [ZosNetworkFile].  [contracts], [solidityLibs] and
    [proxies] are always present (they are part of the constructor's
    defaults); for [dependencies] the code handles a missing dictionary. *)
Record NetworkData : Type := mkNetworkData {
  nf_contracts : gmap string ContractInterface;
  nf_solidityLibs : gmap string SolidityLibInterface;
  nf_proxies : gmap string (list ProxyInterface);
  nf_zosversion : option string;
  nf_proxyAdmin : option AddressWrapper;
  nf_proxyFactory : option AddressWrapper;
  nf_app : option AddressWrapper;
  nf_package : option AddressWrapper;
  nf_provider : option AddressWrapper;
  nf_version : option string;
  nf_frozen : option bool;
  nf_dependencies : option (gmap string DependencyInterface);
}.

#[global] Instance NetworkData_eq_dec : EqDecision NetworkData.
Proof. solve_decision. Defined.

(** Field updates [this.data.f = v]. *)
Definition set_contracts (v : gmap string ContractInterface) (d : NetworkData) : NetworkData :=
  mkNetworkData v (nf_solidityLibs d) (nf_proxies d) (nf_zosversion d)
    (nf_proxyAdmin d) (nf_proxyFactory d) (nf_app d) (nf_package d)
    (nf_provider d) (nf_version d) (nf_frozen d) (nf_dependencies d).

Definition set_proxies (v : gmap string (list ProxyInterface)) (d : NetworkData) : NetworkData :=
  mkNetworkData (nf_contracts d) (nf_solidityLibs d) v (nf_zosversion d)
    (nf_proxyAdmin d) (nf_proxyFactory d) (nf_app d) (nf_package d)
    (nf_provider d) (nf_version d) (nf_frozen d) (nf_dependencies d).

Definition set_zosversion (v : option string) (d : NetworkData) : NetworkData :=
  mkNetworkData (nf_contracts d) (nf_solidityLibs d) (nf_proxies d) v
    (nf_proxyAdmin d) (nf_proxyFactory d) (nf_app d) (nf_package d)
    (nf_provider d) (nf_version d) (nf_frozen d) (nf_dependencies d).

Definition set_proxyAdmin (v : option AddressWrapper) (d : NetworkData) : NetworkData :=
  mkNetworkData (nf_contracts d) (nf_solidityLibs d) (nf_proxies d) (nf_zosversion d)
    v (nf_proxyFactory d) (nf_app d) (nf_package d)
    (nf_provider d) (nf_version d) (nf_frozen d) (nf_dependencies d).

Definition set_proxyFactory (v : option AddressWrapper) (d : NetworkData) : NetworkData :=
  mkNetworkData (nf_contracts d) (nf_solidityLibs d) (nf_proxies d) (nf_zosversion d)
    (nf_proxyAdmin d) v (nf_app d) (nf_package d)
    (nf_provider d) (nf_version d) (nf_frozen d) (nf_dependencies d).

Definition set_frozen (v : option bool) (d : NetworkData) : NetworkData :=
  mkNetworkData (nf_contracts d) (nf_solidityLibs d) (nf_proxies d) (nf_zosversion d)
    (nf_proxyAdmin d) (nf_proxyFactory d) (nf_app d) (nf_package d)
    (nf_provider d) (nf_version d) v (nf_dependencies d).

Definition set_dependencies (v : option (gmap string DependencyInterface)) (d : NetworkData) : NetworkData :=
  mkNetworkData (nf_contracts d) (nf_solidityLibs d) (nf_proxies d) (nf_zosversion d)
    (nf_proxyAdmin d) (nf_proxyFactory d) (nf_app d) (nf_package d)
    (nf_provider d) (nf_version d) (nf_frozen d) v.

(** The constructor's [defaults], with the current format version. *)
Definition defaults (zos_version : string) : NetworkData :=
  mkNetworkData ∅ ∅ ∅ (Some zos_version) None None None None None None None None.

(** A compiled contract class of zos-lib, as far as the controller reads it:
    [klass.schema.contractName] and [klass.schema.bytecode]. *)
Record Contract : Type := mkContract {
  schema_contractName : string;
  schema_bytecode : string;
}.

#[global] Instance Contract_eq_dec : EqDecision Contract.
Proof. solve_decision. Defined.

(** ** Collaborators outside the sources

    The functions below are imported by the sources from modules that are not
    part of them.  They are parameters of the development: every theorem
    holds for all implementations. *)

(** [zos-lib]: digest of a bytecode, normalisation of a version (which may
    throw), the library names a bytecode refers to, [Contracts.getFromLocal],
    and [ZWeb3.toChecksumAddress] (which may throw on a malformed address). *)
Class ZosLib : Type := {
  bytecodeDigest : string → string;
  semanticVersionToString : option string → Result string;
  getSolidityLibNames : string → list string;
  getFromLocal : string → Contract;
  toChecksumAddress : option string → Result (option string);
}.

(** [utils/naming]: the key of the [proxies] dictionary for a package and a
    contract, and its decomposition [{ package?, contract? }]. *)
Class Naming : Type := {
  toContractFullName : option string → option string → string;
  fromContractFullName : string → option string * option string;
}.

Section NetworkFile.
Context {lib : ZosLib} {names : Naming}.

(** ** ZosNetworkFile: accessors *)

(** [get proxyAdminAddress()]: [(this.data.proxyAdmin || {}).address]. *)
Definition proxyAdminAddress (d : NetworkData) : option string :=
  nf_proxyAdmin d ≫= wrapper_address.

Definition proxyFactoryAddress (d : NetworkData) : option string :=
  nf_proxyFactory d ≫= wrapper_address.

Definition appAddress (d : NetworkData) : option string :=
  nf_app d ≫= wrapper_address.

Definition packageAddress (d : NetworkData) : option string :=
  nf_package d ≫= wrapper_address.

(** [contract(alias)]: [this.data.contracts[alias]]. *)
Definition contract (d : NetworkData) (alias : string) : option ContractInterface :=
  nf_contracts d !! alias.

(** [solidityLib(libName)]: [this.data.solidityLibs[libName]]. *)
Definition solidityLib (d : NetworkData) (libName : string) : option SolidityLibInterface :=
  nf_solidityLibs d !! libName.

(** lodash [isEmpty] on a contract entry: no own key. *)
Definition isEmpty_contract (c : option ContractInterface) : bool :=
  match c with
  | None => true
  | Some c => bool_decide (c = mkContractInterface None None None None None None None None)
  end.

(** [hasContract(alias)]: [!isEmpty(this.contract(alias))]. *)
Definition hasContract (d : NetworkData) (alias : string) : bool :=
  negb (isEmpty_contract (contract d alias)).

(** [hasSolidityLib(libName)]: [!isEmpty(this.solidityLib(libName))]; a
    library entry has five mandatory members, so it is empty only when
    missing. *)
Definition hasSolidityLib (d : NetworkData) (libName : string) : bool :=
  bool_decide (is_Some (solidityLib d libName)).

(** [hasSameBytecode(alias, klass)].  The entry is looked up in [contracts]
    first and in [solidityLibs] second; without an entry the function falls
    off its end and returns [undefined] ([None]). *)
Definition hasSameBytecode (d : NetworkData) (alias : string) (klass : Contract) : option bool :=
  let entry : option (option string) :=
    match contract d alias with
    | Some c => Some (contract_localBytecodeHash c)
    | None => (λ l, Some (lib_localBytecodeHash l)) <$> solidityLib d alias
    end in
  match entry with
  | Some localBytecode =>
      let currentBytecode := bytecodeDigest (schema_bytecode klass) in
      Some (bool_decide (Some currentBytecode = localBytecode))
  | None => None
  end.

(** ** ZosNetworkFile: proxies *)

(** [_proxiesOf(fullname)]: [this.data.proxies[fullname] || []]. *)
Definition _proxiesOf (d : NetworkData) (fullname : string) : list ProxyInterface :=
  default [] (nf_proxies d !! fullname).

(** The lodash predicate [matches({ address })]: the entry has the member
    [address] and it is identical to the one asked for. *)
Definition matches_address (address : option string) (p : ProxyInterface) : bool :=
  match address, proxy_address p with
  | Some a, Some b => bool_decide (a = b)
  | _, _ => false
  end.

(** lodash [findIndex]; [None] stands for the result [-1]. *)
Fixpoint findIndex {A} (pred : A → bool) (l : list A) : option nat :=
  match l with
  | [] => None
  | x :: l' => if pred x then Some 0 else S <$> findIndex pred l'
  end.

(** [_indexOfProxy(fullname, address)]:
    [findIndex(this.data.proxies[fullname], { address })]; on a missing list
    [findIndex] answers [-1], as on an empty one. *)
Definition _indexOfProxy (d : NetworkData) (fullname : string) (address : option string) : option nat :=
  findIndex (matches_address address) (_proxiesOf d fullname).

(** [addProxy(thepackage, alias, info)] *)
Definition addProxy (thepackage alias : string) (info : ProxyInterface) : M NetworkData unit :=
  modify (λ d,
    let fullname := toContractFullName (Some thepackage) (Some alias) in
    set_proxies (<[fullname := _proxiesOf d fullname ++ [info]]> (nf_proxies d)) d).

(** [removeProxy(thepackage, alias, address)] *)
Definition removeProxy (thepackage alias address : string) : M NetworkData unit :=
  modify (λ d,
    let fullname := toContractFullName (Some thepackage) (Some alias) in
    match _indexOfProxy d fullname (Some address) with
    | None => d
    | Some index =>
        let d' := set_proxies (<[fullname := delete index (_proxiesOf d fullname)]> (nf_proxies d)) d in
        if bool_decide (length (_proxiesOf d' fullname) = 0)
        then set_proxies (delete fullname (nf_proxies d')) d'
        else d'
    end).

(** [updateProxy({ package, contract, address }, fn)].  The callback [fn] is
    arbitrary code: it may throw, in which case nothing is assigned. *)
Definition updateProxy (id : ProxyInterface) (fn : ProxyInterface → Result ProxyInterface)
    : M NetworkData unit := λ d,
  let fullname := toContractFullName (proxy_package id) (proxy_contract id) in
  match _indexOfProxy d fullname (proxy_address id) with
  | None =>
      (Throw ("Proxy " +:+ fullname +:+ " at " +:+ show (proxy_address id)
              +:+ " not found in network file"), d)
  | Some index =>
      let l := _proxiesOf d fullname in
      match fn <$> l !! index with
      | Some (Ok p') => (Ok tt, set_proxies (<[fullname := <[index := p']> l]> (nf_proxies d)) d)
      | Some (Throw e) => (Throw e, d)
      | None => (Ok tt, d)
      end
  end.

(** [getProxies({ package, contract, address, kind })].  Every stored entry is
    completed with the package and the contract of its key (members of the
    entry itself win, as in the object spread) and with the default kind. *)
Definition decorate (fullname : string) (proxyInfo : ProxyInterface) : ProxyInterface :=
  let '(package, contract) := fromContractFullName fullname in
  mkProxyInterface
    (proxy_alias proxyInfo)
    (from_option Some package (proxy_package proxyInfo))
    (from_option Some contract (proxy_contract proxyInfo))
    (proxy_address proxyInfo)
    (proxy_version proxyInfo)
    (proxy_implementation proxyInfo)
    (proxy_admin proxyInfo)
    (Some (default Upgradeable (proxy_kind proxyInfo))).

Definition allProxies (d : NetworkData) : list ProxyInterface :=
  map_to_list (nf_proxies d) ≫= λ '(fullname, proxiesList),
    decorate fullname <$> proxiesList.

Definition proxy_filter (f proxy : ProxyInterface) : bool :=
  (negb (truthy (proxy_package f)) || bool_decide (proxy_package proxy = proxy_package f))
  && (negb (truthy (proxy_contract f)) || bool_decide (proxy_contract proxy = proxy_contract f))
  && (negb (truthy (proxy_address f)) || bool_decide (proxy_address proxy = proxy_address f))
  && (negb (bool_decide (is_Some (proxy_kind f))) || bool_decide (proxy_kind proxy = proxy_kind f)).

Definition getProxies (d : NetworkData) (f : ProxyInterface) : list ProxyInterface :=
  filter (λ proxy, proxy_filter f proxy = true) (allProxies d).

(** ** ZosNetworkFile: dependencies *)

(** [getDependency(name)]; the results [null] and [{}] are both [None]. *)
Definition getDependency (d : NetworkData) (name : string) : option DependencyInterface :=
  nf_dependencies d ≫= (.!! name).

(** [setDependency(name, { package, version, customDeploy })] *)
Definition setDependency (name : string) (dep : DependencyInterface) : M NetworkData unit :=
  modify (λ d, match nf_dependencies d with
               | None => set_dependencies (Some ∅) d
               | Some _ => d
               end) ;;
  version ← lift_result (semanticVersionToString (dep_version dep)) ;
  let dependency :=
    mkDependencyInterface None (dep_package dep) (Some version)
      (if truthy_bool (dep_customDeploy dep) then dep_customDeploy dep else None) in
  modify (λ d, set_dependencies (Some (<[name := dependency]> (default ∅ (nf_dependencies d)))) d).

End NetworkFile.

(** ** ZosNetworkFile: persistence *)

(** [ZosVersion.ts]: the current format version, the check made by the
    constructor (which may throw) and the test for a format that predates the
    admin contract. *)
Class ZosVersion : Type := {
  ZOS_VERSION : string;
  checkVersion : option string → string → Result unit;
  isMigratableZosversion : option string → bool;
}.

(** The file system as [FileSystem] of zos-lib presents it to this class: the
    parsed content of every existing file, and a journal of the
    [writeJson] calls. *)
Record FileSystem : Type := mkFileSystem {
  fs_files : gmap string NetworkData;
  fs_journal : list string;
}.

#[global] Instance FileSystem_eq_dec : EqDecision FileSystem.
Proof. solve_decision. Defined.

Definition parseJsonIfExists (fs : FileSystem) (fileName : string) : option NetworkData :=
  fs_files fs !! fileName.


(** An instance of the class: its file name and its member [data].
    [NetworkData] reads a member that holds [undefined] as a missing member,
    and so does JSON: [writeJson] leaves such a member out of the file.
    lodash's [isEqual] tells the two apart, so the instance carries
    [holds_undefined]: some object of [this.data] has a member that holds
    [undefined].  A parsed file has none; [setDependency] leaves one, the
    member [customDeploy] of the entry it stores, unless it is given a truthy
    [customDeploy]. *)
Record ZosNetworkFile : Type := mkZosNetworkFile {
  fileName : string;
  data : NetworkData;
  holds_undefined : bool;
}.

Section Persistence.
Context {zv : ZosVersion}.

(** The constructor: [this.data = fs.parseJsonIfExists(this.fileName) ||
    defaults], then [checkVersion]. *)
Definition new_ZosNetworkFile (fs : FileSystem) (name : string) : Result ZosNetworkFile :=
  let d := default (defaults ZOS_VERSION) (parseJsonIfExists fs name) in
  match checkVersion (nf_zosversion d) name with
  | Ok _ => Ok (mkZosNetworkFile name d false)
  | Throw e => Throw e
  end.

End Persistence.

(** lodash's [isEqual(this.data, parsed)] for the parsed content of a file:
    a missing file parses to [null], which equals no record; an object with a
    member that holds [undefined] equals no parsed object, which has no such
    member; otherwise the members are compared. *)
Definition isEqual (nf : ZosNetworkFile) (parsed : option NetworkData) : bool :=
  negb (holds_undefined nf) && bool_decide (parsed = Some (data nf)).

(** [hasChanged()]: [!isEqual(this.data, fs.parseJsonIfExists(this.fileName))]. *)
Definition hasChanged (nf : ZosNetworkFile) (fs : FileSystem) : bool :=
  negb (isEqual nf (parseJsonIfExists fs (fileName nf))).


(** ** Dependency.satisfiesVersion (Dependency.ts) *)

(** A version coerced by [semver.coerce]: a numeric triple. *)
Record SemVer : Type := mkSemVer { major : N; minor : N; patch : N }.

#[global] Instance SemVer_eq_dec : EqDecision SemVer.
Proof. solve_decision. Defined.

(** The npm package [semver]: [coerce] yields [null] for a string without a
    version in it; [satisfies] is given the coerced version and the range. *)
Class Semver : Type := {
  semver_coerce : string → option SemVer;
  semver_satisfies : option SemVer → string → bool;
}.

Section Dependency.
Context {sv : Semver}.

(** [!requirement || version === requirement ||
     semver.satisfies(semver.coerce(version), requirement)] *)
Definition satisfiesVersion (version : string) (requirement : option string) : bool :=
  negb (truthy requirement)
  || bool_decide (Some version = requirement)
  || from_option (semver_satisfies (semver_coerce version)) false requirement.

End Dependency.

(** ** The manifest *)

(** Modelled from the spec: [ZosPackageFile] is not among the sources.  The
    manifest is [{ name, version, contracts: alias→contractName,
    dependencies: name→versionRequirement }]; the controller also reads its
    [isPublished] flag and its format version. *)
Record PackageFile : Type := mkPackageFile {
  pf_name : string;
  pf_version : option string;
  pf_contracts : gmap string string;
  pf_dependencies : gmap string string;
  pf_isPublished : bool;
  pf_zosversion : option string;
}.

Definition set_pf_zosversion (v : option string) (pf : PackageFile) : PackageFile :=
  mkPackageFile (pf_name pf) (pf_version pf) (pf_contracts pf) (pf_dependencies pf)
    (pf_isPublished pf) v.

(** Modelled from the spec: the accessors of [ZosPackageFile] the controller
    calls ([contractAliases], [contractNames], [contract(alias)],
    [hasContract(alias)]) read the alias→contractName dictionary. *)
Definition pf_contractAliases (pf : PackageFile) : list string :=
  (map_to_list (pf_contracts pf)).*1.

Definition pf_contractNames (pf : PackageFile) : list string :=
  (map_to_list (pf_contracts pf)).*2.

Definition pf_contract (pf : PackageFile) (alias : string) : option string :=
  pf_contracts pf !! alias.

Definition pf_hasContract (pf : PackageFile) (alias : string) : bool :=
  bool_decide (is_Some (pf_contract pf alias)).

(** ** The deployment backend *)

(** The argument [createArgs] of the proxy creation calls. *)
Record CreateArgs : Type := mkCreateArgs {
  args_packageName : option string;
  args_contractName : option string;
  args_initMethod : option string;
  args_initArgs : list string;
  args_admin : option string;
}.

#[global] Instance CreateArgs_eq_dec : EqDecision CreateArgs.
Proof. solve_decision. Defined.

(** The calls the controller makes to collaborators outside the sources: the
    project deployer, the [project] object it yields, and the zos-lib classes
    [ProxyAdmin], [Proxy], [Transactions], [ZWeb3], [AppProxyMigrator] and
    [SimpleProject]; and the local [ContractManager] and build artifacts. *)
Inductive Call : Type :=
| Deployer_fetchOrDeploy (requestedVersion : option string)
| ProxyAdmin_fetch (address : option string)
| ProxyAdmin_deploy
| Transactions_awaitConfirmations
| Proxy_admin (proxy : option string)
| Proxy_implementation (proxy : option string)
| MinimalProxy_implementation (proxy : option string)
| ZWeb3_getCode (address : option string)
| AppProxyMigrator (app proxy admin : option string)
| SimpleProject_changeProxyAdmin (proxy admin : option string)
| Project_getAdminAddress
| Project_proxyFactory
| Project_changeProxyAdmin (proxy newAdmin : option string)
| Project_getImplementation (package contract : option string)
| Project_getDependencyVersion (package : option string)
| Project_upgradeProxy (proxy package contract initMethod : option string) (initArgs : list string)
| Project_createProxyWithSalt (contract : Contract) (salt signature : option string) (createArgs : CreateArgs)
| Project_createProxy (contract : Contract) (createArgs : CreateArgs)
| Project_createMinimalProxy (contract : Contract) (createArgs : CreateArgs)
| Project_getProxyDeploymentAddress (salt sender : option string)
| ContractManager_getContractClass (package contract : option string)
| Truffle_updateDeployedInformation (contractAlias address : option string).

#[global] Instance Call_eq_dec : EqDecision Call.
Proof. solve_decision. Defined.

(** The backend is any deterministic environment: its answer to a call (a
    string such as an address, or an exception) may depend on all the calls
    made before.  [deployer_registers] is what the project deployer writes
    into the record. *)
Class Backend : Type := {
  respond : list Call → Call → Result (option string);
  getContractClass : option string → option string → Contract;
  deployer_registers : list Call → option string → NetworkData → NetworkData;
}.

(** ** The controller (NetworkController.ts) *)

(** The members of the controller: the manifest, the record, the sender of
    [txParams], whether [this.project] has been set, and the journal of the
    calls made so far. *)
Record Controller : Type := mkController {
  packageFile : PackageFile;
  networkFile : NetworkData;
  txParams_from : option string;
  project : bool;
  calls : list Call;
}.

Definition set_packageFile (v : PackageFile) (c : Controller) : Controller :=
  mkController v (networkFile c) (txParams_from c) (project c) (calls c).
Definition set_networkFile (v : NetworkData) (c : Controller) : Controller :=
  mkController (packageFile c) v (txParams_from c) (project c) (calls c).
Definition set_project (v : bool) (c : Controller) : Controller :=
  mkController (packageFile c) (networkFile c) (txParams_from c) v (calls c).
Definition set_calls (v : list Call) (c : Controller) : Controller :=
  mkController (packageFile c) (networkFile c) (txParams_from c) (project c) v.

(** A method of [this.networkFile] run from the controller. *)
Definition on_networkFile {A} (m : M NetworkData A) : M Controller A := λ c,
  let '(r, d) := m (networkFile c) in (r, set_networkFile d c).

(** lodash [intersection] and [uniq]. *)
Definition intersection (l k : list string) : list string :=
  remove_dups (list_intersection l k).
Definition uniq (l : list string) : list string := remove_dups l.

(** [clashes.join(', ')] *)
Fixpoint join (sep : string) (l : list string) : string :=
  match l with
  | [] => ""
  | [x] => x
  | x :: l' => x +:+ sep +:+ join sep l'
  end.

Section Reconciler.
Context {lib : ZosLib} {names : Naming} {zv : ZosVersion}.

(** *** Push: the deltas *)

Definition packageVersion (c : Controller) : option string := pf_version (packageFile c).
Definition currentVersion (c : Controller) : option string := nf_version (networkFile c).
Definition currentZosversion (c : Controller) : option string := nf_zosversion (networkFile c).

(** [get isPublished()]: [this.packageFile.isPublished || this.appAddress !== undefined] *)
Definition isPublished (c : Controller) : bool :=
  pf_isPublished (packageFile c) || bool_decide (is_Some (appAddress (networkFile c))).

(** [_newVersionRequired()] *)
Definition _newVersionRequired (c : Controller) : bool :=
  negb (bool_decide (packageVersion c = currentVersion c)) && isPublished c.

(** [isLocalContract(contractAlias)] *)
Definition isLocalContract (c : Controller) (contractAlias : string) : bool :=
  pf_hasContract (packageFile c) contractAlias.

(** [isContractDeployed(contractAlias)] *)
Definition isContractDeployed (c : Controller) (contractAlias : string) : bool :=
  negb (isLocalContract c contractAlias) || hasContract (networkFile c) contractAlias.

(** [hasContractChanged(contractAlias, contract?)]; [!undefined] is [true]. *)
Definition hasContractChanged (c : Controller) (contractAlias : string)
    (contract : option Contract) : bool :=
  if negb (isLocalContract c contractAlias) then false
  else if negb (isContractDeployed c contractAlias) then true
  else
    let contract :=
      match contract with
      | Some k => k
      | None => getFromLocal (default "" (pf_contract (packageFile c) contractAlias))
      end in
    negb (default false (hasSameBytecode (networkFile c) contractAlias contract)).

(** [_hasSolidityLibChanged(libClass)] *)
Definition _hasSolidityLibChanged (c : Controller) (libClass : Contract) : bool :=
  negb (default false (hasSameBytecode (networkFile c) (schema_contractName libClass) libClass)).

(** [_hasChangedLibraries(contract, changedLibraries)] *)
Definition _hasChangedLibraries (contract : Contract) (changedLibraries : list Contract) : bool :=
  let libNames := getSolidityLibNames (schema_bytecode contract) in
  negb (bool_decide (intersection (schema_contractName <$> changedLibraries) libNames = [])).

(** [_getAllSolidityLibNames(contractNames)] *)
Definition _getAllSolidityLibNames (contractNames : list string) : list string :=
  uniq (contractNames ≫= λ contractName,
          getSolidityLibNames (schema_bytecode (getFromLocal contractName))).

(** [_solidityLibsForPush(onlyChanged)] *)
Definition _solidityLibsForPush (c : Controller) (onlyChanged : bool) : Result (list Contract) :=
  let libNames := _getAllSolidityLibNames (pf_contractNames (packageFile c)) in
  let clashes := intersection libNames (pf_contractAliases (packageFile c)) in
  if negb (bool_decide (clashes = []))
  then Throw ("Cannot upload libraries with the same name as a contract alias: "
              +:+ join ", " clashes)
  else Ok (filter (λ libClass,
             let hasLib := hasSolidityLib (networkFile c) (schema_contractName libClass) in
             let hasChanged := _hasSolidityLibChanged c libClass in
             negb hasLib || negb onlyChanged || hasChanged = true)
           (getFromLocal <$> libNames)).

(** [_contractsListForPush(onlyChanged, changedLibraries)] *)
Definition _contractsListForPush (c : Controller) (onlyChanged : bool)
    (changedLibraries : list Contract) : list (string * Contract) :=
  let newVersion := _newVersionRequired c in
  filter (λ '(contractAlias, contract),
            newVersion
            || negb onlyChanged
            || hasContractChanged c contractAlias (Some contract)
            || _hasChangedLibraries contract changedLibraries = true)
         ((λ '(contractAlias, contractName), (contractAlias, getFromLocal contractName))
            <$> map_to_list (pf_contracts (packageFile c))).

(** The first two statements of [push(reupload, force)]: the library delta and
    the contract delta. *)
Definition push_deltas (c : Controller) (reupload : bool)
    : Result (list Contract * list (string * Contract)) :=
  match _solidityLibsForPush c (negb reupload) with
  | Throw e => Throw e
  | Ok changedLibraries =>
      Ok (changedLibraries, _contractsListForPush c (negb reupload) changedLibraries)
  end.

End Reconciler.

Section Proxies.
Context {lib : ZosLib} {names : Naming} {zv : ZosVersion} {be : Backend}.

(** *** Calls and batches *)

(** A call to a collaborator: it is entered in the journal and answered by
    the backend. *)
Definition call (q : Call) : M Controller (option string) := λ c,
  (respond (calls c) q, set_calls (calls c ++ [q]) c).

(** A method call on [this.project], which is [undefined] until
    [fetchOrDeploy] has succeeded. *)
Definition call_project (q : Call) : M Controller (option string) := λ c,
  if project c then call q c
  else (Throw "TypeError: Cannot read property of undefined", c).

(** A promise that is not awaited: its effects take place, its rejection is
    lost. *)
Definition detached {A} (m : M Controller A) : M Controller unit := λ c,
  (Ok tt, (m c).2).

(** Modelled from the spec: [allPromisesOrError] of [utils/async] is not among
    the sources.  All the operations of a batch are launched and the batch
    waits for all of them to settle; it succeeds only if all succeed, and
    otherwise raises one error that enumerates every failure.  The operations
    are run here one after the other, in the order of the list. *)
Fixpoint settle {S A} (tasks : list (M S A)) (s : S) : list (Result A) * S :=
  match tasks with
  | [] => ([], s)
  | task :: tasks' =>
      let '(r, s') := task s in
      let '(rs, s'') := settle tasks' s' in
      (r :: rs, s'')
  end.

Definition failures {A} (rs : list (Result A)) : list string :=
  omap (λ r, match r with Throw e => Some e | Ok _ => None end) rs.

Definition newline : string := String (Ascii.ascii_of_nat 10) "".

Definition allPromisesOrError {S A} (tasks : list (M S A)) : M S unit := λ s,
  let '(rs, s') := settle tasks s in
  match failures rs with
  | [] => (Ok tt, s')
  | es => (Throw (join newline es), s')
  end.

(** *** The project deployer *)

Definition keep_dictionaries (old new : NetworkData) : NetworkData :=
  mkNetworkData (nf_contracts old) (nf_solidityLibs old) (nf_proxies old)
    (nf_zosversion new) (nf_proxyAdmin new) (nf_proxyFactory new) (nf_app new)
    (nf_package new) (nf_provider new) (nf_version new) (nf_frozen new)
    (nf_dependencies old).

(** Modelled from the spec: [ProjectDeployer] is not among the sources.
    [fetchOrDeploy(requestedVersion)] ensures that the backend's root artifact
    exists for the version (create-or-fetch); it may fail, and it registers
    the version and the singleton addresses in the record, leaving the
    dictionaries of contracts, libraries, proxies and dependencies alone.  On
    success [this.project] is set. *)
Definition fetchOrDeploy (requestedVersion : option string) : M Controller unit := λ c,
  let q := Deployer_fetchOrDeploy requestedVersion in
  let d := keep_dictionaries (networkFile c)
             (deployer_registers (calls c) requestedVersion (networkFile c)) in
  let c' := set_calls (calls c ++ [q]) (set_networkFile d c) in
  match respond (calls c) q with
  | Ok _ => (Ok tt, set_project true c')
  | Throw e => (Throw e, c')
  end.

(** *** Ownership of proxies *)

(** The predicate of the filter in [_fetchOwnedProxies]:
    [!proxy.admin || !expectedOwner ||
     ZWeb3.toChecksumAddress(proxy.admin) === expectedOwner]. *)
Definition ownedBy (expectedOwner : option string) (proxy : ProxyInterface) : Result bool :=
  if negb (truthy (proxy_admin proxy)) then Ok true
  else if negb (truthy expectedOwner) then Ok true
  else match toChecksumAddress (proxy_admin proxy) with
       | Ok a => Ok (bool_decide (a = expectedOwner))
       | Throw e => Throw e
       end.

(** [Array.prototype.filter] with a predicate that may throw. *)
Fixpoint filterR {A} (pred : A → Result bool) (l : list A) : Result (list A) :=
  match l with
  | [] => Ok []
  | x :: l' =>
      match pred x with
      | Throw e => Throw e
      | Ok b =>
          match filterR pred l' with
          | Throw e => Throw e
          | Ok r => Ok (if b then x :: r else r)
          end
      end
  end.

(** The filter object built by [_fetchOwnedProxies]. *)
Definition owned_filter (c : Controller) (packageName contractAlias proxyAddress : option string)
    : ProxyInterface :=
  mkProxyInterface None
    (js_or packageName
       (if truthy contractAlias then Some (pf_name (packageFile c)) else None))
    contractAlias proxyAddress None None None (Some Upgradeable).

(** [_fetchOwnedProxies(packageName?, contractAlias?, proxyAddress?, ownerAddress?)] *)
Definition _fetchOwnedProxies (c : Controller)
    (packageName contractAlias proxyAddress ownerAddress : option string)
    : Result (list ProxyInterface) :=
  let proxies :=
    getProxies (networkFile c) (owned_filter c packageName contractAlias proxyAddress) in
  match proxies with
  | [] => Ok []
  | _ =>
      match toChecksumAddress (js_or ownerAddress (proxyAdminAddress (networkFile c))) with
      | Throw e => Throw e
      | Ok expectedOwner => filterR (ownedBy expectedOwner) proxies
      end
  end.

(** *** Registration of the admin and the factory *)

(** [_tryRegisterProxyAdmin(adminAddress?)] *)
Definition _tryRegisterProxyAdmin (adminAddress : option string) : M Controller unit :=
  c ← get;
  if truthy (proxyAdminAddress (networkFile c)) then mret tt
  else
    address ← (if truthy adminAddress then mret adminAddress
               else call_project Project_getAdminAddress);
    if truthy address
    then modify (λ c, set_networkFile
                        (set_proxyAdmin (Some (mkAddressWrapper address)) (networkFile c)) c)
    else mret tt.

(** [_tryRegisterProxyFactory(factoryAddress?)] *)
Definition _tryRegisterProxyFactory (factoryAddress : option string) : M Controller unit :=
  c ← get;
  if truthy (proxyFactoryAddress (networkFile c)) then mret tt
  else
    address ← (if truthy factoryAddress then mret factoryAddress
               else call_project Project_proxyFactory);
    if truthy address
    then modify (λ c, set_networkFile
                        (set_proxyFactory (Some (mkAddressWrapper address)) (networkFile c)) c)
    else mret tt.

(** *** Migration of the format version *)

(** [_updateZosVersionsIfNeeded(version)] *)
Definition _updateZosVersionsIfNeeded (version : string) : M Controller unit :=
  modify (λ c,
    let c1 :=
      if bool_decide (nf_zosversion (networkFile c) ≠ Some ZOS_VERSION)
      then set_networkFile (set_zosversion (Some version) (networkFile c)) c
      else c in
    if bool_decide (pf_zosversion (packageFile c1) ≠ Some ZOS_VERSION)
    then set_packageFile (set_pf_zosversion (Some version) (packageFile c1)) c1
    else c1).

(** The task [_migrate] runs for one proxy. *)
Definition migrate_proxy (proxyAdmin : option string) (proxy : ProxyInterface)
    : M Controller (option string) :=
  currentAdmin ← call (Proxy_admin (proxy_address proxy));
  if bool_decide (currentAdmin ≠ proxyAdmin) then
    c ← get;
    if truthy (appAddress (networkFile c))
    then call (AppProxyMigrator (appAddress (networkFile c)) (proxy_address proxy) proxyAdmin)
    else call (SimpleProject_changeProxyAdmin (proxy_address proxy) proxyAdmin)
  else mret None.

(** The branch [proxies.length !== 0] of [_migrate], for the proxy admin
    address [recorded] in the record.  The call to [_tryRegisterProxyAdmin] is
    not awaited. *)
Definition migrate_proxies (recorded : option string) (proxies : list ProxyInterface)
    : M Controller unit :=
  proxyAdmin ← (if truthy recorded then call (ProxyAdmin_fetch recorded)
                else call ProxyAdmin_deploy);
  (if negb (truthy recorded)
   then call Transactions_awaitConfirmations ≫= λ _, mret tt
   else mret tt);;
  detached (_tryRegisterProxyAdmin proxyAdmin);;
  allPromisesOrError (migrate_proxy proxyAdmin <$> proxies).

(** The owner [_migrate] looks for: [this.isPublished ? this.appAddress :
    this.txParams.from]. *)
Definition legacy_owner (c : Controller) : option string :=
  if isPublished c then appAddress (networkFile c) else txParams_from c.

(** [_migrate()] *)
Definition _migrate : M Controller unit :=
  c ← get;
  proxies ← lift_result (_fetchOwnedProxies c None None None (legacy_owner c));
  match proxies with
  | [] => mret tt
  | _ => migrate_proxies (proxyAdminAddress (networkFile c)) proxies
  end.

(** [_migrateZosversionIfNeeded()] *)
Definition _migrateZosversionIfNeeded : M Controller unit :=
  c ← get;
  (if isMigratableZosversion (currentZosversion c) then _migrate else mret tt);;
  _updateZosVersionsIfNeeded ZOS_VERSION.

(** *** Batch change of the admin *)

Definition with_admin (newAdmin : option string) (p : ProxyInterface) : ProxyInterface :=
  mkProxyInterface (proxy_alias p) (proxy_package p) (proxy_contract p) (proxy_address p)
    (proxy_version p) (proxy_implementation p) newAdmin (proxy_kind p).

(** The task [_changeProxiesAdmin] runs for one proxy: the backend call, and
    after it the update of the record. *)
Definition change_proxy_admin (newAdmin : option string) (aProxy : ProxyInterface)
    : M Controller unit :=
  call_project (Project_changeProxyAdmin (proxy_address aProxy) newAdmin);;
  on_networkFile (updateProxy aProxy (λ anotherProxy, Ok (with_admin newAdmin anotherProxy))).

(** [_changeProxiesAdmin(proxies, newAdmin)], with the default [this.project]. *)
Definition _changeProxiesAdmin (proxies : list ProxyInterface) (newAdmin : option string)
    : M Controller unit :=
  allPromisesOrError (change_proxy_admin newAdmin <$> proxies).

(** [setProxiesAdmin(packageName, contractAlias, proxyAddress, newAdmin)] *)
Definition setProxiesAdmin (packageName contractAlias proxyAddress newAdmin : option string)
    : M Controller (list ProxyInterface) :=
  _migrateZosversionIfNeeded;;
  c ← get;
  proxies ← lift_result (_fetchOwnedProxies c packageName contractAlias proxyAddress None);
  match proxies with
  | [] => mret []
  | _ =>
      c ← get;
      fetchOrDeploy (currentVersion c);;
      _changeProxiesAdmin proxies newAdmin;;
      mret proxies
  end.

(** *** Batch upgrade *)

Definition with_implementation (implementation version : option string) (p : ProxyInterface)
    : ProxyInterface :=
  mkProxyInterface (proxy_alias p) (proxy_package p) (proxy_contract p) (proxy_address p)
    version implementation (proxy_admin p) (proxy_kind p).

(** [_upgradeProxy(proxy, initMethod, initArgs)].  [_setSolidityLibs] links
    the contract class in memory and touches neither the record nor the
    backend. *)
Definition _upgradeProxy (proxy : ProxyInterface) (initMethod : option string)
    (initArgs : list string) : M Controller unit :=
  rethrow (λ message,
      "Proxy " +:+ toContractFullName (proxy_package proxy) (proxy_contract proxy)
      +:+ " at " +:+ show (proxy_address proxy)
      +:+ " failed to upgrade with error: " +:+ message)
    (call (ContractManager_getContractClass (proxy_package proxy) (proxy_contract proxy));;
     currentImplementation ← call (Proxy_implementation (proxy_address proxy));
     contractImplementation ←
       call_project (Project_getImplementation (proxy_package proxy) (proxy_contract proxy));
     c ← get;
     packageVersion ←
       (if bool_decide (proxy_package proxy = Some (pf_name (packageFile c)))
        then mret (currentVersion c)
        else call_project (Project_getDependencyVersion (proxy_package proxy)));
     newImplementation ←
       (if bool_decide (currentImplementation ≠ contractImplementation)
        then call_project (Project_upgradeProxy (proxy_address proxy) (proxy_package proxy)
                             (proxy_contract proxy) initMethod initArgs);;
             mret contractImplementation
        else mret currentImplementation);
     on_networkFile (updateProxy proxy (λ aProxy,
       match semanticVersionToString packageVersion with
       | Ok version => Ok (with_implementation newImplementation (Some version) aProxy)
       | Throw e => Throw e
       end))).

(** [upgradeProxies(packageName, contractAlias, proxyAddress, initMethod, initArgs)] *)
Definition upgradeProxies (packageName contractAlias proxyAddress initMethod : option string)
    (initArgs : list string) : M Controller (list ProxyInterface) :=
  _migrateZosversionIfNeeded;;
  c ← get;
  proxies ← lift_result (_fetchOwnedProxies c packageName contractAlias proxyAddress None);
  match proxies with
  | [] => mret []
  | _ =>
      c ← get;
      fetchOrDeploy (currentVersion c);;
      allPromisesOrError ((λ proxy, _upgradeProxy proxy initMethod initArgs) <$> proxies);;
      mret proxies
  end.

(** *** Creation of a proxy *)

(** [createProxyInstance(kind, salt, contract, signature, createArgs)]; the
    result is the kind of the proxy handle and the address of the instance. *)
Definition createProxyInstance (kind : option ProxyType) (salt : option string)
    (contract : Contract) (signature : option string) (createArgs : CreateArgs)
    : M Controller (ProxyType * option string) :=
  match kind with
  | Some Upgradeable =>
      instance ← (if truthy salt
                  then call_project (Project_createProxyWithSalt contract salt signature createArgs)
                  else call_project (Project_createProxy contract createArgs));
      mret (Upgradeable, instance)
  | Some Minimal =>
      if truthy salt
      then throw "Cannot create a minimal proxy with a precomputed address, use an Upgradeable proxy instead."
      else
        instance ← call_project (Project_createMinimalProxy contract createArgs);
        mret (Minimal, instance)
  | None => throw "Unknown proxy type undefined"
  end.

(** [getProxyDeploymentAddress(salt, sender?)].  The call to
    [_tryRegisterProxyFactory] is not awaited. *)
Definition getProxyDeploymentAddress (salt sender : option string)
    : M Controller (option string) :=
  _migrateZosversionIfNeeded;;
  c ← get;
  fetchOrDeploy (currentVersion c);;
  address ← call_project (Project_getProxyDeploymentAddress salt sender);
  detached (_tryRegisterProxyFactory None);;
  mret address.

(** [_checkDeploymentAddress(salt)] *)
Definition _checkDeploymentAddress (salt : option string) : M Controller unit :=
  deploymentAddress ← getProxyDeploymentAddress salt None;
  code ← call (ZWeb3_getCode deploymentAddress);
  if bool_decide (code ≠ Some "0x")
  then throw ("Deployment address for salt " +:+ show salt +:+ " is already in use")
  else mret tt.

(** [_updateTruffleDeployedInformation(contractAlias, implementation)]: it
    rewrites a build artifact, outside the record. *)
Definition _updateTruffleDeployedInformation (contractAlias : string)
    (implementation : option string) : M Controller unit :=
  c ← get;
  if truthy (pf_contract (packageFile c) contractAlias)
  then call (Truffle_updateDeployedInformation (Some contractAlias) implementation)
         ≫= λ _, mret tt
  else mret tt.

(** [createProxy(packageName, contractAlias, initMethod, initArgs, admin?, salt?,
    signature?, kind?)].  [_setSolidityLibs] and [checkInitialization] (which
    only warns) touch neither the record nor the backend. *)
Definition createProxy (packageName : option string) (contractAlias : string)
    (initMethod : option string) (initArgs : list string)
    (admin salt signature : option string) (kind : option ProxyType)
    : M Controller (option string) :=
  try_finally
    (_migrateZosversionIfNeeded;;
     c ← get;
     fetchOrDeploy (currentVersion c);;
     c ← get;
     let packageName :=
       if truthy packageName then default "" packageName else pf_name (packageFile c) in
     call (ContractManager_getContractClass (Some packageName) (Some contractAlias));;
     let contract := getContractClass (Some packageName) (Some contractAlias) in
     (if truthy salt then _checkDeploymentAddress salt else mret tt);;
     let createArgs :=
       mkCreateArgs (Some packageName) (Some contractAlias) initMethod initArgs admin in
     '(proxy, instance) ← createProxyInstance kind salt contract signature createArgs;
     implementationAddress ←
       call (match proxy with
             | Upgradeable => Proxy_implementation instance
             | Minimal => MinimalProxy_implementation instance
             end);
     c ← get;
     packageVersion ←
       (if bool_decide (packageName = pf_name (packageFile c))
        then mret (currentVersion c)
        else call_project (Project_getDependencyVersion (Some packageName)));
     _updateTruffleDeployedInformation contractAlias instance;;
     version ← lift_result (semanticVersionToString packageVersion);
     c ← get;
     on_networkFile (addProxy packageName contractAlias
       (mkProxyInterface None None None instance (Some version) implementationAddress
          (js_or admin (proxyAdminAddress (networkFile c))) kind));;
     mret instance)
    (_tryRegisterProxyAdmin None;;
     _tryRegisterProxyFactory None).

End Proxies.

(** ** Concrete collaborators

    Small implementations of the collaborators, used to run the definitions
    on concrete records. *)

Module Doubles.

(** Digest: a tagged copy of the bytecode.  Versions: strings pass, a missing
    version is refused.  Checksum: addresses are taken as already
    checksummed, a missing address yields [null]. *)
Definition zosLib : ZosLib := {|
  bytecodeDigest := λ bytecode, "digest:" +:+ bytecode;
  semanticVersionToString := λ v,
    match v with
    | Some s => Ok s
    | None => Throw "Cannot handle version of type undefined"
    end;
  getSolidityLibNames := λ bytecode,
    if bool_decide (bytecode = "bytecode:Token") then ["SafeMath"] else [];
  getFromLocal := λ name, mkContract name ("bytecode:" +:+ name);
  toChecksumAddress := λ a, Ok (if truthy a then a else None);
|}.

(** The part of a full name before its last slash, if there is a slash, and
    the part after it. *)
Fixpoint split_last_slash (s : string) : option string * string :=
  match s with
  | EmptyString => (None, EmptyString)
  | String a s' =>
      match split_last_slash s' with
      | (Some prefix, name) => (Some (String a prefix), name)
      | (None, name) =>
          if bool_decide (a = "/"%char) then (Some EmptyString, name)
          else (None, String a name)
      end
  end.

Definition naming : Naming := {|
  toContractFullName := λ package contract,
    if truthy package then default "" package +:+ "/" +:+ show contract else show contract;
  fromContractFullName := λ fullname,
    let '(package, contract) := split_last_slash fullname in
    (if truthy package then package else None,
     if truthy (Some contract) then Some contract else None);
|}.

Definition zosVersion : ZosVersion := {|
  ZOS_VERSION := "2.2";
  checkVersion := λ _ _, Ok tt;
  isMigratableZosversion := λ v,
    match v with
    | Some v => negb (bool_decide (v = "2.2"))
    | None => false
    end;
|}.

(** A backend on which every call succeeds; creation calls answer the address
    of the new instance. *)
Definition backend : Backend := {|
  respond := λ _ q,
    match q with
    | Project_createProxy _ _ | Project_createProxyWithSalt _ _ _ _
    | Project_createMinimalProxy _ _ => Ok (Some "0xC0FFEE")
    | ZWeb3_getCode _ => Ok (Some "0x")
    | _ => Ok None
    end;
  getContractClass := λ _ contract, mkContract (show contract) ("bytecode:" +:+ show contract);
  deployer_registers := λ _ _ d, d;
|}.

(** A reading of a decimal number. *)
Definition digit (a : ascii) : option N :=
  let n := N_of_ascii a in
  if bool_decide (48 ≤ n ∧ n ≤ 57)%N then Some (n - 48)%N else None.

Fixpoint number_from (acc : N) (s : string) : option N :=
  match s with
  | EmptyString => Some acc
  | String a s' => d ← digit a; number_from (acc * 10 + d)%N s'
  end.

Definition number (s : string) : option N :=
  match s with
  | EmptyString => None
  | _ => number_from 0%N s
  end.

(** The part of a string before its first dot, and the part after it. *)
Fixpoint split_dot (s : string) : string * option string :=
  match s with
  | EmptyString => (EmptyString, None)
  | String a s' =>
      if bool_decide (a = "."%char) then (EmptyString, Some s')
      else let '(x, rest) := split_dot s' in (String a x, rest)
  end.

(** [MAJOR.MINOR.PATCH] *)
Definition triple (s : string) : option SemVer :=
  let '(a, r1) := split_dot s in
  r1 ← r1;
  let '(b, r2) := split_dot r1 in
  r2 ← r2;
  x ← number a; y ← number b; z ← number r2;
  Some (mkSemVer x y z).

Definition semver_le (v w : SemVer) : bool :=
  bool_decide ((major v < major w)%N
    ∨ (major v = major w ∧ ((minor v < minor w)%N
        ∨ (minor v = minor w ∧ (patch v ≤ patch w)%N)))).

(** A fragment of semver: plain triples, and caret ranges [^M.m.p] with
    [M > 0], which admit the versions of the same major not below the bound. *)
Definition semver : Semver := {|
  semver_coerce := triple;
  semver_satisfies := λ v range,
    match v, range with
    | Some v, String "^" bound =>
        match triple bound with
        | Some b => bool_decide (major b ≠ 0%N ∧ major v = major b) && semver_le b v
        | None => false
        end
    | Some v, exact => bool_decide (triple exact = Some v)
    | None, _ => false
    end;
|}.

End Doubles.


(** ** Vocabulary of the properties *)

Section Vocabulary.
Context {lib : ZosLib} {names : Naming} {zv : ZosVersion} {be : Backend}.

(** A library the bytecode of the contract refers to is in the library delta. *)
Definition library_in_delta (contract : Contract) (changedLibraries : list Contract) : Prop :=
  ∃ libName libClass,
    libName ∈ getSolidityLibNames (schema_bytecode contract)
    ∧ libClass ∈ changedLibraries
    ∧ schema_contractName libClass = libName.

(** The hash recorded for the alias is not the digest of the contract's
    current bytecode. *)
Definition hash_differs (d : NetworkData) (alias : string) (contract : Contract) : Prop :=
  ∃ entry, nf_contracts d !! alias = Some entry
           ∧ contract_localBytecodeHash entry ≠ Some (bytecodeDigest (schema_bytecode contract)).

(** A relation between the state before and the state after holds for every
    run of a computation, whether it returns or throws. *)
Definition always {S A} (R : relation S) (m : M S A) : Prop := ∀ s, R s (m s).2.

(** The calls that create a proxy. *)
Definition is_creation (q : Call) : bool :=
  match q with
  | Project_createProxy _ _ | Project_createProxyWithSalt _ _ _ _
  | Project_createMinimalProxy _ _ => true
  | _ => false
  end.

(** The proxy a call of a batch operation mutates: the admin change and the
    upgrade. *)
Definition batch_target (q : Call) : option (option string) :=
  match q with
  | Project_changeProxyAdmin proxy _ | Project_upgradeProxy proxy _ _ _ _ => Some proxy
  | _ => None
  end.

(** The proxy a call of the format migration mutates. *)
Definition migration_target (q : Call) : option (option string) :=
  match q with
  | AppProxyMigrator _ proxy _ | SimpleProject_changeProxyAdmin proxy _ => Some proxy
  | _ => None
  end.

(** The condition of [_fetchOwnedProxies] on the recorded admin, in words: the
    proxy records no admin, or no owner is expected, or the recorded admin is,
    in checksummed form, the expected owner. *)
Definition owned (expectedOwner : option string) (p : ProxyInterface) : Prop :=
  truthy (proxy_admin p) = false
  ∨ truthy expectedOwner = false
  ∨ toChecksumAddress (proxy_admin p) = Ok expectedOwner.

(** Two entries describe the same proxy. *)
Definition same_identity (e e' : ProxyInterface) : Prop :=
  proxy_address e' = proxy_address e
  ∧ proxy_kind e' = proxy_kind e
  ∧ proxy_package e' = proxy_package e
  ∧ proxy_contract e' = proxy_contract e.

(** The entry [e] stored under the key [k] is what [updateProxy] looks for
    when given one of [proxies]. *)
Definition located (proxies : list ProxyInterface) (k : string) (e : ProxyInterface) : Prop :=
  ∃ p, p ∈ proxies
       ∧ toContractFullName (proxy_package p) (proxy_contract p) = k
       ∧ matches_address (proxy_address p) e = true.

(** A call that creates no proxy, migrates only proxies at the addresses
    [migrated], and changes the admin or the implementation only of one of
    [proxies]. *)
Definition allowed (migrated : option string → Prop) (proxies : list ProxyInterface)
    (q : Call) : Prop :=
  is_creation q = false
  ∧ (∀ a, migration_target q = Some a → migrated a)
  ∧ (∀ a, batch_target q = Some a → ∃ p, p ∈ proxies ∧ proxy_address p = a).

(** What a computation may do to the proxies: the calls it adds to the journal
    are [allowed]; the lists of the record keep their keys, their length and
    the identity of their entries; and an entry is modified only if it is
    [located] by one of [proxies]. *)
Definition effect (migrated : option string → Prop) (proxies : list ProxyInterface)
    (c c' : Controller) : Prop :=
  (∃ new, calls c' = calls c ++ new ∧ Forall (allowed migrated proxies) new)
  ∧ (∀ k, Forall2 (λ e e', same_identity e e' ∧ (e' = e ∨ located proxies k e))
            (_proxiesOf (networkFile c) k) (_proxiesOf (networkFile c') k))
  ∧ (∀ k, nf_proxies (networkFile c') !! k = None ↔ nf_proxies (networkFile c) !! k = None).

(** Every address is recorded once in the record. *)
Definition unique_addresses (d : NetworkData) : Prop :=
  ∀ k1 i1 e1 k2 i2 e2 a,
    _proxiesOf d k1 !! i1 = Some e1 → _proxiesOf d k2 !! i2 = Some e2 →
    proxy_address e1 = Some a → proxy_address e2 = Some a →
    k1 = k2 ∧ i1 = i2.

(** The entry is stored in the record, under some full name. *)
Definition recorded (d : NetworkData) (e : ProxyInterface) : Prop :=
  ∃ k, e ∈ _proxiesOf d k.

(** The owner the batch operations expect: no owner is given to
    [_fetchOwnedProxies], which takes the proxy admin address of the record,
    in checksummed form. *)
Definition expectedOwner (ownerAddress : option string) (d : NetworkData)
    : Result (option string) :=
  toChecksumAddress (js_or ownerAddress (proxyAdminAddress d)).

(** The guarantee of a batch operation that starts in [c], fetches the
    proxies in [c1] and ends in [c']: the calls made since [c1] create and
    migrate no proxy, and those that change the admin or the implementation
    of a proxy go to the address of a recorded entry that is [ok]; and, when
    every address is recorded once, an entry that is not [ok] is still in its
    place at the end, and none of these calls goes to its address. *)
Definition mutates_only (ok : ProxyInterface → Prop) (c c1 c' : Controller) : Prop :=
  ∃ main,
    calls c' = calls c1 ++ main
    ∧ (∀ q, q ∈ main → migration_target q = None ∧ is_creation q = false)
    ∧ (∀ q a, q ∈ main → batch_target q = Some a →
         ∃ e, recorded (networkFile c) e ∧ proxy_address e = a ∧ ok e)
    ∧ (unique_addresses (networkFile c) →
         ∀ k i e, _proxiesOf (networkFile c) k !! i = Some e → ¬ ok e →
           _proxiesOf (networkFile c') k !! i = Some e
           ∧ ∀ a q, proxy_address e = Some a → q ∈ main → batch_target q ≠ Some (Some a)).

(** The guarantee of the format migration that starts in [c] and ends in
    [c1]: the proxies of the record are unchanged; the calls create no proxy
    and are none of a batch; those that migrate a proxy go to the address of
    a recorded entry that is [ok]; and, when every address is recorded once,
    none of them goes to the address of an entry that is not [ok]. *)
Definition migrates_only (ok : ProxyInterface → Prop) (c c1 : Controller) : Prop :=
  nf_proxies (networkFile c1) = nf_proxies (networkFile c)
  ∧ ∃ mig,
      calls c1 = calls c ++ mig
      ∧ (∀ q, q ∈ mig → batch_target q = None ∧ is_creation q = false)
      ∧ (∀ q a, q ∈ mig → migration_target q = Some a →
           ∃ e, recorded (networkFile c) e ∧ proxy_address e = a ∧ ok e)
      ∧ (unique_addresses (networkFile c) →
           ∀ k i e a q, _proxiesOf (networkFile c) k !! i = Some e → ¬ ok e →
             proxy_address e = Some a → q ∈ mig → migration_target q ≠ Some (Some a)).

End Vocabulary.

(** ** Concrete records *)

(** A manifest with the contract [Vault], whose bytecode refers to no library,
    and a record in which it is deployed with the current bytecode, for the
    same package version. *)
Definition vault_controller : Controller :=
  let entry :=
    mkContractInterface (Some "0x1") None (Some "digest:bytecode:Vault") None None
      None None None in
  mkController
    (mkPackageFile "zos" (Some "1.0.0") {["Vault" := "Vault"]} ∅ false (Some "2.2"))
    (mkNetworkData {["Vault" := entry]} ∅ ∅ (Some "2.2") None None None None None
       (Some "1.0.0") None None)
    None false [].


(** The same manifest, with a record in which [Vault] was deployed with
    another bytecode. *)
Definition stale_vault_controller : Controller :=
  let entry :=
    mkContractInterface (Some "0x1") None (Some "digest:bytecode:Vault, before") None None
      None None None in
  set_networkFile (set_contracts {["Vault" := entry]} (networkFile vault_controller))
    vault_controller.

(** A record with two upgradeable proxies of the contract [Token]: one whose
    admin is the proxy admin of the record, and one with another admin. *)
Definition token_owned : ProxyInterface :=
  mkProxyInterface None None None (Some "0xA") (Some "1.0.0") (Some "0x1")
    (Some "0xAdmin") (Some Upgradeable).

Definition token_foreign : ProxyInterface :=
  mkProxyInterface None None None (Some "0xB") (Some "1.0.0") (Some "0x1")
    (Some "0xElse") None.

Definition token_controller : Controller :=
  mkController
    (mkPackageFile "zos" (Some "1.0.0") {["Token" := "Token"]} ∅ false (Some "2.2"))
    (mkNetworkData ∅ ∅ {["zos/Token" := [token_owned; token_foreign]]} (Some "2.2")
       (Some (mkAddressWrapper (Some "0xAdmin"))) None None None None
       (Some "1.0.0") None None)
    None false [].

(** The same record without a proxy admin address. *)
Definition token_controller_without_admin : Controller :=
  set_networkFile (set_proxyAdmin None (networkFile token_controller)) token_controller.

(** A record with a minimal proxy next to an upgradeable one. *)
Definition token_minimal : ProxyInterface :=
  mkProxyInterface None None None (Some "0xB") (Some "1.0.0") (Some "0x1")
    None (Some Minimal).

Definition minimal_controller : Controller :=
  set_networkFile
    (set_proxies {["zos/Token" := [token_owned; token_minimal]]} (networkFile token_controller))
    token_controller.



(** Membership in a list written out in full. *)
Ltac elem_cases H :=
  repeat (apply elem_of_cons in H as [-> | H]); [.. | by apply elem_of_nil in H].


(* ===================================================================== *)
(** * Part I, continued: the rest of the record and of the controller      *)
(* ===================================================================== *)

(** ** ZosNetworkFile: contracts and libraries *)

(** A deployed instance as [project.setImplementation] returns it: its
    address, and the schema of its class with the linked bytecode it was
    deployed from. *)
Record Instance : Type := mkInstance {
  instance_address : string;
  instance_class : Contract;
  instance_linkedBytecode : string;
}.

(** [zos-lib]: the constructor and the body of the code of an instance. *)
Class ZosLibCode : Type := {
  constructorCode : Instance → string;
  bodyCode : Instance → string;
}.

Definition set_solidityLibs (v : gmap string SolidityLibInterface) (d : NetworkData)
    : NetworkData :=
  mkNetworkData (nf_contracts d) v (nf_proxies d) (nf_zosversion d)
    (nf_proxyAdmin d) (nf_proxyFactory d) (nf_app d) (nf_package d)
    (nf_provider d) (nf_version d) (nf_frozen d) (nf_dependencies d).

Definition set_version (v : option string) (d : NetworkData) : NetworkData :=
  mkNetworkData (nf_contracts d) (nf_solidityLibs d) (nf_proxies d) (nf_zosversion d)
    (nf_proxyAdmin d) (nf_proxyFactory d) (nf_app d) (nf_package d)
    (nf_provider d) v (nf_frozen d) (nf_dependencies d).

(** The filter [{}] of [getProxies()]. *)
Definition no_filter : ProxyInterface :=
  mkProxyInterface None None None None None None None None.

Section NetworkFileMore.
Context {lib : ZosLib} {names : Naming} {code : ZosLibCode}.

(** [get contractAliases()]: [Object.keys(this.contracts)]. *)
Definition contractAliases (d : NetworkData) : list string :=
  (map_to_list (nf_contracts d)).*1.

(** [setContract(alias, value)] *)
Definition setContract (alias : string) (value : ContractInterface) : M NetworkData unit :=
  modify (λ d, set_contracts (<[alias := value]> (nf_contracts d)) d).

(** [unsetContract(alias)] *)
Definition unsetContract (alias : string) : M NetworkData unit :=
  modify (λ d, set_contracts (delete alias (nf_contracts d)) d).

(** [addContract(alias, instance, { warnings, types, storage })] *)
Definition addContract (alias : string) (instance : Instance)
    (warnings types storage : option string) : M NetworkData unit :=
  setContract alias
    (mkContractInterface
       (Some (instance_address instance))
       (Some (constructorCode instance))
       (Some (bytecodeDigest (schema_bytecode (instance_class instance))))
       (Some (bytecodeDigest (instance_linkedBytecode instance)))
       (Some (bytecodeDigest (bodyCode instance)))
       types storage warnings).

(** [addSolidityLib(libName, instance)] *)
Definition addSolidityLib (libName : string) (instance : Instance) : M NetworkData unit :=
  modify (λ d,
    set_solidityLibs
      (<[libName :=
           mkSolidityLibInterface
             (instance_address instance)
             (constructorCode instance)
             (bytecodeDigest (bodyCode instance))
             (bytecodeDigest (schema_bytecode (instance_class instance)))
             (bytecodeDigest (instance_linkedBytecode instance))]>
         (nf_solidityLibs d)) d).

(** [unsetSolidityLib(libName)] *)
Definition unsetSolidityLib (libName : string) : M NetworkData unit :=
  modify (λ d, set_solidityLibs (delete libName (nf_solidityLibs d)) d).

(** [setSolidityLib(alias, value)] *)
Definition setSolidityLib (alias : string) (value : SolidityLibInterface)
    : M NetworkData unit :=
  modify (λ d, set_solidityLibs (<[alias := value]> (nf_solidityLibs d)) d).

(** [getSolidityLibs(libs)]: the addresses of the recorded libraries whose
    name is in [libs], collected into a dictionary by [reduce]. *)
Definition getSolidityLibs (d : NetworkData) (libs : list string) : gmap string string :=
  foldl (λ someLib '(libName, address), <[libName := address]> someLib) ∅
    ((λ '(libName, l), (libName, lib_address l))
       <$> filter (λ '(libName, _), libName ∈ libs) (map_to_list (nf_solidityLibs d))).

(** [solidityLibsMissing(libs)]: [difference(Object.keys(this.solidityLibs), libs)]. *)
Definition solidityLibsMissing (d : NetworkData) (libs : list string) : list string :=
  list_difference (map_to_list (nf_solidityLibs d)).*1 libs.

(** [getSolidityLibOrContract(aliasOrName)]:
    [this.data.solidityLibs[aliasOrName] || this.data.contracts[aliasOrName]]. *)
Definition getSolidityLibOrContract (d : NetworkData) (aliasOrName : string)
    : option (SolidityLibInterface + ContractInterface) :=
  match nf_solidityLibs d !! aliasOrName with
  | Some l => Some (inl l)
  | None => inr <$> nf_contracts d !! aliasOrName
  end.

(** [hasSolidityLibOrContract(aliasOrName)] *)
Definition hasSolidityLibOrContract (d : NetworkData) (aliasOrName : string) : bool :=
  hasSolidityLib d aliasOrName || hasContract d aliasOrName.

(** [updateImplementation(aliasOrName, fn)]; [fn] is given as its action on
    an entry of either kind. *)
Definition updateImplementation (aliasOrName : string)
    (fn_contract : ContractInterface → ContractInterface)
    (fn_lib : SolidityLibInterface → SolidityLibInterface) : M NetworkData unit :=
  modify (λ d,
    if hasContract d aliasOrName
    then set_contracts (alter fn_contract aliasOrName (nf_contracts d)) d
    else if hasSolidityLib d aliasOrName
    then set_solidityLibs (alter fn_lib aliasOrName (nf_solidityLibs d)) d
    else d).

(** [contractAliasesMissingFromPackage()] for the aliases of the manifest. *)
Definition contractAliasesMissingFromPackage (d : NetworkData) (pf : PackageFile)
    : list string :=
  list_difference (contractAliases d) (pf_contractAliases pf).

(** [hasContracts()]: [!isEmpty(this.data.contracts)]. *)
Definition hasContracts (d : NetworkData) : bool :=
  negb (bool_decide (nf_contracts d = ∅)).

(** [isCurrentVersion(version)]: [this.version === version]. *)
Definition isCurrentVersion (d : NetworkData) (version : option string) : bool :=
  bool_decide (nf_version d = version).

(** ** ZosNetworkFile: more on proxies *)

(** [getProxy(address)]: [find(this.getProxies(), { address })]. *)
Definition getProxy (d : NetworkData) (address : string) : option ProxyInterface :=
  head (filter (λ p, matches_address (Some address) p = true) (getProxies d no_filter)).

(** [hasProxies(aFilter)]: [!isEmpty(this.getProxies(aFilter))]. *)
Definition hasProxies (d : NetworkData) (aFilter : ProxyInterface) : bool :=
  negb (bool_decide (getProxies d aFilter = [])).

(** [setProxies(packageName, alias, value)] *)
Definition setProxies (packageName alias : string) (value : list ProxyInterface)
    : M NetworkData unit :=
  modify (λ d,
    set_proxies (<[toContractFullName (Some packageName) (Some alias) := value]> (nf_proxies d)) d).

(** ** ZosNetworkFile: more on dependencies *)

(** [get dependencies()]: [this.data.dependencies || {}]. *)
Definition dependencies (d : NetworkData) : gmap string DependencyInterface :=
  default ∅ (nf_dependencies d).

(** [get dependenciesNames()] *)
Definition dependenciesNames (d : NetworkData) : list string :=
  (map_to_list (dependencies d)).*1.

(** lodash [isEmpty] on the result of [getDependency]: [null], [{}], or an
    entry without a member. *)
Definition isEmpty_dependency (dep : option DependencyInterface) : bool :=
  match dep with
  | None => true
  | Some dep => bool_decide (dep = mkDependencyInterface None None None None)
  end.

(** [hasDependency(name)]: [!isEmpty(this.getDependency(name))]. *)
Definition hasDependency (d : NetworkData) (name : string) : bool :=
  negb (isEmpty_dependency (getDependency d name)).

(** [hasDependencies()]: [!isEmpty(this.dependencies)]. *)
Definition hasDependencies (d : NetworkData) : bool :=
  negb (bool_decide (dependencies d = ∅)).

(** [unsetDependency(name)] *)
Definition unsetDependency (name : string) : M NetworkData unit :=
  modify (λ d,
    match nf_dependencies d with
    | None => d
    | Some deps => set_dependencies (Some (delete name deps)) d
    end).

(** [dependencyHasCustomDeploy(name)]: [dep && dep.customDeploy], as a
    condition. *)
Definition dependencyHasCustomDeploy (d : NetworkData) (name : string) : bool :=
  truthy_bool (getDependency d name ≫= dep_customDeploy).

(** [dependenciesNamesMissingFromPackage()] for the manifest. *)
Definition dependenciesNamesMissingFromPackage (d : NetworkData) (pf : PackageFile)
    : list string :=
  list_difference (dependenciesNames d) (map_to_list (pf_dependencies pf)).*1.

End NetworkFileMore.

(** ** The prompt: the proxy a command refers to *)

(** The object [proxyInfo] returns: [{ contractFullName, address,
    proxyReference }]. *)
Record ProxyReference : Type := mkProxyReference {
  reference_contractFullName : option string;
  reference_address : option string;
  reference_proxyReference : option string;
}.

(** [utils/naming], once more: [toContractFullName] as the value it returns,
    which may be [undefined].  [Naming] has it as the key of a dictionary,
    where [undefined] reads as a string. *)
Class NamingValue {names : Naming} : Type := {
  toContractFullName_value : option string → option string → option string;
  toContractFullName_key : ∀ package contract,
    toContractFullName package contract = show (toContractFullName_value package contract);
}.

Section Prompt.
Context {names : Naming} {value : NamingValue}.

(** [proxyInfo({ contractAlias, proxyAddress, packageName }, network)], on
    the record [networkFile] that [packageFile.networkFile(network)] loads. *)
Definition proxyInfo (networkFile : NetworkData)
    (contractAlias proxyAddress packageName : option string) : ProxyReference :=
  let proxyParams :=
    mkProxyInterface None packageName contractAlias proxyAddress None None None None in
  if negb (truthy proxyAddress) && negb (truthy contractAlias)
  then mkProxyReference None None None
  else if negb (hasProxies networkFile proxyParams)
  then
    let contractFullName := toContractFullName_value packageName contractAlias in
    mkProxyReference contractFullName None (js_or proxyAddress contractFullName)
  else
    let proxies := getProxies networkFile proxyParams in
    let proxy := default no_filter (head proxies) in
    let contractFullName :=
      toContractFullName_value (proxy_package proxy) (proxy_contract proxy) in
    mkProxyReference contractFullName (proxy_address proxy)
      (js_or proxyAddress contractFullName).

End Prompt.

(** ** NetworkController: the checks *)

Section ControllerChecks.
Context {lib : ZosLib} {names : Naming} {zv : ZosVersion}.

(** [checkNotFrozen()] *)
Definition checkNotFrozen : M Controller unit :=
  c ← get;
  if truthy_bool (nf_frozen (networkFile c))
  then throw "Cannot modify contracts in a frozen version. Run zos bump to create a new version first."
  else mret tt.

(** [_checkVersion()] *)
Definition _checkVersion : M Controller unit :=
  c ← get;
  if _newVersionRequired c
  then
    modify (λ c, set_networkFile (set_frozen (Some false) (networkFile c)) c);;
    modify (λ c, set_networkFile (set_contracts ∅ (networkFile c)) c)
  else mret tt.

(** [isContractDefined(contractAlias)] *)
Definition isContractDefined (c : Controller) (contractAlias : string) : bool :=
  pf_hasContract (packageFile c) contractAlias.

(** [_errorForLocalContractDeployed(contractAlias)]; the member
    [this.network] of the controller, which only names the network in
    messages and file names, is given as an argument.  [None] is the result
    [undefined] of a function that falls off its end. *)
Definition _errorForLocalContractDeployed (network : string) (c : Controller)
    (contractAlias : string) : option string :=
  if negb (isContractDefined c contractAlias)
  then Some ("Contract " +:+ contractAlias +:+ " not found in this project")
  else if negb (isContractDeployed c contractAlias)
  then Some ("Contract " +:+ contractAlias +:+ " is not deployed to " +:+ network +:+ ".")
  else if hasContractChanged c contractAlias None
  then Some ("Contract " +:+ contractAlias
             +:+ " has changed locally since the last deploy, consider running 'zos push'.")
  else None.

(** [_errorForLocalContractsDeployed()]; lodash [partition] gives the aliases
    that pass the test and those that do not. *)
Definition _errorForLocalContractsDeployed (c : Controller) : option string :=
  let contractsDeployed :=
    filter (λ alias, isContractDeployed c alias = true) (pf_contractAliases (packageFile c)) in
  let contractsMissing :=
    filter (λ alias, isContractDeployed c alias ≠ true) (pf_contractAliases (packageFile c)) in
  let contractsChanged :=
    filter (λ alias, hasContractChanged c alias None = true) contractsDeployed in
  if negb (bool_decide (contractsMissing = []))
  then Some ("Contracts " +:+ join ", " contractsMissing +:+ " are not deployed.")
  else if negb (bool_decide (contractsChanged = []))
  then Some ("Contracts " +:+ join ", " contractsChanged
             +:+ " have changed since the last deploy.")
  else None.

(** [_handleErrorMessage(msg, throwIfFail)]: the message is thrown or
    printed. *)
Definition _handleErrorMessage (msg : string) (throwIfFail : bool) : M Controller unit :=
  if throwIfFail then throw msg else mret tt.

(** [checkLocalContractsDeployed(throwIfFail)]; an empty message is falsy. *)
Definition checkLocalContractsDeployed (throwIfFail : bool) : M Controller unit :=
  c ← get;
  let err := _errorForLocalContractsDeployed c in
  if truthy err then _handleErrorMessage (default "" err) throwIfFail else mret tt.

(** [checkLocalContractDeployed(contractAlias, throwIfFail)] *)
Definition checkLocalContractDeployed (network : string) (contractAlias : string)
    (throwIfFail : bool) : M Controller unit :=
  c ← get;
  let err := _errorForLocalContractDeployed network c contractAlias in
  if truthy err then _handleErrorMessage (default "" err) throwIfFail else mret tt.

End ControllerChecks.

(** ** Dependency.ts: a dependency installed in node_modules *)

(** The npm package [semver], continued: [clean] yields [null] for a string
    that is not a version. *)
Class SemverClean : Type := {
  semver_clean : option string → option string;
}.

(** [ZosPackageFile] is not among the sources.  [Dependency] and the
    controller use: whether the manifest of a dependency exists
    ([fs.exists]), the constructor [new ZosPackageFile(filename)], which may
    throw, and [dependencyMatches(name, version)]. *)
Class Manifests : Type := {
  manifest_exists : string → bool;
  new_ZosPackageFile : string → Result PackageFile;
  dependencyMatches : PackageFile → string → option string → bool;
}.

(** The members of a [Dependency]; [_packageFile] is set by the
    constructor, which reads the manifest, and [_networkFiles] holds the
    records that [getNetworkFile] has read, by network. *)
Record Dependency : Type := mkDependency {
  dependency_name : string;
  dependency_version : option string;
  dependency_nameAndVersion : string;
  dependency_requirement : option string;
  dependency_packageFile : PackageFile;
  dependency__networkFiles : gmap string ZosNetworkFile;
}.

Definition set__networkFiles (v : gmap string ZosNetworkFile) (dep : Dependency) : Dependency :=
  mkDependency (dependency_name dep) (dependency_version dep) (dependency_nameAndVersion dep)
    (dependency_requirement dep) (dependency_packageFile dep) v.

(** [String.prototype.split] with a separator of one character. *)
Fixpoint split (sep : ascii) (s : string) : list string :=
  match s with
  | EmptyString => [EmptyString]
  | String a s' =>
      if bool_decide (a = sep) then EmptyString :: split sep s'
      else match split sep s' with
           | x :: r => String a x :: r
           | [] => [String a EmptyString]
           end
  end.

Section DependencyFiles.
Context {sv : Semver} {svc : SemverClean} {zv : ZosVersion} {mf : Manifests}.

(** [Dependency.satisfiesVersion] for a version that may be [undefined], for
    which [semver.coerce] answers [null]. *)
Definition satisfiesVersion_of (version requirement : option string) : bool :=
  match version with
  | Some version => satisfiesVersion version requirement
  | None =>
      negb (truthy requirement) || from_option (semver_satisfies None) false requirement
  end.

(** [tryWithCaret(version)] *)
Definition tryWithCaret (version : option string) : option string :=
  let cleaned := semver_clean version in
  if truthy cleaned then Some ("^" +:+ default "" cleaned) else version.

(** [_validateSatisfiesVersion(version, requirement)] *)
Definition _validateSatisfiesVersion (version requirement : option string) : Result unit :=
  if negb (satisfiesVersion_of version requirement)
  then Throw ("Required dependency version " +:+ show requirement
              +:+ " does not match version " +:+ show version)
  else Ok tt.

(** [getPackageFile()], when the manifest has not been read yet. *)
Definition getPackageFile (name : string) : Result PackageFile :=
  let filename := "node_modules/" +:+ name +:+ "/zos.json" in
  if negb (manifest_exists filename)
  then Throw ("Could not find a zos.json file for '" +:+ name
              +:+ "'. Make sure it is provided by the npm package.")
  else new_ZosPackageFile filename.

(** The constructor [new Dependency(name, requirement)]; [_networkFiles]
    starts empty. *)
Definition new_Dependency (name : string) (requirement : option string) : Result Dependency :=
  match getPackageFile name with
  | Throw e => Throw e
  | Ok pf =>
      let packageVersion := pf_version pf in
      match _validateSatisfiesVersion packageVersion requirement with
      | Throw e => Throw e
      | Ok _ =>
          Ok (mkDependency name packageVersion
                (name +:+ "@" +:+ show packageVersion)
                (js_or requirement (tryWithCaret packageVersion))
                pf ∅)
      end
  end.

(** [Dependency.fromNameWithVersion(nameAndVersion)] *)
Definition fromNameWithVersion (nameAndVersion : string) : Result Dependency :=
  let parts := split "@" nameAndVersion in
  new_Dependency (default "" (parts !! 0)) (parts !! 1).

(** [_getNetworkFilePath(network)] *)
Definition _getNetworkFilePath (dep : Dependency) (network : string) : string :=
  "node_modules/" +:+ dependency_name dep +:+ "/zos." +:+ network +:+ ".json".

(** [fs.exists] on the file of a record. *)
Definition fs_exists (fs : FileSystem) (filename : string) : bool :=
  bool_decide (is_Some (parseJsonIfExists fs filename)).

(** [getNetworkFile(network)]: the record of the network is read once and
    kept in [_networkFiles], where it is stored before its version is
    checked; a record that is stored is handed out as it is. *)
Definition getNetworkFile (fs : FileSystem) (network : string) : M Dependency ZosNetworkFile :=
  λ dep,
  match dependency__networkFiles dep !! network with
  | Some nf => (Ok nf, dep)
  | None =>
      let filename := _getNetworkFilePath dep network in
      if negb (fs_exists fs filename)
      then (Throw ("Could not find a zos file for network '" +:+ network +:+ "' for '"
                   +:+ dependency_name dep +:+ "'"), dep)
      else
        match new_ZosNetworkFile fs filename with
        | Throw e => (Throw e, dep)
        | Ok nf =>
            let dep' := set__networkFiles (<[network := nf]> (dependency__networkFiles dep)) dep in
            match _validateSatisfiesVersion (nf_version (data nf))
                    (dependency_requirement dep) with
            | Throw e => (Throw e, dep')
            | Ok _ => (Ok nf, dep')
            end
        end
  end.

(** [isDeployedOnNetwork(network)] *)
Definition isDeployedOnNetwork (fs : FileSystem) (network : string) : M Dependency bool :=
  dep ← get;
  if negb (fs_exists fs (_getNetworkFilePath dep network)) then mret false
  else
    nf ← getNetworkFile fs network;
    mret (truthy (packageAddress (data nf))).

(** [dependencySatisfiesVersionRequirement(name)] of the record:
    [dep && this.packageFile.dependencyMatches(name, dep.version)], where
    [getDependency] answers [null] without a dictionary and [{}] without an
    entry. *)
Definition dependencySatisfiesVersionRequirement (d : NetworkData) (pf : PackageFile)
    (name : string) : bool :=
  match nf_dependencies d with
  | None => false
  | Some deps => dependencyMatches pf name (deps !! name ≫= dep_version)
  end.

(** [dependencyHasMatchingCustomDeploy(name)] *)
Definition dependencyHasMatchingCustomDeploy (d : NetworkData) (pf : PackageFile)
    (name : string) : bool :=
  dependencyHasCustomDeploy d name && dependencySatisfiesVersionRequirement d pf name.

End DependencyFiles.

(** ** NetworkController: uploads, dependencies and push *)

(** The further calls the controller makes on [this.project]. *)
Inductive ProjectCall : Type :=
| Project_setImplementation (contract : Contract) (contractName : string)
| Project_unsetImplementation (contractName : string)
| Project_freeze
| Project_hasDependency (depName : string)
| Project_unsetDependency (depName : string)
| Project_setDependency (depName : string) (package version : option string).

#[global] Instance ProjectCall_eq_dec : EqDecision ProjectCall.
Proof. solve_decision. Defined.

(** The backend behind these calls: [setImplementation] answers the instance
    it deployed; the other calls answer a boolean, which is read only after
    [hasDependency].  An answer may depend on everything done before.
    [isAppProject] is the test [this.project instanceof AppProject] on the
    project the deployer has returned. *)
Class ProjectBackend : Type := {
  deploy : list Call → list ProjectCall → Contract → string → Result Instance;
  perform : list Call → list ProjectCall → ProjectCall → Result bool;
  isAppProject : list Call → bool;
}.

(** What [validateContract] leaves in the schema of a contract class:
    [warnings] and the members [types] and [storage] of [storageInfo]. *)
Record Validated : Type := mkValidated {
  validated_warnings : option string;
  validated_types : option string;
  validated_storage : option string;
}.

(** The validation of zos-lib behind [validateContract]: for the entry the
    record has for the alias and the contract class, whether the validation
    passes (an exception counts as a failure) and what is left in the
    schema. *)
Class Validation : Type := {
  validate : option ContractInterface → Contract → bool * Validated;
}.

(** The controller at work: the members modelled before, [this.network], the
    journal of the further calls, and the files it reads. *)
Record Session : Type := mkSession {
  controller : Controller;
  network : string;
  operations : list ProjectCall;
  files : FileSystem;
}.

Definition set_controller (v : Controller) (w : Session) : Session :=
  mkSession v (network w) (operations w) (files w).
Definition set_operations (v : list ProjectCall) (w : Session) : Session :=
  mkSession (controller w) (network w) v (files w).

(** A method modelled on the controller, run in a session. *)
Definition on_controller {A} (m : M Controller A) : M Session A := λ w,
  let '(r, c) := m (controller w) in (r, set_controller c w).

(** A method of [this.networkFile] run in a session. *)
Definition on_record {A} (m : M NetworkData A) : M Session A :=
  on_controller (on_networkFile m).

(** [Promise.all([a, b])] for two operations that have been started: both
    run, and the first failure is the outcome.  As in a batch, they are run
    here one after the other. *)
Definition promise_all {S} (a b : M S unit) : M S unit := λ s,
  let '(ra, s1) := a s in
  let '(rb, s2) := b s1 in
  (match ra with Throw e => Throw e | Ok _ => rb end, s2).

Section Push.
Context {lib : ZosLib} {names : Naming} {zv : ZosVersion} {be : Backend}
  {code : ZosLibCode} {sv : Semver} {svc : SemverClean} {mf : Manifests}
  {pb : ProjectBackend} {va : Validation}.

(** [this.project.setImplementation(contract, contractName)] *)
Definition project_setImplementation (contract : Contract) (contractName : string)
    : M Session Instance := λ w,
  if project (controller w)
  then (deploy (calls (controller w)) (operations w) contract contractName,
        set_operations (operations w ++ [Project_setImplementation contract contractName]) w)
  else (Throw "TypeError: Cannot read property of undefined", w).

(** Another method call on [this.project]. *)
Definition project_call (q : ProjectCall) : M Session bool := λ w,
  if project (controller w)
  then (perform (calls (controller w)) (operations w) q,
        set_operations (operations w ++ [q]) w)
  else (Throw "TypeError: Cannot read property of undefined", w).

(** *** Libraries and contracts *)

(** [_uploadSolidityLib(libClass)] *)
Definition _uploadSolidityLib (libClass : Contract) : M Session unit :=
  let libName := schema_contractName libClass in
  libInstance ← project_setImplementation libClass libName;
  on_record (addSolidityLib libName libInstance).

(** [uploadSolidityLibs(libs)] *)
Definition uploadSolidityLibs (libs : list Contract) : M Session unit :=
  allPromisesOrError (_uploadSolidityLib <$> libs).

(** [uploadContract(contractAlias, contract)]; [info] is what
    [validateContract] has left in the schema of the class.  As before,
    [_setSolidityLibs] only links the class in memory. *)
Definition uploadContract (contractAlias : string) (contract : Contract) (info : Validated)
    : M Session unit :=
  rethrow (λ message, contractAlias +:+ " deployment failed with error: " +:+ message)
    (contractInstance ← project_setImplementation contract contractAlias;
     on_record (addContract contractAlias contractInstance
                  (validated_warnings info) (validated_types info) (validated_storage info))).

(** [uploadContracts(contracts)] *)
Definition uploadContracts (contracts : list (string * Contract * Validated))
    : M Session unit :=
  allPromisesOrError
    ((λ '(contractAlias, contract, info), uploadContract contractAlias contract info)
       <$> contracts).

(** [_unsetSolidityLib(libName)] *)
Definition _unsetSolidityLib (libName : string) : M Session unit :=
  rethrow (λ message, "Removal of " +:+ libName +:+ " failed with error: " +:+ message)
    (project_call (Project_unsetImplementation libName);;
     on_record (unsetSolidityLib libName)).

(** [_unsetSolidityLibs()] *)
Definition _unsetSolidityLibs : M Session unit :=
  w ← get;
  let libNames := _getAllSolidityLibNames (pf_contractNames (packageFile (controller w))) in
  allPromisesOrError
    (_unsetSolidityLib <$> solidityLibsMissing (networkFile (controller w)) libNames).

(** [unsetContract(contractAlias)] of the controller *)
Definition controller_unsetContract (contractAlias : string) : M Session unit :=
  rethrow (λ message, "Removal of " +:+ contractAlias +:+ " failed with error: " +:+ message)
    (project_call (Project_unsetImplementation contractAlias);;
     on_record (unsetContract contractAlias)).

(** [unsetContracts()] *)
Definition unsetContracts : M Session unit :=
  w ← get;
  allPromisesOrError
    (controller_unsetContract
       <$> contractAliasesMissingFromPackage (networkFile (controller w))
             (packageFile (controller w))).

(** [validateContract(contractAlias, contract, buildArtifacts)]: the result,
    and what it leaves in the schema of the class. *)
Definition validateContract (c : Controller) (contractAlias : string) (klass : Contract)
    : bool * Validated :=
  validate (contract (networkFile c) contractAlias) klass.

(** [validateContracts(contracts, buildArtifacts)]: every contract is
    validated, and all must pass. *)
Definition validateContracts (c : Controller) (contracts : list (string * Contract)) : bool :=
  forallb (λ '(contractAlias, contract), (validateContract c contractAlias contract).1)
    contracts.

(** The contracts after [validateContracts], with what it has left in their
    schemas. *)
Definition validated (c : Controller) (contracts : list (string * Contract))
    : list (string * Contract * Validated) :=
  (λ '(contractAlias, contract),
     (contractAlias, contract, (validateContract c contractAlias contract).2))
    <$> contracts.

(** *** Dependencies *)

(** [unlinkDependency(depName)]; the error that is thrown is a new one. *)
Definition unlinkDependency (depName : string) : M Session unit :=
  rethrow (λ message, "Failed to unlink dependency " +:+ depName +:+ " with error: "
                      +:+ message)
    (project_call (Project_hasDependency depName) ≫= λ linked : bool,
       (if linked then project_call (Project_unsetDependency depName) ≫= λ _, mret tt
        else mret tt);;
       on_record (unsetDependency depName)).

(** [linkDependency(depName, depVersion)]; the value it returns is not
    used. *)
Definition linkDependency (depName depVersion : string) : M Session unit :=
  rethrow (λ message, "Failed to link dependency " +:+ depName +:+ "@" +:+ depVersion
                      +:+ " with error: " +:+ message)
    (w ← get;
     let d := networkFile (controller w) in
     let pf := packageFile (controller w) in
     if dependencyHasMatchingCustomDeploy d pf depName
     then
       let depInfo := getDependency d depName in
       project_call (Project_setDependency depName (depInfo ≫= dep_package)
                       (depInfo ≫= dep_version)) ≫= λ _, mret tt
     else if negb (dependencySatisfiesVersionRequirement d pf depName)
     then
       dependencyInfo ←
         lift_result
           (match new_Dependency depName (Some depVersion) with
            | Throw e => Throw e
            | Ok dependency => (getNetworkFile (files w) (network w) dependency).1
            end);
       let info := data dependencyInfo in
       if negb (truthy (packageAddress info))
       then throw ("Dependency '" +:+ depName +:+ "' has not been published to network '"
                   +:+ network w
                   +:+ "', so it cannot be linked. Hint: you can create a custom deployment of all unpublished dependencies by running 'zos push' with the '--deploy-dependencies' option.")
       else
         project_call (Project_setDependency depName (packageAddress info) (nf_version info));;
         on_record (setDependency depName
                      (mkDependencyInterface None (packageAddress info) (nf_version info) None))
     else mret tt).

(** [handleDependenciesLink()] *)
Definition handleDependenciesLink : M Session unit :=
  w ← get;
  allPromisesOrError
    (((λ '(dep, version), linkDependency dep version)
        <$> map_to_list (pf_dependencies (packageFile (controller w))))
     ++ (unlinkDependency
           <$> dependenciesNamesMissingFromPackage (networkFile (controller w))
                 (packageFile (controller w)))).

(** *** Push and freeze *)

(** [push(reupload, force)] *)
Definition push (reupload force : bool) : M Session unit :=
  w ← get;
  changedLibraries ← lift_result (_solidityLibsForPush (controller w) (negb reupload));
  let contracts := _contractsListForPush (controller w) (negb reupload) changedLibraries in
  if negb (validateContracts (controller w) contracts) && negb force
  then throw "One or more contracts have validation errors. Please review the items listed above and fix them, or run this command again with the --force option."
  else
    on_controller _checkVersion;;
    w1 ← get;
    on_controller (fetchOrDeploy (packageVersion (controller w1)));;
    handleDependenciesLink;;
    on_controller checkNotFrozen;;
    uploadSolidityLibs changedLibraries;;
    promise_all (uploadContracts (validated (controller w) contracts)) unsetContracts;;
    _unsetSolidityLibs.

(** [freeze()] *)
Definition freeze : M Session unit :=
  w ← get;
  if negb (truthy (packageAddress (networkFile (controller w))))
  then throw "Cannot freeze an unpublished project"
  else
    on_controller (fetchOrDeploy (currentVersion (controller w)));;
    w1 ← get;
    (if isAppProject (calls (controller w1))
     then project_call Project_freeze ≫= λ _, mret tt
     else mret tt);;
    on_record (modify (set_frozen (Some true))).

End Push.

(** ** More vocabulary of the properties *)

(** A part of the state is the same after a run as before. *)
Definition preserves {S X : Type} (f : S → X) : relation S := λ s s', f s' = f s.

(** The format versions the controller keeps: that of the record and that of
    the manifest, with the rest of the manifest. *)
Definition versions (c : Controller) : option string * PackageFile :=
  (nf_zosversion (networkFile c), packageFile c).

(** Two relations hold together. *)
Definition both {S : Type} (R1 R2 : relation S) : relation S := λ s s', R1 s s' ∧ R2 s s'.

(** The name of the package in the manifest. *)
Definition manifest_name (c : Controller) : string := pf_name (packageFile c).

(** A run that creates no proxy, migrates and changes none, leaves the lists
    of the record as they are, and keeps the name of the package. *)
Definition quiet {names : Naming} : relation Controller :=
  both (effect (λ _, True) []) (preserves manifest_name).

(** The record and the journal after the admin of the proxy was changed: the
    entry [updateProxy] finds for the proxy has the new admin, and the
    backend was asked for the change. *)
Definition admin_recorded {names : Naming} (newAdmin : option string) (p : ProxyInterface)
    (c : Controller) : Prop :=
  let fullname := toContractFullName (proxy_package p) (proxy_contract p) in
  ∃ index entry,
    _indexOfProxy (networkFile c) fullname (proxy_address p) = Some index
    ∧ _proxiesOf (networkFile c) fullname !! index = Some entry
    ∧ proxy_admin entry = newAdmin
    ∧ Project_changeProxyAdmin (proxy_address p) newAdmin ∈ calls c.

(** The record and the manifest of a session. *)
Definition record (w : Session) : NetworkData := networkFile (controller w).
Definition manifest (w : Session) : PackageFile := packageFile (controller w).
Definition set_record (d : NetworkData) (w : Session) : Session :=
  set_controller (set_networkFile d (controller w)) w.

(** The calls that deploy or remove an implementation. *)
Definition is_implementation (q : ProjectCall) : bool :=
  match q with
  | Project_setImplementation _ _ | Project_unsetImplementation _ => true
  | _ => false
  end.

(** The session, its journal of operations apart, with one dictionary of the
    record emptied: what is left is what a run that works on this dictionary
    alone must keep. *)
Definition besides_contracts (w : Session) : Session :=
  set_operations [] (set_record (set_contracts ∅ (record w)) w).
Definition besides_solidityLibs (w : Session) : Session :=
  set_operations [] (set_record (set_solidityLibs ∅ (record w)) w).
Definition besides_dependencies (w : Session) : Session :=
  set_operations [] (set_record (set_dependencies None (record w)) w).

(** The operations added to the journal all satisfy [ok]. *)
Definition journal_grows (ok : ProjectCall → Prop) : relation Session := λ w w',
  ∃ new, operations w' = operations w ++ new ∧ Forall ok new.

(** A run that removes contracts among [aliases]: an entry of the record is
    as before or is gone, and it is gone only after the backend was asked to
    remove the implementation; the backend is asked nothing else, and for no
    other alias. *)
Definition removes_contracts (aliases : list string) : relation Session := λ w w',
  ∃ new,
    operations w' = operations w ++ new
    ∧ Forall (λ q, ∃ alias, q = Project_unsetImplementation alias ∧ alias ∈ aliases) new
    ∧ ∀ alias,
        nf_contracts (record w') !! alias = nf_contracts (record w) !! alias
        ∨ (nf_contracts (record w') !! alias = None
           ∧ Project_unsetImplementation alias ∈ new).

(** A run that links and unlinks dependencies: it asks the backend for no
    implementation, and a dependency that is recorded afterwards was
    recorded before or is among [linked]. *)
Definition links_dependencies (linked : list string) : relation Session := λ w w',
  journal_grows (λ q, is_implementation q = false) w w'
  ∧ ∀ name, is_Some (dependencies (record w') !! name) →
            is_Some (dependencies (record w) !! name) ∨ name ∈ linked.

(** Such a run, which moreover keeps everything but the dependencies of the
    record and the journal. *)
Definition linking (linked : list string) : relation Session :=
  both (preserves besides_dependencies) (links_dependencies linked).

(** The tasks of [handleDependenciesLink]: a dependency of the manifest to
    link, or a recorded one to unlink. *)
Definition dependency_task {lib : ZosLib} {zv : ZosVersion} {sv : Semver}
    {svc : SemverClean} {mf : Manifests} {pb : ProjectBackend}
    (x : string * string + string) : M Session unit :=
  match x with
  | inl (dep, version) => linkDependency dep version
  | inr dep => unlinkDependency dep
  end.

(** What [push] does before it checks that the record is not frozen: the
    backend is asked to deploy or remove no implementation, the manifest and
    the libraries of the record are kept, and the contracts of the record
    are kept or all forgotten. *)
Definition prepares : relation Session := λ w w',
  journal_grows (λ q, is_implementation q = false) w w'
  ∧ manifest w' = manifest w
  ∧ nf_solidityLibs (record w') = nf_solidityLibs (record w)
  ∧ (nf_contracts (record w') = nf_contracts (record w) ∨ nf_contracts (record w') = ∅).

(** A run that uploads the contracts of [aliases]: the entries of the other
    aliases are kept. *)
Definition uploads_contracts (aliases : list string) : relation Session := λ w w',
  ∀ alias, alias ∉ aliases →
           nf_contracts (record w') !! alias = nf_contracts (record w) !! alias.

(** The entry of the record says that the contract is deployed with the
    bytecode of the class. *)
Definition deployed_as {lib : ZosLib} (alias : string) (klass : Contract) (w : Session)
    : Prop :=
  ∃ entry, nf_contracts (record w) !! alias = Some entry
           ∧ is_Some (contract_address entry)
           ∧ contract_localBytecodeHash entry
             = Some (bytecodeDigest (schema_bytecode klass)).

(** The backend answers [setImplementation] with an instance of the class it
    was given. *)
Definition deploys_the_class {pb : ProjectBackend} : Prop :=
  ∀ journal done klass contractName instance,
    deploy journal done klass contractName = Ok instance →
    schema_bytecode (instance_class instance) = schema_bytecode klass.

(** A run that removes libraries among [libNames] and no other: an entry of
    the record is as before or is gone, and it is gone only if its name is
    among [libNames]. *)
Definition removes_libraries (libNames : list string) : relation Session := λ w w',
  ∀ libName,
    nf_solidityLibs (record w') !! libName = nf_solidityLibs (record w) !! libName
    ∨ (nf_solidityLibs (record w') !! libName = None ∧ libName ∈ libNames).

(** A run after which every library that was recorded is still recorded. *)
Definition keeps_libraries : relation Session := λ w w',
  ∀ libName, is_Some (nf_solidityLibs (record w) !! libName) →
             is_Some (nf_solidityLibs (record w') !! libName).

(** The classes of zos-lib carry the name they are looked up by. *)
Definition named_as_found {lib : ZosLib} (libNames : list string) : Prop :=
  ∀ libName, libName ∈ libNames → schema_contractName (getFromLocal libName) = libName.

(** The character occurs in the string. *)
Fixpoint occurs (a : ascii) (s : string) : bool :=
  match s with
  | EmptyString => false
  | String b s' => bool_decide (b = a) || occurs a s'
  end.

(** ** More concrete collaborators *)

Module MoreDoubles.

(** The constructor code is empty and the body is the linked bytecode. *)
Definition zosLibCode : ZosLibCode := {|
  constructorCode := λ _, "";
  bodyCode := λ instance, instance_linkedBytecode instance;
|}.

(** [semver.clean] on the fragment of semver of [Doubles.semver]: a plain
    triple is clean. *)
Definition semverClean : SemverClean := {|
  semver_clean := λ version,
    match version with
    | Some v => if bool_decide (is_Some (Doubles.triple v)) then Some v else None
    | None => None
    end;
|}.

(** One dependency is installed, [lib-a] at version 1.1.0; a requirement
    matches a version that [Doubles.semver] accepts for it. *)
Definition manifests : Manifests := {|
  manifest_exists := λ filename, bool_decide (filename = "node_modules/lib-a/zos.json");
  new_ZosPackageFile := λ filename,
    Ok (mkPackageFile "lib-a" (Some "1.1.0") ∅ ∅ true (Some "2.2"));
  dependencyMatches := λ pf name version,
    match pf_dependencies pf !! name, version with
    | Some requirement, Some v =>
        satisfiesVersion (sv := Doubles.semver) v (Some requirement)
    | _, _ => false
    end;
|}.

(** A backend that deploys every class it is given, at an address made of
    the name, and accepts every other call. *)
Definition projectBackend : ProjectBackend := {|
  deploy := λ _ _ klass contractName,
    Ok (mkInstance ("0x" +:+ contractName) klass (schema_bytecode klass));
  perform := λ _ _ _, Ok false;
  isAppProject := λ _, true;
|}.

(** A validation that every contract passes. *)
Definition validation : Validation := {|
  validate := λ _ _, (true, mkValidated None None None);
|}.

(** The value [Doubles.naming] makes a key of: the contract alone when no
    package is given. *)
#[refine] Definition namingValue : NamingValue (names := Doubles.naming) := {|
  toContractFullName_value := λ package contract,
    if truthy package then Some (default "" package +:+ "/" +:+ show contract) else contract;
|}.
Proof. intros package contract. simpl. by destruct (truthy package). Defined.

End MoreDoubles.

(** ** More concrete records *)

(** A session on the record in which [Vault] was deployed with another
    bytecode, and the same session with the record frozen. *)
Definition stale_vault_session : Session :=
  mkSession stale_vault_controller "test" [] (mkFileSystem ∅ []).

Definition frozen_vault_session : Session :=
  set_record (set_frozen (Some true) (record stale_vault_session)) stale_vault_session.

(** A session on the manifest of [Token], whose bytecode refers to the
    library [SafeMath]: the record holds a library [Legacy] that no contract
    refers to, and not [SafeMath]. *)
Definition token_library_session : Session :=
  mkSession
    (set_networkFile
       (set_solidityLibs
          {["Legacy" := mkSolidityLibInterface "0xL" "" "digest:bytecode:Legacy"
                          "digest:bytecode:Legacy" "digest:bytecode:Legacy"]}
          (networkFile token_controller))
       token_controller)
    "test" [] (mkFileSystem ∅ []).

(** The session of [Vault] once the package is published at an address. *)
Definition published_vault_session : Session :=
  let d := record stale_vault_session in
  set_record
    (mkNetworkData (nf_contracts d) (nf_solidityLibs d) (nf_proxies d) (nf_zosversion d)
       (nf_proxyAdmin d) (nf_proxyFactory d) (nf_app d)
       (Some (mkAddressWrapper (Some "0xPackage")))
       (nf_provider d) (nf_version d) (nf_frozen d) (nf_dependencies d))
    stale_vault_session.


Definition lib_a_files_next : FileSystem :=
  mkFileSystem
    {["node_modules/lib-a/zos.test.json" :=
        mkNetworkData ∅ ∅ ∅ (Some "2.2") None None None
          (Some (mkAddressWrapper (Some "0xPackage"))) None (Some "2.0.0") None None]}
    [].
(* ===================================================================== *)
(** * Part II: properties                                                 *)
(* ===================================================================== *)

(** ** Lists *)

Lemma findIndex_None {A} (pred : A → bool) (l : list A) :
  findIndex pred l = None ↔ ∀ x, x ∈ l → pred x = false.
Proof.
  induction l as [|y l IH]; simpl.
  - split; [intros _ x Hx; inversion Hx | done].
  - destruct (pred y) eqn:Hy.
    + split; [done | intros Hall]. specialize (Hall y (list_elem_of_here _ _)). congruence.
    + destruct (findIndex pred l) eqn:Hf; simpl.
      * split; [done | intros Hall].
        assert (Some n = None) as Hn; [|done].
        apply IH. intros x Hx. apply Hall. by apply list_elem_of_further.
      * split; [intros _ x Hx | done].
        apply elem_of_cons in Hx as [-> | Hx]; [done|]. by apply IH.
Qed.

Lemma findIndex_Some {A} (pred : A → bool) (l : list A) (i : nat) :
  findIndex pred l = Some i ↔
  ∃ x, l !! i = Some x ∧ pred x = true ∧ ∀ j y, j < i → l !! j = Some y → pred y = false.
Proof.
  revert i. induction l as [|y l IH]; intros i; simpl.
  - split; [done | intros (x & Hx & _); done].
  - destruct (pred y) eqn:Hy.
    + split.
      * intros [= <-]. exists y. split_and!; [done..|]. intros j z Hj. lia.
      * intros (x & Hx & Hp & Hfirst). destruct i as [|i]; [done|].
        specialize (Hfirst 0 y). rewrite Hfirst in Hy; [done | lia | done].
    + split.
      * destruct (findIndex pred l) as [n|] eqn:Hf; simpl; [|done].
        intros [= <-]. destruct (proj1 (IH n) eq_refl) as (x & Hx & Hp & Hfirst).
        exists x. split_and!; [done..|].
        intros [|j] z Hj Hz; simpl in Hz; [by simplify_eq|].
        apply (Hfirst j); [lia | done].
      * intros (x & Hx & Hp & Hfirst). destruct i as [|i]; simpl in Hx; [simplify_eq; congruence|].
        assert (findIndex pred l = Some i) as ->; [|done].
        apply IH. exists x. split_and!; [done..|].
        intros j z Hj Hz. apply (Hfirst (S j)); [lia | done].
Qed.

Lemma findIndex_lt {A} (pred : A → bool) (l : list A) (i : nat) :
  findIndex pred l = Some i → i < length l.
Proof.
  intros (x & Hx & _)%findIndex_Some. by eapply lookup_lt_Some.
Qed.

Section NetworkFileProperties.
Context {lib : ZosLib} {names : Naming}.

(** ** Bytecode identity *)

(** C3, as amended.  [hasSameBytecode(alias, artifact)] is [true] exactly when
    the digest of the artifact's bytecode is the [localBytecodeHash] of the
    entry recorded for the alias, where the entry is the one in [contracts]
    or, when [contracts] has none, the one in [solidityLibs].  When neither
    dictionary has the alias the function returns [undefined], which is not
    [true]; this is the only case in which it does. *)
Theorem hasSameBytecode_spec (d : NetworkData) (alias : string) (klass : Contract) :
  (hasSameBytecode d alias klass = Some true ↔
     (∃ c, nf_contracts d !! alias = Some c
           ∧ contract_localBytecodeHash c = Some (bytecodeDigest (schema_bytecode klass)))
     ∨ (nf_contracts d !! alias = None
        ∧ ∃ l, nf_solidityLibs d !! alias = Some l
               ∧ lib_localBytecodeHash l = bytecodeDigest (schema_bytecode klass)))
  ∧ (hasSameBytecode d alias klass = None ↔
       nf_contracts d !! alias = None ∧ nf_solidityLibs d !! alias = None).
Proof.
  unfold hasSameBytecode, contract, solidityLib.
  destruct (nf_contracts d !! alias) as [c|] eqn:Hc; simpl.
  - split.
    + split.
      * intros [= Heq%bool_decide_eq_true]. left. exists c. split; [done|]. by rewrite Heq.
      * intros [(c' & [= <-] & Hh) | [? _]]; [|done].
        f_equal. apply bool_decide_eq_true. by rewrite Hh.
    + split; [done | by intros [? _]].
  - destruct (nf_solidityLibs d !! alias) as [l|] eqn:Hl; simpl.
    + split.
      * split.
        -- intros [= Heq%bool_decide_eq_true]. right. split; [done|]. exists l.
           split; [done|]. by simplify_eq.
        -- intros [(c' & ? & _) | [_ (l' & [= <-] & Hh)]]; [done|].
           f_equal. apply bool_decide_eq_true. by rewrite Hh.
      * split; [done | by intros [_ ?]].
    + split; [|done].
      split; [done|]. intros [(c' & ? & _) | [_ (l' & ? & _)]]; done.
Qed.

(** ** Proxies of the record *)

Lemma matches_address_true (address : string) (p : ProxyInterface) :
  matches_address (Some address) p = true ↔ proxy_address p = Some address.
Proof.
  unfold matches_address. destruct (proxy_address p) as [b|].
  - rewrite bool_decide_eq_true. naive_solver.
  - naive_solver.
Qed.

Lemma matches_address_false (address : string) (p : ProxyInterface) :
  matches_address (Some address) p = false ↔ proxy_address p ≠ Some address.
Proof.
  rewrite <- matches_address_true. destruct (matches_address _ p); naive_solver.
Qed.

Lemma _indexOfProxy_None (d : NetworkData) (fullname address : string) :
  _indexOfProxy d fullname (Some address) = None ↔
  ∀ p, p ∈ _proxiesOf d fullname → proxy_address p ≠ Some address.
Proof.
  unfold _indexOfProxy. rewrite findIndex_None.
  by setoid_rewrite matches_address_false.
Qed.

Lemma _indexOfProxy_Some (d : NetworkData) (fullname address : string) (i : nat) :
  _indexOfProxy d fullname (Some address) = Some i ↔
  ∃ p, _proxiesOf d fullname !! i = Some p ∧ proxy_address p = Some address
       ∧ ∀ j q, j < i → _proxiesOf d fullname !! j = Some q → proxy_address q ≠ Some address.
Proof.
  unfold _indexOfProxy. rewrite findIndex_Some.
  setoid_rewrite matches_address_true. by setoid_rewrite matches_address_false.
Qed.

Lemma _proxiesOf_insert (d : NetworkData) (fullname k : string) (l : list ProxyInterface) :
  _proxiesOf (set_proxies (<[fullname := l]> (nf_proxies d)) d) k
  = if decide (fullname = k) then l else _proxiesOf d k.
Proof.
  unfold _proxiesOf. simpl. rewrite lookup_insert. by case_decide.
Qed.

(** C6.  [updateProxy] looks for the first proxy with the given address under
    the full name of the given package and contract.  When there is none it
    throws the "not found" error and leaves the record as it is.  When there
    is one, and [fn] yields a new entry for it, that entry takes its place:
    the other entries of the list, the lists of the other full names and the
    rest of the record are unchanged. *)
Theorem updateProxy_spec (d : NetworkData) (id : ProxyInterface) (address : string)
    (fn : ProxyInterface → Result ProxyInterface) :
  proxy_address id = Some address →
  let fullname := toContractFullName (proxy_package id) (proxy_contract id) in
  let l := _proxiesOf d fullname in
  ((∀ p, p ∈ l → proxy_address p ≠ Some address) →
     updateProxy id fn d
     = (Throw ("Proxy " +:+ fullname +:+ " at " +:+ address +:+ " not found in network file"),
        d))
  ∧ (∀ i p p',
       l !! i = Some p →
       proxy_address p = Some address →
       (∀ j q, j < i → l !! j = Some q → proxy_address q ≠ Some address) →
       fn p = Ok p' →
       ∃ d', updateProxy id fn d = (Ok tt, d')
             ∧ _proxiesOf d' fullname !! i = Some p'
             ∧ length (_proxiesOf d' fullname) = length l
             ∧ (∀ j, j ≠ i → _proxiesOf d' fullname !! j = l !! j)
             ∧ (∀ k, k ≠ fullname → nf_proxies d' !! k = nf_proxies d !! k)
             ∧ d' = set_proxies (nf_proxies d') d).
Proof.
  intros Hid fullname l. split.
  - intros Hnone. unfold updateProxy. fold fullname. rewrite Hid.
    by rewrite (proj2 (_indexOfProxy_None d fullname address) Hnone).
  - intros i p p' Hi Hp Hfirst Hfn.
    assert (_indexOfProxy d fullname (Some address) = Some i) as Hidx.
    { apply _indexOfProxy_Some. eauto. }
    unfold updateProxy. fold fullname. rewrite Hid, Hidx. fold l. rewrite Hi. simpl.
    rewrite Hfn. eexists. split; [done|].
    rewrite _proxiesOf_insert. rewrite decide_True by done. simpl.
    split_and!.
    + apply list_lookup_insert_eq. by eapply lookup_lt_Some.
    + by rewrite length_insert.
    + intros j Hj. by rewrite list_lookup_insert_ne.
    + intros k Hk. by rewrite lookup_insert_ne.
    + done.
Qed.

(** C8.  [removeProxy] leaves the record exactly as it is, without an error,
    when no proxy with the address is recorded under the full name.  When the
    list of the full name consists of the proxy to remove alone, the key is
    deleted from [proxies].  In general the first proxy with the address is
    taken out of the list, and the key is deleted when the list becomes
    empty. *)
Theorem removeProxy_spec (d : NetworkData) (thepackage alias address : string) :
  let fullname := toContractFullName (Some thepackage) (Some alias) in
  let l := _proxiesOf d fullname in
  ((∀ p, p ∈ l → proxy_address p ≠ Some address) →
     removeProxy thepackage alias address d = (Ok tt, d))
  ∧ (∀ p, nf_proxies d !! fullname = Some [p] →
          proxy_address p = Some address →
          ∃ d', removeProxy thepackage alias address d = (Ok tt, d')
                ∧ nf_proxies d' = delete fullname (nf_proxies d)
                ∧ nf_proxies d' !! fullname = None)
  ∧ (∀ i p,
       l !! i = Some p →
       proxy_address p = Some address →
       (∀ j q, j < i → l !! j = Some q → proxy_address q ≠ Some address) →
       removeProxy thepackage alias address d
       = (Ok tt,
          set_proxies (if decide (delete i l = [])
                       then delete fullname (nf_proxies d)
                       else <[fullname := delete i l]> (nf_proxies d)) d)).
Proof.
  intros fullname l.
  assert (∀ i p,
       l !! i = Some p →
       proxy_address p = Some address →
       (∀ j q, j < i → l !! j = Some q → proxy_address q ≠ Some address) →
       removeProxy thepackage alias address d
       = (Ok tt,
          set_proxies (if decide (delete i l = [])
                       then delete fullname (nf_proxies d)
                       else <[fullname := delete i l]> (nf_proxies d)) d)) as Hgen.
  { intros i p Hi Hp Hfirst.
    assert (_indexOfProxy d fullname (Some address) = Some i) as Hidx.
    { apply _indexOfProxy_Some. eauto. }
    unfold removeProxy, modify. fold fullname. rewrite Hidx. fold l.
    rewrite _proxiesOf_insert, decide_True by done. f_equal.
    destruct (delete i l) as [|x l'] eqn:Hdel; simpl.
    - unfold set_proxies; simpl. by rewrite delete_insert_eq.
    - done. }
  split_and!.
  - intros Hnone. unfold removeProxy, modify. fold fullname.
    by rewrite (proj2 (_indexOfProxy_None d fullname address) Hnone).
  - intros p Hl Hp.
    assert (l = [p]) as Hlp by (unfold l, _proxiesOf; by rewrite Hl).
    eexists. split; [apply (Hgen 0 p)|].
    + by rewrite Hlp.
    + done.
    + intros j q Hj. lia.
    + rewrite Hlp. simpl. split; [done|]. apply lookup_delete_eq.
  - done.
Qed.

(** ** Dependencies of the record *)

(** C9.  When the version can be normalised, [setDependency] stores under the
    name an entry made of the given package, the normalised version and, only
    if the given [customDeploy] is truthy, [customDeploy].  The entry replaces
    whatever was stored under the name: without a truthy [customDeploy] the
    new entry has none, also when the previous one had it.  The other
    dependencies and the rest of the record are unchanged. *)
Theorem setDependency_spec (d : NetworkData) (name : string) (dep : DependencyInterface)
    (version : string) :
  semanticVersionToString (dep_version dep) = Ok version →
  ∃ d', setDependency name dep d = (Ok tt, d')
        ∧ getDependency d' name
          = Some (mkDependencyInterface None (dep_package dep) (Some version)
                    (if truthy_bool (dep_customDeploy dep) then Some true else None))
        ∧ (truthy_bool (dep_customDeploy dep) = false →
             dep_customDeploy <$> getDependency d' name = Some None)
        ∧ (∀ other, other ≠ name → getDependency d' other = getDependency d other)
        ∧ d' = set_dependencies (nf_dependencies d') d.
Proof.
  intros Hv. unfold setDependency, mbind, M_bind, bind, modify, lift_result.
  rewrite Hv. eexists. split; [reflexivity|].
  assert (∀ b : option bool, (if truthy_bool b then b else None)
                             = (if truthy_bool b then Some true else None)) as Hb.
  { by intros [[]|]. }
  unfold getDependency.
  destruct (nf_dependencies d) as [deps|] eqn:Hdeps; simpl; rewrite ?Hdeps; simpl.
  - split_and!.
    + by rewrite lookup_insert_eq, Hb.
    + intros Hc. rewrite lookup_insert_eq. simpl. by rewrite Hc.
    + intros other Hother. by rewrite lookup_insert_ne.
    + by destruct d.
  - split_and!.
    + by rewrite lookup_insert_eq, Hb.
    + intros Hc. rewrite lookup_insert_eq. simpl. by rewrite Hc.
    + intros other Hother. by rewrite lookup_insert_ne, lookup_empty.
    + by destruct d.
Qed.

End NetworkFileProperties.

(** C3, as stated, fails: the alias [SafeMath] has no entry in [contracts], yet
    [hasSameBytecode] answers [true], from the entry in [solidityLibs]. *)
Lemma hasSameBytecode_library_entry :
  let lib := mkSolidityLibInterface "0x1" "" "" "digest:bytecode:SafeMath" "" in
  let d := mkNetworkData ∅ {["SafeMath" := lib]} ∅ (Some "2.2")
             None None None None None None None None in
  let klass := mkContract "SafeMath" "bytecode:SafeMath" in
  hasSameBytecode (lib := Doubles.zosLib) d "SafeMath" klass = Some true
  ∧ nf_contracts d !! "SafeMath" = None.
Proof. split; reflexivity. Qed.

Lemma updateProxy_spec_witness :
  let pA := mkProxyInterface None None None (Some "0xA") None None (Some "0xAdmin") None in
  let pB := mkProxyInterface None None None (Some "0xB") None None (Some "0xAdmin") None in
  let d := set_proxies {["zos/Token" := [pA; pB]]} (defaults "2.2") in
  let fn := λ p, Ok (with_admin (Some "0xNew") p) in
  let id := mkProxyInterface None (Some "zos") (Some "Token") (Some "0xB") None None None None in
  let absent := mkProxyInterface None (Some "zos") (Some "Token") (Some "0xC") None None None None in
  updateProxy (names := Doubles.naming) absent fn d
  = (Throw "Proxy zos/Token at 0xC not found in network file", d)
  ∧ ∃ d', updateProxy (names := Doubles.naming) id fn d = (Ok tt, d')
          ∧ _proxiesOf d' "zos/Token" = [pA; with_admin (Some "0xNew") pB].
Proof.
  intros pA pB d fn id absent. split.
  - apply (updateProxy_spec (names := Doubles.naming) d absent "0xC" fn eq_refl).
    intros p Hp. vm_compute in Hp. elem_cases Hp; done.
  - destruct (updateProxy_spec (names := Doubles.naming) d id "0xB" fn eq_refl) as [_ Hfound].
    destruct (Hfound 1 pB (with_admin (Some "0xNew") pB)) as (d' & Hrun & _ & _ & _ & _ & Hd').
    + reflexivity.
    + reflexivity.
    + intros [|j] q Hj Hq; [|lia]. vm_compute in Hq. by simplify_eq.
    + reflexivity.
    + exists d'. split; [done|]. vm_compute in Hrun. by simplify_eq.
Defined.

Lemma removeProxy_spec_witness :
  let pA := mkProxyInterface None None None (Some "0xA") None None (Some "0xAdmin") None in
  let d := set_proxies {["zos/Token" := [pA]]} (defaults "2.2") in
  removeProxy (names := Doubles.naming) "zos" "Token" "0xC" d = (Ok tt, d)
  ∧ ∃ d', removeProxy (names := Doubles.naming) "zos" "Token" "0xA" d = (Ok tt, d')
          ∧ nf_proxies d' !! "zos/Token" = None.
Proof.
  intros pA d.
  destruct (removeProxy_spec (names := Doubles.naming) d "zos" "Token" "0xC") as [Hnone _].
  destruct (removeProxy_spec (names := Doubles.naming) d "zos" "Token" "0xA") as (_ & Hlast & _).
  split.
  - apply Hnone. intros p Hp. vm_compute in Hp. elem_cases Hp; done.
  - destruct (Hlast pA) as (d' & Hrun & _ & Hkey); [reflexivity.. |]. eauto.
Defined.

Lemma setDependency_spec_witness :
  let old := mkDependencyInterface None (Some "0xOld") (Some "1.0.0") (Some true) in
  let d := set_dependencies (Some {["lib" := old]}) (defaults "2.2") in
  let dep := mkDependencyInterface None (Some "0xNew") (Some "1.1.0") None in
  ∃ d', setDependency (lib := Doubles.zosLib) "lib" dep d = (Ok tt, d')
        ∧ getDependency d' "lib"
          = Some (mkDependencyInterface None (Some "0xNew") (Some "1.1.0") None).
Proof.
  intros old d dep.
  destruct (setDependency_spec (lib := Doubles.zosLib) d "lib" dep "1.1.0" eq_refl)
    as (d' & Hrun & Hentry & _).
  eauto.
Defined.

(** ** Persistence *)

Section PersistenceProperties.
Context {zv : ZosVersion}.


End PersistenceProperties.



(** ** Version satisfaction *)

Section DependencyProperties.
Context {sv : Semver}.

(** C4.  [satisfiesVersion(version, requirement)] is true exactly when the
    requirement is absent ([undefined], or the empty string, which [!] treats
    alike), or the version and the requirement are the same string, or the
    coerced version satisfies the requirement as a semver range.  In
    particular [satisfiesVersion("1.0.0", undefined)] is true, and
    [satisfiesVersion("2.0.0", "^1.0.0")] is false since semver does not
    accept 2.0.0 for the range ^1.0.0. *)
Theorem satisfiesVersion_spec :
  (∀ version requirement,
     satisfiesVersion version requirement = true ↔
       (requirement = None ∨ requirement = Some "")
       ∨ requirement = Some version
       ∨ ∃ range, requirement = Some range
                  ∧ semver_satisfies (semver_coerce version) range = true)
  ∧ satisfiesVersion "1.0.0" None = true
  ∧ (semver_satisfies (semver_coerce "2.0.0") "^1.0.0" = false →
       satisfiesVersion "2.0.0" (Some "^1.0.0") = false).
Proof.
  split_and!.
  - intros version requirement. unfold satisfiesVersion.
    rewrite !orb_true_iff, negb_true_iff, bool_decide_eq_true.
    assert (truthy requirement = false ↔ requirement = None ∨ requirement = Some "") as ->.
    { destruct requirement as [r|]; simpl.
      - rewrite negb_false_iff, bool_decide_eq_true.
        split; [intros ->; by right | by intros [?|[= ->]]].
      - split; [by left | done]. }
    destruct requirement as [r|]; simpl.
    + split.
      * intros [[?|[= <-]]|Hs]; [by left | by right; left | right; right; eauto].
      * intros [?|[[= <-]|(range & [= <-] & Hs)]]; [by left; left | by left; right | by right].
    + split; [by left; left | by left; left; left].
  - done.
  - intros Hno. unfold satisfiesVersion. simpl. by rewrite Hno.
Qed.

End DependencyProperties.

Lemma satisfiesVersion_spec_witness :
  satisfiesVersion (sv := Doubles.semver) "2.0.0" (Some "^1.0.0") = false
  ∧ satisfiesVersion (sv := Doubles.semver) "1.0.0" None = true.
Proof.
  destruct (satisfiesVersion_spec (sv := Doubles.semver)) as (_ & Habsent & Hcaret).
  split; [apply Hcaret; reflexivity | exact Habsent].
Defined.

(** ** The contract delta of a push *)

Lemma intersection_nonempty (l k : list string) :
  intersection l k ≠ [] ↔ ∃ x, x ∈ l ∧ x ∈ k.
Proof.
  unfold intersection. split.
  - intros Hne. destruct (remove_dups (list_intersection l k)) as [|x r] eqn:Hr; [done|].
    exists x. apply list_elem_of_intersection, elem_of_remove_dups.
    rewrite Hr. apply list_elem_of_here.
  - intros (x & Hl & Hk) Hnil.
    assert (x ∈ remove_dups (list_intersection l k)) as Hx.
    { by apply elem_of_remove_dups, list_elem_of_intersection. }
    rewrite Hnil in Hx. by apply elem_of_nil in Hx.
Qed.

Section ReconcilerProperties.
Context {lib : ZosLib} {names : Naming} {zv : ZosVersion}.

Lemma _hasChangedLibraries_true (contract : Contract) (changedLibraries : list Contract) :
  _hasChangedLibraries contract changedLibraries = true ↔
  library_in_delta contract changedLibraries.
Proof.
  unfold _hasChangedLibraries, library_in_delta.
  rewrite negb_true_iff, bool_decide_eq_false, intersection_nonempty. split.
  - intros (x & (libClass & -> & Hin)%list_elem_of_fmap & Hx). eauto.
  - intros (libName & libClass & Hx & Hin & <-).
    exists (schema_contractName libClass). split; [|done].
    apply list_elem_of_fmap. eauto.
Qed.

Lemma hasContractChanged_local (c : Controller) (alias name : string) (klass : Contract) :
  pf_contracts (packageFile c) !! alias = Some name →
  hasContractChanged c alias (Some klass) = true ↔
    hasContract (networkFile c) alias = false ∨ hash_differs (networkFile c) alias klass.
Proof.
  intros Hname. unfold hasContractChanged, isContractDeployed, isLocalContract, pf_hasContract,
    pf_contract, hash_differs.
  rewrite Hname. rewrite bool_decide_eq_true_2 by eauto. simpl.
  destruct (hasContract (networkFile c) alias) eqn:Hhas; simpl.
  - unfold hasContract, isEmpty_contract, contract in Hhas.
    unfold hasSameBytecode, contract.
    destruct (nf_contracts (networkFile c) !! alias) as [entry|] eqn:Hentry; [|done]. simpl.
    rewrite negb_true_iff, bool_decide_eq_false. split.
    + intros Hne. right. exists entry. split; [done|]. congruence.
    + intros [? | (entry' & [= <-] & Hne)]; [done|]. congruence.
  - split; [by left | done].
Qed.

Lemma elem_of__contractsListForPush (c : Controller) (onlyChanged : bool)
    (changedLibraries : list Contract) (alias : string) (contract : Contract) :
  (alias, contract) ∈ _contractsListForPush c onlyChanged changedLibraries ↔
    (∃ name, pf_contracts (packageFile c) !! alias = Some name ∧ contract = getFromLocal name)
    ∧ (onlyChanged = false
       ∨ _newVersionRequired c = true
       ∨ hasContract (networkFile c) alias = false
       ∨ hash_differs (networkFile c) alias contract
       ∨ library_in_delta contract changedLibraries).
Proof.
  unfold _contractsListForPush. rewrite list_elem_of_filter, list_elem_of_fmap.
  rewrite !orb_true_iff, negb_true_iff, _hasChangedLibraries_true.
  split.
  - intros [Hcond ([alias' name] & [= -> ->] & Hin%elem_of_map_to_list)].
    split; [eauto|].
    rewrite (hasContractChanged_local c alias' name) in Hcond by done. tauto.
  - intros [(name & Hname & ->) Hcond]. split.
    + rewrite (hasContractChanged_local c alias name) by done. tauto.
    + exists (alias, name). split; [done|]. by apply elem_of_map_to_list.
Qed.

(** C1, as amended.  When [push] computes its deltas, a pair of an alias and a
    contract class is in the contract delta exactly when the alias is one of
    the manifest, the class is the local one of its contract, and a re-upload
    of all contracts was asked for, or a new package version is required, or
    the record has no (non-empty) entry for the alias, or the recorded
    [localBytecodeHash] is not the digest of the current bytecode, or a
    library the bytecode refers to is in the library delta. *)
Theorem push_contract_delta (c : Controller) (reupload : bool)
    (changedLibraries : list Contract) (contracts : list (string * Contract)) :
  push_deltas c reupload = Ok (changedLibraries, contracts) →
  ∀ alias contract,
    (alias, contract) ∈ contracts ↔
      (∃ name, pf_contracts (packageFile c) !! alias = Some name
               ∧ contract = getFromLocal name)
      ∧ (reupload = true
         ∨ _newVersionRequired c = true
         ∨ hasContract (networkFile c) alias = false
         ∨ hash_differs (networkFile c) alias contract
         ∨ library_in_delta contract changedLibraries).
Proof.
  unfold push_deltas.
  destruct (_solidityLibsForPush c (negb reupload)) as [libs|e]; [|done].
  intros [= <- <-] alias contract.
  rewrite elem_of__contractsListForPush, negb_false_iff. done.
Qed.

End ReconcilerProperties.

Lemma push_contract_delta_witness :
  ("Vault", mkContract "Vault" "bytecode:Vault") ∈ [("Vault", mkContract "Vault" "bytecode:Vault")]
  ↔ (∃ name, pf_contracts (packageFile stale_vault_controller) !! "Vault" = Some name
             ∧ mkContract "Vault" "bytecode:Vault" = getFromLocal (ZosLib := Doubles.zosLib) name)
    ∧ (false = true
       ∨ _newVersionRequired stale_vault_controller = true
       ∨ hasContract (networkFile stale_vault_controller) "Vault" = false
       ∨ hash_differs (lib := Doubles.zosLib) (networkFile stale_vault_controller) "Vault"
           (mkContract "Vault" "bytecode:Vault")
       ∨ library_in_delta (lib := Doubles.zosLib) (mkContract "Vault" "bytecode:Vault") []).
Proof.
  apply (push_contract_delta (lib := Doubles.zosLib) stale_vault_controller false []
           [("Vault", mkContract "Vault" "bytecode:Vault")]).
  reflexivity.
Defined.

(** C1, as stated, fails: with a re-upload the contract [Vault] is in the
    delta although no new version is required, it is recorded as deployed,
    its recorded hash is the digest of its bytecode, and the library delta is
    empty. *)
Lemma push_contract_delta_reupload :
  let vault := mkContract "Vault" "bytecode:Vault" in
  push_deltas (lib := Doubles.zosLib) vault_controller true = Ok ([], [("Vault", vault)])
  ∧ _newVersionRequired vault_controller = false
  ∧ hasContract (networkFile vault_controller) "Vault" = true
  ∧ hasSameBytecode (lib := Doubles.zosLib) (networkFile vault_controller) "Vault" vault
    = Some true
  ∧ _hasChangedLibraries (lib := Doubles.zosLib) vault [] = false.
Proof. vm_compute. done. Qed.

(** ** Relations that hold for every run *)

Section Always.
Context {S : Type} (R : relation S) `{!PreOrder R}.

Lemma always_mret {A} (a : A) : always R (mret a : M S A).
Proof. intros s. reflexivity. Qed.

Lemma always_throw {A} (e : string) : always R (throw e : M S A).
Proof. intros s. reflexivity. Qed.

Lemma always_get : always R (get : M S S).
Proof. intros s. reflexivity. Qed.

Lemma always_lift_result {A} (r : Result A) : always R (lift_result r : M S A).
Proof. intros s. reflexivity. Qed.

Lemma always_bind {A B} (m : M S A) (k : A → M S B) :
  always R m → (∀ a, always R (k a)) → always R (m ≫= k).
Proof.
  intros Hm Hk s. unfold mbind, M_bind, bind. specialize (Hm s).
  destruct (m s) as [[a|e] s1]; simpl in *; [|done].
  etrans; [done | apply Hk].
Qed.

Lemma always_rethrow {A} (f : string → string) (m : M S A) :
  always R m → always R (rethrow f m).
Proof.
  intros Hm s. unfold rethrow. specialize (Hm s). by destruct (m s) as [[a|e] s1].
Qed.

Lemma always_try_finally {A} (m : M S A) (fin : M S unit) :
  always R m → always R fin → always R (try_finally m fin).
Proof.
  intros Hm Hfin s. unfold try_finally. specialize (Hm s).
  destruct (m s) as [r s1]; simpl in *. specialize (Hfin s1).
  destruct (fin s1) as [[[]|e] s2]; simpl in *; by etrans.
Qed.

Lemma always_settle {A} (tasks : list (M S A)) (s : S) :
  Forall (always R) tasks → R s (settle tasks s).2.
Proof.
  intros Htasks. revert s. induction Htasks as [|task tasks Htask _ IH]; intros s; simpl.
  - reflexivity.
  - specialize (Htask s). destruct (task s) as [r s1]; simpl in *.
    specialize (IH s1). destruct (settle tasks s1) as [rs s2]; simpl in *. by etrans.
Qed.

Lemma always_allPromisesOrError {A} (tasks : list (M S A)) :
  Forall (always R) tasks → always R (allPromisesOrError tasks).
Proof.
  intros Htasks s. unfold allPromisesOrError.
  pose proof (always_settle tasks s Htasks) as Hs.
  destruct (settle tasks s) as [rs s1]; simpl in *. by destruct (failures rs).
Qed.

Lemma always_batch {A B} (task : A → M S B) (l : list A) :
  (∀ x, x ∈ l → always R (task x)) → always R (allPromisesOrError (task <$> l)).
Proof.
  intros Hl. apply always_allPromisesOrError, Forall_fmap, Forall_forall. exact Hl.
Qed.

End Always.

(** A computation that throws on every run, with the relation holding. *)
Lemma bind_throws {S A B} (R : relation S) `{!PreOrder R} (m : M S A) (k : A → M S B) (s : S) :
  always R m →
  (∀ a s1, ∃ e, (k a s1).1 = Throw e ∧ R s1 (k a s1).2) →
  ∃ e, ((m ≫= k) s).1 = Throw e ∧ R s ((m ≫= k) s).2.
Proof.
  intros Hm Hk. unfold mbind, M_bind, bind. specialize (Hm s).
  destruct (m s) as [[a|e] s1]; simpl in *; [|eauto].
  destruct (Hk a s1) as (e & He & HR). exists e. split; [done | by etrans].
Qed.

(** ** The effect of the controller's steps on the proxies *)

Lemma same_identity_refl (e : ProxyInterface) : same_identity e e.
Proof. by repeat split. Qed.

Lemma same_identity_trans (e1 e2 e3 : ProxyInterface) :
  same_identity e1 e2 → same_identity e2 e3 → same_identity e1 e3.
Proof. intros (?&?&?&?) (?&?&?&?). repeat split; congruence. Qed.

Lemma matches_address_identity (a : option string) (e e' : ProxyInterface) :
  same_identity e e' → matches_address a e' = matches_address a e.
Proof. intros (Ha & _). unfold matches_address. by rewrite Ha. Qed.

(** A call that is neither a creation nor a mutation of a proxy. *)
Ltac benign := split_and!; [done | intros ? ?; discriminate | intros ? ?; discriminate].

(** Steps through a computation, one construct at a time. *)
Ltac walk :=
  repeat match goal with
    | |- always _ (mret _) => apply always_mret; typeclasses eauto
    | |- always _ (throw _) => apply always_throw; typeclasses eauto
    | |- always _ get => apply always_get; typeclasses eauto
    | |- always _ (lift_result _) => apply always_lift_result; typeclasses eauto
    | |- always _ (mbind _ _) => apply always_bind; [typeclasses eauto .. | | intros ?]
    | |- always _ (rethrow _ _) => apply always_rethrow; [typeclasses eauto .. | ]
    | |- always _ (if ?b then _ else _) => destruct b
    | |- always _ (let '(_, _) := ?x in _) => destruct x
    end.

Section Effects.
Context {lib : ZosLib} {names : Naming} {zv : ZosVersion} {be : Backend}.
Context (migrated : option string → Prop) (proxies : list ProxyInterface).

Lemma located_identity (k : string) (e e' : ProxyInterface) :
  same_identity e e' → located proxies k e' → located proxies k e.
Proof.
  intros Hid (p & Hp & Hk & Hm). exists p. split_and!; [done..|].
  by rewrite <- (matches_address_identity _ e e').
Qed.

Lemma effect_preorder : PreOrder (effect migrated proxies).
Proof.
  split.
  - intros c. split_and!.
    + exists []. by rewrite app_nil_r.
    + intros k. apply Forall_Forall2_diag, Forall_forall. intros e _.
      split; [apply same_identity_refl | by left].
    + done.
  - intros c1 c2 c3 ((new1 & Hc1 & Hn1) & Hl1 & Hd1) ((new2 & Hc2 & Hn2) & Hl2 & Hd2).
    split_and!.
    + exists (new1 ++ new2). rewrite Hc2, Hc1, app_assoc. split; [done|].
      by apply Forall_app.
    + intros k. specialize (Hl1 k). specialize (Hl2 k).
      apply Forall2_same_length_lookup in Hl1 as [Hlen1 Hl1].
      apply Forall2_same_length_lookup in Hl2 as [Hlen2 Hl2].
      apply Forall2_same_length_lookup. split; [congruence|].
      intros i e e3 He He3.
      destruct (lookup_lt_is_Some_2 (_proxiesOf (networkFile c2) k) i) as [e2 He2].
      { rewrite <- Hlen1. by eapply lookup_lt_Some. }
      destruct (Hl1 i e e2 He He2) as [Hid1 Hch1].
      destruct (Hl2 i e2 e3 He2 He3) as [Hid2 Hch2].
      split; [by eapply same_identity_trans|].
      destruct Hch1 as [-> | Hloc]; [|by right].
      destruct Hch2 as [-> | Hloc]; [by left | by right].
    + intros k. by rewrite Hd2, Hd1.
Qed.

#[local] Existing Instance effect_preorder.

Lemma effect_step (c c' : Controller) (new : list Call) :
  calls c' = calls c ++ new →
  Forall (allowed migrated proxies) new →
  nf_proxies (networkFile c') = nf_proxies (networkFile c) →
  effect migrated proxies c c'.
Proof.
  intros Hcalls Hnew Hproxies. split_and!.
  - eauto.
  - intros k. unfold _proxiesOf. rewrite Hproxies.
    apply Forall_Forall2_diag, Forall_forall. intros e _.
    split; [apply same_identity_refl | by left].
  - intros k. by rewrite Hproxies.
Qed.

Lemma always_modify (f : Controller → Controller) :
  (∀ c, calls (f c) = calls c) →
  (∀ c, nf_proxies (networkFile (f c)) = nf_proxies (networkFile c)) →
  always (effect migrated proxies) (modify f).
Proof.
  intros Hcalls Hproxies c. apply (effect_step _ _ []); simpl; [|done..].
  by rewrite app_nil_r.
Qed.

Lemma always_call (q : Call) :
  allowed migrated proxies q → always (effect migrated proxies) (call q).
Proof.
  intros Hq c. apply (effect_step _ _ [q]); simpl; [done | by constructor | done].
Qed.

Lemma always_call_project (q : Call) :
  allowed migrated proxies q → always (effect migrated proxies) (call_project q).
Proof.
  intros Hq c. unfold call_project. destruct (project c); [by apply always_call|].
  reflexivity.
Qed.

Lemma always_detached {A} (m : M Controller A) :
  always (effect migrated proxies) m → always (effect migrated proxies) (detached m).
Proof. intros Hm c. apply Hm. Qed.

Lemma always_fetchOrDeploy (requestedVersion : option string) :
  always (effect migrated proxies) (fetchOrDeploy requestedVersion).
Proof.
  intros c. unfold fetchOrDeploy.
  destruct (respond (calls c) (Deployer_fetchOrDeploy requestedVersion));
    apply (effect_step _ _ [Deployer_fetchOrDeploy requestedVersion]); simpl;
    first [done | constructor; [benign | done]].
Qed.

Lemma always__tryRegisterProxyAdmin (adminAddress : option string) :
  always (effect migrated proxies) (_tryRegisterProxyAdmin adminAddress).
Proof.
  unfold _tryRegisterProxyAdmin. walk; try by apply always_modify.
  apply always_call_project. benign.
Qed.

Lemma always__tryRegisterProxyFactory (factoryAddress : option string) :
  always (effect migrated proxies) (_tryRegisterProxyFactory factoryAddress).
Proof.
  unfold _tryRegisterProxyFactory. walk; try by apply always_modify.
  apply always_call_project. benign.
Qed.

Lemma always__updateZosVersionsIfNeeded (version : string) :
  always (effect migrated proxies) (_updateZosVersionsIfNeeded version).
Proof.
  unfold _updateZosVersionsIfNeeded. apply always_modify; intros c;
    repeat case_bool_decide; done.
Qed.

Lemma always_migrate_proxy (proxyAdmin : option string) (proxy : ProxyInterface) :
  migrated (proxy_address proxy) →
  always (effect migrated proxies) (migrate_proxy proxyAdmin proxy).
Proof.
  intros Hm. unfold migrate_proxy. walk; apply always_call;
    (split_and!; [done | intros ? [=]; by subst | intros ? [=]]).
Qed.

Lemma always_migrate_proxies (recorded : option string) (l : list ProxyInterface) :
  (∀ p, p ∈ l → migrated (proxy_address p)) →
  always (effect migrated proxies) (migrate_proxies recorded l).
Proof.
  intros Hl. unfold migrate_proxies. walk; try (apply always_call; benign).
  all: first
    [ apply always_detached, always__tryRegisterProxyAdmin
    | apply always_batch; [typeclasses eauto|]; intros p Hp;
      by apply always_migrate_proxy, Hl ].
Qed.

Lemma always__migrate :
  (∀ a, migrated a) → always (effect migrated proxies) _migrate.
Proof.
  intros Hall. unfold _migrate. walk.
  apply always_migrate_proxies. auto.
Qed.

Lemma always__migrateZosversionIfNeeded :
  (∀ a, migrated a) → always (effect migrated proxies) _migrateZosversionIfNeeded.
Proof.
  intros Hall. unfold _migrateZosversionIfNeeded. walk;
    first [by apply always__migrate | apply always__updateZosVersionsIfNeeded].
Qed.

Lemma always_updateProxy (p : ProxyInterface) (fn : ProxyInterface → Result ProxyInterface) :
  p ∈ proxies →
  (∀ e e', fn e = Ok e' → same_identity e e') →
  always (effect migrated proxies) (on_networkFile (updateProxy p fn)).
Proof.
  intros Hp Hfn c. unfold on_networkFile, updateProxy.
  set (fullname := toContractFullName (proxy_package p) (proxy_contract p)).
  set (l := _proxiesOf (networkFile c) fullname).
  destruct (_indexOfProxy (networkFile c) fullname (proxy_address p)) as [index|] eqn:Hidx;
    [|apply (effect_step _ _ []); simpl; [by rewrite app_nil_r | done..]].
  apply findIndex_Some in Hidx as (e & He & Hmatch & _). fold l in He. rewrite He. simpl.
  destruct (fn e) as [e'|err] eqn:Hfe;
    [|apply (effect_step _ _ []); simpl; [by rewrite app_nil_r | done..]].
  simpl. split_and!.
  - exists []. by rewrite app_nil_r.
  - intros k. cbn [networkFile set_networkFile].
    rewrite _proxiesOf_insert. case_decide as Hk; [subst k|].
    + fold l. apply Forall2_same_length_lookup. split; [by rewrite length_insert|].
      intros i x y Hx Hy. destruct (decide (i = index)) as [->|Hne].
      * rewrite list_lookup_insert_eq in Hy by (by eapply lookup_lt_Some).
        simplify_eq. split; [by apply Hfn|]. right. by exists p.
      * rewrite list_lookup_insert_ne in Hy by done. simplify_eq.
        split; [apply same_identity_refl | by left].
    + apply Forall_Forall2_diag, Forall_forall. intros x _.
      split; [apply same_identity_refl | by left].
  - intros k. simpl. rewrite lookup_insert. case_decide as Hk; [subst k|done].
    split; [done|]. intros Hnone. unfold l, _proxiesOf in He. by rewrite Hnone in He.
Qed.

Lemma always_change_proxy_admin (newAdmin : option string) (p : ProxyInterface) :
  p ∈ proxies →
  always (effect migrated proxies) (change_proxy_admin newAdmin p).
Proof.
  intros Hp. unfold change_proxy_admin. walk.
  - apply always_call_project. split_and!; [done | intros ? [=] | intros ? [= <-]; eauto].
  - apply always_updateProxy; [done|]. by intros e e' [= <-].
Qed.

Lemma always__changeProxiesAdmin (l : list ProxyInterface) (newAdmin : option string) :
  (∀ p, p ∈ l → p ∈ proxies) →
  always (effect migrated proxies) (_changeProxiesAdmin l newAdmin).
Proof.
  intros Hl. unfold _changeProxiesAdmin. apply always_batch; [typeclasses eauto|].
  intros p Hp. by apply always_change_proxy_admin, Hl.
Qed.

Lemma always__upgradeProxy (p : ProxyInterface) (initMethod : option string)
    (initArgs : list string) :
  p ∈ proxies →
  always (effect migrated proxies) (_upgradeProxy p initMethod initArgs).
Proof.
  intros Hp. unfold _upgradeProxy. walk.
  all: try (apply always_call; benign).
  all: try (apply always_call_project; benign).
  all: try (apply always_call_project;
            split_and!; [done | intros ? [=] | intros ? [= <-]; eauto]).
  all: apply always_updateProxy; [done|]; intros e e';
    destruct (semanticVersionToString _); by intros [= <-].
Qed.

Lemma always_upgrade_batch (l : list ProxyInterface) (initMethod : option string)
    (initArgs : list string) :
  (∀ p, p ∈ l → p ∈ proxies) →
  always (effect migrated proxies)
    (allPromisesOrError ((λ proxy, _upgradeProxy proxy initMethod initArgs) <$> l)).
Proof.
  intros Hl. apply always_batch; [typeclasses eauto|].
  intros p Hp. by apply always__upgradeProxy, Hl.
Qed.

End Effects.

(** Without proxies to work on, the lists of the record are unchanged. *)
Lemma effect_nil_proxies {names : Naming} (migrated : option string → Prop)
    (c c' : Controller) :
  effect migrated [] c c' →
  nf_proxies (networkFile c') = nf_proxies (networkFile c).
Proof.
  intros (_ & Hlists & Hkeys). apply map_eq. intros k.
  specialize (Hlists k). specialize (Hkeys k).
  assert (_proxiesOf (networkFile c) k = _proxiesOf (networkFile c') k) as Heq.
  { apply list_eq_Forall2. eapply Forall2_impl; [done|].
    intros e e' [_ [-> | (p & Hp & _)]]; [done|]. by apply elem_of_nil in Hp. }
  unfold _proxiesOf in Heq.
  destruct (nf_proxies (networkFile c') !! k) as [l'|] eqn:Hl';
    destruct (nf_proxies (networkFile c) !! k) as [l|] eqn:Hl; simpl in *.
  - by subst.
  - by destruct (proj2 Hkeys eq_refl).
  - by destruct (proj1 Hkeys eq_refl).
  - done.
Qed.

(** ** Creation of a minimal proxy with a salt *)

Section Creation.
Context {lib : ZosLib} {names : Naming} {zv : ZosVersion} {be : Backend}.

#[local] Existing Instance effect_preorder.

Lemma always_getProxyDeploymentAddress (salt sender : option string) :
  always (effect (λ _, True) []) (getProxyDeploymentAddress salt sender).
Proof.
  unfold getProxyDeploymentAddress. walk.
  - by apply always__migrateZosversionIfNeeded.
  - apply always_fetchOrDeploy.
  - apply always_call_project. benign.
  - apply always_detached, always__tryRegisterProxyFactory.
Qed.

Lemma always__checkDeploymentAddress (salt : option string) :
  always (effect (λ _, True) []) (_checkDeploymentAddress salt).
Proof.
  unfold _checkDeploymentAddress. walk.
  - apply always_getProxyDeploymentAddress.
  - apply always_call. benign.
Qed.

Lemma createProxyInstance_minimal_salt (c : Controller) (salt : option string)
    (contract : Contract) (signature : option string) (createArgs : CreateArgs) :
  truthy salt = true →
  createProxyInstance (Some Minimal) salt contract signature createArgs c
  = (Throw "Cannot create a minimal proxy with a precomputed address, use an Upgradeable proxy instead.",
     c).
Proof. intros Hsalt. unfold createProxyInstance. by rewrite Hsalt. Qed.

(** C7.  A request for a minimal proxy with a non-empty salt fails.
    [createProxyInstance] throws the error that says so, without a call to
    the backend and without a change of state.  [createProxy] ends with an
    error; none of the calls it has made by then creates a proxy, and the
    proxies of the record are unchanged. *)
Theorem createProxy_minimal_salt (c : Controller) (packageName : option string)
    (contractAlias : string) (initMethod : option string) (initArgs : list string)
    (admin salt signature : option string) :
  truthy salt = true →
  (∀ contract createArgs,
     createProxyInstance (Some Minimal) salt contract signature createArgs c
     = (Throw "Cannot create a minimal proxy with a precomputed address, use an Upgradeable proxy instead.",
        c))
  ∧ ∃ e c' new,
      createProxy packageName contractAlias initMethod initArgs admin salt signature
        (Some Minimal) c = (Throw e, c')
      ∧ calls c' = calls c ++ new
      ∧ Forall (λ q, is_creation q = false) new
      ∧ nf_proxies (networkFile c') = nf_proxies (networkFile c).
Proof.
  intros Hsalt. split.
  { intros contract createArgs. by apply createProxyInstance_minimal_salt. }
  assert (∃ e c', createProxy packageName contractAlias initMethod initArgs admin salt
                    signature (Some Minimal) c = (Throw e, c')
                  ∧ effect (λ _, True) [] c c') as (e & c' & Hrun & Heff).
  { unfold createProxy, try_finally.
    match goal with |- context [match ?body c with _ => _ end] =>
      assert (∃ e, (body c).1 = Throw e ∧ effect (λ _, True) [] c (body c).2)
        as (e & He & Hbody);
      [|destruct (body c) as [r c1]; simpl in He, Hbody; subst r]
    end.
    { apply bind_throws; [typeclasses eauto | by apply always__migrateZosversionIfNeeded |].
      intros _ s1.
      apply bind_throws; [typeclasses eauto | walk |]. intros c1 s2.
      apply bind_throws; [typeclasses eauto | apply always_fetchOrDeploy |]. intros _ s3.
      apply bind_throws; [typeclasses eauto | walk |]. intros c2 s4.
      apply bind_throws; [typeclasses eauto | apply always_call; benign |]. intros _ s5.
      apply bind_throws; [typeclasses eauto | |].
      { rewrite Hsalt. apply always__checkDeploymentAddress. }
      intros _ s6. unfold mbind, M_bind, bind.
      rewrite createProxyInstance_minimal_salt by done. simpl. eexists. split; [done|].
      reflexivity. }
    match goal with |- context [match ?fin c1 with _ => _ end] =>
      assert (effect (λ _, True) [] c1 (fin c1).2) as Hfin;
      [|destruct (fin c1) as [[[]|e2] c2]; simpl in Hfin]
    end.
    { revert c1 Hbody. intros c1 _.
      match goal with |- effect _ _ c1 (?fin c1).2 =>
        assert (always (effect (λ _, True) []) fin) as Hfin; [|apply Hfin] end.
      walk; [apply always__tryRegisterProxyAdmin | apply always__tryRegisterProxyFactory]. }
    - exists e, c2. split; [done | by etrans].
    - exists e2, c2. split; [done | by etrans]. }
  destruct Heff as ((new & Hcalls & Hnew) & Hrest).
  exists e, c', new. split_and!; [done..| |].
  - eapply Forall_impl; [done|]. by intros q (Hq & _).
  - eapply effect_nil_proxies. split; [eauto | exact Hrest].
Qed.

End Creation.

Lemma createProxy_minimal_salt_witness :
  let c := vault_controller in
  ∃ e c' new,
    createProxy (lib := Doubles.zosLib) (names := Doubles.naming) (zv := Doubles.zosVersion)
      (be := Doubles.backend) None "Vault" None [] None (Some "0x2a") None (Some Minimal) c
    = (Throw e, c')
    ∧ calls c' = calls c ++ new
    ∧ Forall (λ q, is_creation q = false) new
    ∧ nf_proxies (networkFile c') = nf_proxies (networkFile c).
Proof.
  intros c.
  apply (createProxy_minimal_salt (lib := Doubles.zosLib) (names := Doubles.naming)
           (zv := Doubles.zosVersion) (be := Doubles.backend)
           c None "Vault" None [] None (Some "0x2a") None).
  reflexivity.
Defined.

(** ** The owned proxies *)

Lemma filterR_Ok {A} (pred : A → Result bool) (l r : list A) :
  filterR pred l = Ok r → ∀ x, x ∈ r ↔ x ∈ l ∧ pred x = Ok true.
Proof.
  revert r. induction l as [|y l IH]; intros r; simpl.
  - intros [= <-] x. split; [by intros ?%elem_of_nil | by intros [?%elem_of_nil _]].
  - destruct (pred y) as [b|] eqn:Hy; [|done].
    destruct (filterR pred l) as [r'|]; [|done].
    intros [= <-] x. specialize (IH r' eq_refl x).
    destruct b; rewrite ?elem_of_cons, IH, ?elem_of_cons.
    + split; [intros [-> | [? ?]]; eauto | intros [[-> | ?] ?]; eauto].
    + split; [intros [? ?]; eauto | intros [[-> | ?] ?]; [congruence | eauto]].
Qed.

Section OwnedProxies.
Context {lib : ZosLib} {names : Naming} {zv : ZosVersion} {be : Backend}.

Lemma ownedBy_true (expected : option string) (p : ProxyInterface) :
  ownedBy expected p = Ok true ↔ owned expected p.
Proof.
  unfold ownedBy, owned.
  destruct (truthy (proxy_admin p)); simpl; [|by split; [left | ]].
  destruct (truthy expected); simpl; [|by split; [right; left | ]].
  destruct (toChecksumAddress (proxy_admin p)) as [a|e].
  - split.
    + intros [= Ha%bool_decide_eq_true]. right; right. by subst.
    + intros [? | [? | [= ->]]]; [done..|]. by rewrite bool_decide_eq_true_2.
  - split; [done | by intros [? | [? | ?]]].
Qed.

Lemma decorate_address (k : string) (e : ProxyInterface) :
  proxy_address (decorate k e) = proxy_address e.
Proof. unfold decorate. by destruct (fromContractFullName k). Qed.

Lemma decorate_admin (k : string) (e : ProxyInterface) :
  proxy_admin (decorate k e) = proxy_admin e.
Proof. unfold decorate. by destruct (fromContractFullName k). Qed.

Lemma decorate_kind (k : string) (e : ProxyInterface) :
  proxy_kind (decorate k e) = Some (default Upgradeable (proxy_kind e)).
Proof. unfold decorate. by destruct (fromContractFullName k). Qed.

Lemma owned_decorate (expected : option string) (k : string) (e : ProxyInterface) :
  owned expected (decorate k e) ↔ owned expected e.
Proof. unfold owned. by rewrite decorate_admin. Qed.

Lemma elem_of_allProxies (d : NetworkData) (p : ProxyInterface) :
  p ∈ allProxies d ↔ ∃ k e, e ∈ _proxiesOf d k ∧ p = decorate k e.
Proof.
  unfold allProxies. rewrite list_elem_of_bind. split.
  - intros ([k l] & (e & -> & He)%list_elem_of_fmap & Hkl%elem_of_map_to_list).
    exists k, e. split; [|done]. unfold _proxiesOf. by rewrite Hkl.
  - intros (k & e & He & ->). unfold _proxiesOf in He.
    destruct (nf_proxies d !! k) as [l|] eqn:Hl; simpl in He; [|by apply elem_of_nil in He].
    exists (k, l). split; [|by apply elem_of_map_to_list].
    apply list_elem_of_fmap. eauto.
Qed.

Lemma elem_of_getProxies (d : NetworkData) (f p : ProxyInterface) :
  p ∈ getProxies d f ↔ proxy_filter f p = true ∧ p ∈ allProxies d.
Proof. unfold getProxies. by rewrite list_elem_of_filter. Qed.

Lemma proxy_filter_kind (f p : ProxyInterface) (kind : ProxyType) :
  proxy_kind f = Some kind → proxy_filter f p = true → proxy_kind p = Some kind.
Proof.
  intros Hf. unfold proxy_filter. rewrite !andb_true_iff, Hf.
  intros (_ & Hk). rewrite bool_decide_eq_true_2 in Hk by eauto. simpl in Hk.
  by apply bool_decide_eq_true in Hk.
Qed.

(** What [_fetchOwnedProxies] returns: the proxies that pass the filter of
    [getProxies], which asks for upgradeable proxies, and are owned by the
    expected owner. *)
Lemma _fetchOwnedProxies_Ok (c : Controller)
    (packageName contractAlias proxyAddress ownerAddress : option string)
    (l : list ProxyInterface) (p : ProxyInterface) :
  _fetchOwnedProxies c packageName contractAlias proxyAddress ownerAddress = Ok l →
  p ∈ l ↔
    p ∈ getProxies (networkFile c) (owned_filter c packageName contractAlias proxyAddress)
    ∧ ∃ expected, expectedOwner ownerAddress (networkFile c) = Ok expected
                  ∧ owned expected p.
Proof.
  unfold _fetchOwnedProxies, expectedOwner.
  destruct (getProxies _ _) as [|p0 ps] eqn:Hget.
  - intros [= <-]. split; [by intros ?%elem_of_nil | by intros [?%elem_of_nil _]].
  - destruct (toChecksumAddress _) as [expected|e]; [|done].
    intros Hfilter. rewrite (filterR_Ok _ _ _ Hfilter), ownedBy_true. split.
    + intros [? ?]. eauto.
    + intros [? (expected' & [= <-] & ?)]. eauto.
Qed.

Lemma fetched_recorded (c : Controller)
    (packageName contractAlias proxyAddress ownerAddress : option string)
    (l : list ProxyInterface) (p : ProxyInterface) :
  _fetchOwnedProxies c packageName contractAlias proxyAddress ownerAddress = Ok l →
  p ∈ l →
  ∃ k e expected,
    e ∈ _proxiesOf (networkFile c) k ∧ p = decorate k e
    ∧ proxy_kind e ≠ Some Minimal
    ∧ expectedOwner ownerAddress (networkFile c) = Ok expected
    ∧ owned expected e.
Proof.
  intros Hfetch Hp. apply (_fetchOwnedProxies_Ok _ _ _ _ _ _ _ Hfetch) in Hp
    as [[Hfilter Hall]%elem_of_getProxies (expected & Hexp & Howned)].
  apply elem_of_allProxies in Hall as (k & e & He & ->).
  exists k, e, expected. split_and!; [done..| |done|by apply owned_decorate in Howned].
  apply (proxy_filter_kind _ _ Upgradeable) in Hfilter; [|done].
  rewrite decorate_kind in Hfilter. intros Hmin. by rewrite Hmin in Hfilter.
Qed.

End OwnedProxies.

(** ** The batch operations *)

Lemma matches_address_Some (x : option string) (e : ProxyInterface) :
  matches_address x e = true → ∃ a, x = Some a ∧ proxy_address e = Some a.
Proof.
  unfold matches_address. destruct x as [a|], (proxy_address e) as [b|]; try done.
  intros <-%bool_decide_eq_true. eauto.
Qed.

Lemma unique_addresses_singleton (d : NetworkData) (k : string) (l : list ProxyInterface) :
  nf_proxies d = {[k := l]} →
  NoDup (proxy_address <$> l) →
  unique_addresses d.
Proof.
  intros Hd Hl k1 i1 e1 k2 i2 e2 a H1 H2 Ha1 Ha2.
  unfold _proxiesOf in H1, H2. rewrite Hd in H1, H2.
  destruct (decide (k = k1)) as [<-|Hk1];
    [rewrite lookup_singleton_eq in H1 | by rewrite lookup_singleton_ne in H1].
  destruct (decide (k = k2)) as [<-|Hk2];
    [rewrite lookup_singleton_eq in H2 | by rewrite lookup_singleton_ne in H2].
  simpl in H1, H2. split; [done|].
  apply (NoDup_lookup (proxy_address <$> l) i1 i2 (Some a)); [done|..];
    rewrite list_lookup_fmap; [rewrite H1 | rewrite H2]; simpl; congruence.
Qed.

Section BatchOperations.
Context {lib : ZosLib} {names : Naming} {zv : ZosVersion} {be : Backend}.

#[local] Existing Instance effect_preorder.

(** The proxies [_migrate] looks for. *)
Lemma _migrateZosversionIfNeeded_effect (c : Controller) (legacy : list ProxyInterface) :
  legacy = match _fetchOwnedProxies c None None None (legacy_owner c) with
           | Ok l => l
           | Throw _ => []
           end →
  effect (λ a, ∃ p, p ∈ legacy ∧ proxy_address p = a) [] c (_migrateZosversionIfNeeded c).2.
Proof.
  intros Hlegacy. set (migrated := λ a, ∃ p, p ∈ legacy ∧ proxy_address p = a).
  assert (effect migrated [] c (_migrate c).2) as Hmigrate.
  { unfold _migrate, mbind, M_bind, bind, get, lift_result.
    destruct (_fetchOwnedProxies c None None None (legacy_owner c)) as [[|p l]|e];
      [reflexivity | | reflexivity].
    apply always_migrate_proxies. intros q Hq. exists q. by subst legacy. }
  unfold _migrateZosversionIfNeeded, mbind, M_bind, bind, get.
  destruct (isMigratableZosversion (currentZosversion c)).
  - destruct (_migrate c) as [[[]|e] c1]; simpl in *; [|done].
    etrans; [done | apply always__updateZosVersionsIfNeeded].
  - apply always__updateZosVersionsIfNeeded.
Qed.

(** The common course of [setProxiesAdmin] and [upgradeProxies]: after the
    migration, the batch runs on the proxies fetched then. *)
Lemma owned_batch_effect {A} (packageName contractAlias proxyAddress : option string)
    (batch : list ProxyInterface → M Controller A) (c c1 : Controller)
    (fetched : list ProxyInterface) :
  (∀ l, always (effect (λ _, False) l) (batch l)) →
  c1 = (_migrateZosversionIfNeeded c).2 →
  fetched = match _fetchOwnedProxies c1 packageName contractAlias proxyAddress None with
            | Ok l => l
            | Throw _ => []
            end →
  effect (λ _, False) fetched c1
    ((_migrateZosversionIfNeeded;;
      c ← get;
      proxies ← lift_result (_fetchOwnedProxies c packageName contractAlias proxyAddress None);
      match proxies with
      | [] => mret []
      | _ =>
          c ← get;
          fetchOrDeploy (currentVersion c);;
          batch proxies;;
          mret proxies
      end) c).2.
Proof.
  intros Hbatch -> ->. unfold mbind at 1, M_bind at 1, bind at 1.
  destruct (_migrateZosversionIfNeeded c) as [[[]|e] c1]; simpl; [|reflexivity].
  unfold mbind at 1, M_bind at 1, bind at 1, get at 1. simpl.
  unfold mbind at 1, M_bind at 1, bind at 1, lift_result at 1. simpl.
  destruct (_fetchOwnedProxies c1 packageName contractAlias proxyAddress None)
    as [[|p l]|e]; [reflexivity | | reflexivity].
  match goal with |- effect _ _ _ (?m c1).2 =>
    assert (always (effect (λ _, False) (p :: l)) m) as Hm; [|apply Hm] end.
  walk; [apply always_fetchOrDeploy | apply Hbatch].
Qed.

(** When every address is recorded once, a recorded entry with an address is
    the only recorded entry with this address. *)
Lemma unique_recorded (d : NetworkData) (k : string) (i : nat) (e e2 : ProxyInterface)
    (a : string) :
  unique_addresses d →
  _proxiesOf d k !! i = Some e → proxy_address e = Some a →
  recorded d e2 → proxy_address e2 = Some a →
  e2 = e.
Proof.
  intros Hunique He Ha [k2 [i2 He2]%list_elem_of_lookup] Ha2.
  destruct (Hunique k i e k2 i2 e2 a He He2 Ha Ha2) as [<- <-]. congruence.
Qed.

Lemma effect_migrates_only (ok : ProxyInterface → Prop) (migrated : option string → Prop)
    (c c1 : Controller) :
  effect migrated [] c c1 →
  (∀ a, migrated a → ∃ e, recorded (networkFile c) e ∧ proxy_address e = a ∧ ok e) →
  migrates_only ok c c1.
Proof.
  intros Heff Hmig. split; [by eapply effect_nil_proxies|].
  destruct Heff as ((mig & Hcalls & Hall) & _). exists mig.
  rewrite Forall_forall in Hall.
  assert (∀ q a, q ∈ mig → migration_target q = Some a →
            ∃ e, recorded (networkFile c) e ∧ proxy_address e = a ∧ ok e) as Htargets.
  { intros q a Hq Ha. destruct (Hall q Hq) as (_ & Hm & _). eauto. }
  split_and!; [done| |done|].
  - intros q Hq. destruct (Hall q Hq) as (Hcreate & _ & Hb). split; [|done].
    destruct (batch_target q) as [b|]; [|done].
    destruct (Hb b eq_refl) as (p & Hp%elem_of_nil & _). done.
  - intros Hunique k i e a q He Hnot Ha Hq Htarget.
    destruct (Htargets q (Some a) Hq Htarget) as (e2 & Hrec & Ha2 & Hok).
    by rewrite (unique_recorded (networkFile c) k i e e2 a Hunique He Ha Hrec Ha2) in Hok.
Qed.

Lemma effect_mutates_only (ok : ProxyInterface → Prop) (c c1 c' : Controller)
    (fetched : list ProxyInterface) :
  nf_proxies (networkFile c1) = nf_proxies (networkFile c) →
  effect (λ _, False) fetched c1 c' →
  (∀ p, p ∈ fetched →
        ∃ k e, e ∈ _proxiesOf (networkFile c) k ∧ p = decorate k e ∧ ok e) →
  mutates_only ok c c1 c'.
Proof.
  intros Hsame ((main & Hcalls & Hall) & Hlists & _) Hfetched.
  rewrite Forall_forall in Hall. exists main.
  assert (∀ q a, q ∈ main → batch_target q = Some a →
            ∃ e, recorded (networkFile c) e ∧ proxy_address e = a ∧ ok e) as Htargets.
  { intros q a Hq Ha. destruct (Hall q Hq) as (_ & _ & Hb).
    destruct (Hb a Ha) as (p & Hp & Hpa).
    destruct (Hfetched p Hp) as (k & e & He & -> & Hok).
    exists e. split_and!; [by exists k | by rewrite <- decorate_address with (k := k) | done]. }
  split_and!; [done| |done|].
  - intros q Hq. destruct (Hall q Hq) as (Hcreate & Hm & _). split; [|done].
    destruct (migration_target q) as [b|]; [|done]. by destruct (Hm b).
  - intros Hunique k i e He Hnot. split.
    + specialize (Hlists k).
      assert (_proxiesOf (networkFile c1) k = _proxiesOf (networkFile c) k) as Hk.
      { unfold _proxiesOf. by rewrite Hsame. }
      rewrite Hk in Hlists.
      destruct (Forall2_lookup_l _ _ _ i e Hlists He) as (e' & He' & _ & [-> | Hloc]);
        [done|].
      destruct Hloc as (p & Hp & _ & (a & Hpa & Hea)%matches_address_Some).
      destruct (Hfetched p Hp) as (k2 & e2 & He2 & -> & Hok).
      rewrite decorate_address in Hpa.
      assert (recorded (networkFile c) e2) as Hrec by (by exists k2).
      by rewrite (unique_recorded (networkFile c) k i e e2 a Hunique He Hea Hrec Hpa) in Hok.
    + intros a q Ha Hq Htarget.
      destruct (Htargets q (Some a) Hq Htarget) as (e2 & Hrec & Ha2 & Hok).
      by rewrite (unique_recorded (networkFile c) k i e e2 a Hunique He Ha Hrec Ha2) in Hok.
Qed.

End BatchOperations.

Section OwnershipFilter.
Context {lib : ZosLib} {names : Naming} {zv : ZosVersion} {be : Backend}.

Lemma batch_operations_effect (c c1 : Controller)
    (packageName contractAlias proxyAddress newAdmin initMethod : option string)
    (initArgs : list string) (fetched : list ProxyInterface) :
  c1 = (_migrateZosversionIfNeeded c).2 →
  fetched = match _fetchOwnedProxies c1 packageName contractAlias proxyAddress None with
            | Ok l => l
            | Throw _ => []
            end →
  effect (λ _, False) fetched c1
    (setProxiesAdmin packageName contractAlias proxyAddress newAdmin c).2
  ∧ effect (λ _, False) fetched c1
      (upgradeProxies packageName contractAlias proxyAddress initMethod initArgs c).2.
Proof.
  intros Hc1 Hfetched. split.
  - unfold setProxiesAdmin.
    apply (owned_batch_effect _ _ _ (λ l, _changeProxiesAdmin l newAdmin)); [|done..].
    intros l. by apply always__changeProxiesAdmin.
  - unfold upgradeProxies.
    apply (owned_batch_effect _ _ _
             (λ l, allPromisesOrError
                     ((λ proxy, _upgradeProxy proxy initMethod initArgs) <$> l))); [|done..].
    intros l. by apply always_upgrade_batch.
Qed.

Lemma batch_operations_mutate_only (ok legacy_ok : ProxyInterface → Prop) (c : Controller)
    (packageName contractAlias proxyAddress newAdmin initMethod : option string)
    (initArgs : list string) :
  let c1 := (_migrateZosversionIfNeeded c).2 in
  (∀ l p k e expected,
     _fetchOwnedProxies c None None None (legacy_owner c) = Ok l → p ∈ l →
     e ∈ _proxiesOf (networkFile c) k → proxy_kind e ≠ Some Minimal →
     expectedOwner (legacy_owner c) (networkFile c) = Ok expected → owned expected e →
     legacy_ok e) →
  (∀ l p k e expected,
     _fetchOwnedProxies c1 packageName contractAlias proxyAddress None = Ok l → p ∈ l →
     e ∈ _proxiesOf (networkFile c1) k → proxy_kind e ≠ Some Minimal →
     expectedOwner None (networkFile c1) = Ok expected → owned expected e →
     ok e) →
  migrates_only legacy_ok c c1
  ∧ mutates_only ok c c1 (setProxiesAdmin packageName contractAlias proxyAddress newAdmin c).2
  ∧ mutates_only ok c c1
      (upgradeProxies packageName contractAlias proxyAddress initMethod initArgs c).2.
Proof.
  intros c1 Hlegacy Hok.
  assert (migrates_only legacy_ok c c1) as Hmig.
  { eapply effect_migrates_only; [by apply _migrateZosversionIfNeeded_effect|].
    intros a (p & Hp & <-).
    destruct (_fetchOwnedProxies c None None None (legacy_owner c)) as [l|] eqn:Hfetch;
      [|by apply elem_of_nil in Hp].
    destruct (fetched_recorded _ _ _ _ _ _ _ Hfetch Hp)
      as (k & e & expected & He & -> & Hkind & Hexp & Howned).
    exists e. split_and!; [by exists k | by rewrite decorate_address | eauto]. }
  split; [done|]. pose proof (proj1 Hmig) as Hsame.
  assert (∀ p, p ∈ match _fetchOwnedProxies c1 packageName contractAlias proxyAddress None with
                   | Ok l => l
                   | Throw _ => []
                   end →
           ∃ k e, e ∈ _proxiesOf (networkFile c) k ∧ p = decorate k e ∧ ok e) as Hfetched.
  { intros p Hp.
    destruct (_fetchOwnedProxies c1 packageName contractAlias proxyAddress None)
      as [l|] eqn:Hfetch; [|by apply elem_of_nil in Hp].
    destruct (fetched_recorded _ _ _ _ _ _ _ Hfetch Hp)
      as (k & e & expected & He & -> & Hkind & Hexp & Howned).
    exists k, e. split_and!; [|done|eauto].
    unfold _proxiesOf in *. by rewrite <- Hsame. }
  destruct (batch_operations_effect c c1 packageName contractAlias proxyAddress newAdmin
              initMethod initArgs _ eq_refl eq_refl) as [Hset Hupgrade].
  split; by eapply effect_mutates_only.
Qed.

Lemma _fetchOwnedProxies_expected (c : Controller)
    (packageName contractAlias proxyAddress ownerAddress : option string)
    (l : list ProxyInterface) (p : ProxyInterface) :
  _fetchOwnedProxies c packageName contractAlias proxyAddress ownerAddress = Ok l →
  p ∈ getProxies (networkFile c) (owned_filter c packageName contractAlias proxyAddress) →
  ∃ expected, expectedOwner ownerAddress (networkFile c) = Ok expected.
Proof.
  unfold _fetchOwnedProxies, expectedOwner.
  destruct (getProxies _ _) as [|p0 ps]; [by intros _ ?%elem_of_nil|].
  destruct (toChecksumAddress _) as [expected|e]; [eauto | done].
Qed.

(** C2, as amended.  Let the record's proxy admin address at the time the
    proxies are fetched, in checksummed form, be the expected owner.  An
    entry counts as owned when it records no admin, or no owner is expected
    (the record has no proxy admin address), or its recorded admin is, in
    checksummed form, the expected owner.  In [setProxiesAdmin] and in
    [upgradeProxies] every backend call that changes the admin or the
    implementation of a proxy goes to the address of a recorded entry that is
    owned, and, when every address is recorded once, an entry that is not
    owned is left in place as it is.  The calls of the format migration that
    runs first go to entries owned by the legacy owner, and leave the proxies
    of the record alone.  A proxy that passes the filter and records no admin
    is among the fetched ones, and so is every proxy that passes the filter
    when no owner is expected. *)
Theorem batch_operations_owned (c : Controller)
    (packageName contractAlias proxyAddress newAdmin initMethod : option string)
    (initArgs : list string) :
  let c1 := (_migrateZosversionIfNeeded c).2 in
  let is_owned := λ e,
    ∃ expected, expectedOwner None (networkFile c1) = Ok expected ∧ owned expected e in
  let legacy_owned := λ e,
    ∃ expected, expectedOwner (legacy_owner c) (networkFile c) = Ok expected
                ∧ owned expected e in
  migrates_only legacy_owned c c1
  ∧ mutates_only is_owned c c1
      (setProxiesAdmin packageName contractAlias proxyAddress newAdmin c).2
  ∧ mutates_only is_owned c c1
      (upgradeProxies packageName contractAlias proxyAddress initMethod initArgs c).2
  ∧ (∀ l p,
       _fetchOwnedProxies c1 packageName contractAlias proxyAddress None = Ok l →
       p ∈ getProxies (networkFile c1) (owned_filter c1 packageName contractAlias proxyAddress) →
       truthy (proxy_admin p) = false
       ∨ (∃ expected, expectedOwner None (networkFile c1) = Ok expected
                      ∧ truthy expected = false) →
       p ∈ l).
Proof.
  intros c1 is_owned legacy_owned.
  destruct (batch_operations_mutate_only is_owned legacy_owned c packageName contractAlias
              proxyAddress newAdmin initMethod initArgs) as (Hmig & Hset & Hupgrade).
  { intros l p k e expected _ _ _ _ Hexp Howned. by exists expected. }
  { intros l p k e expected _ _ _ _ Hexp Howned. by exists expected. }
  split_and!; [done..|].
  intros l p Hfetch Hp Hcase.
  apply (_fetchOwnedProxies_Ok _ _ _ _ _ _ _ Hfetch). split; [done|].
  destruct (_fetchOwnedProxies_expected _ _ _ _ _ _ _ Hfetch Hp) as [expected Hexp].
  exists expected. split; [done|].
  destruct Hcase as [Hadmin | (expected' & Hexp' & Hnone)].
  - by left.
  - right; left. congruence.
Qed.


End OwnershipFilter.

Lemma batch_operations_owned_witness :
  _proxiesOf
    (networkFile
       (setProxiesAdmin (lib := Doubles.zosLib) (names := Doubles.naming)
          (zv := Doubles.zosVersion) (be := Doubles.backend)
          None None None (Some "0xNew") token_controller).2)
    "zos/Token" !! 1
  = Some token_foreign.
Proof.
  destruct (batch_operations_owned (lib := Doubles.zosLib) (names := Doubles.naming)
              (zv := Doubles.zosVersion) (be := Doubles.backend)
              token_controller None None None (Some "0xNew") None [])
    as (_ & (main & _ & _ & _ & Hrecord) & _).
  apply Hrecord.
  - eapply unique_addresses_singleton; [reflexivity|].
    apply NoDup_cons. split; [|apply NoDup_singleton].
    intros Hin. apply list_elem_of_singleton in Hin. discriminate Hin.
  - reflexivity.
  - intros (expected & Hexp & Howned). vm_compute in Hexp.
    injection Hexp as <-. destruct Howned as [Ho | [Ho | Ho]]; vm_compute in Ho; discriminate Ho.
Defined.

(** C2, as stated, fails: the record has no proxy admin address, so that the
    admin recorded for the proxy at [0xB] is not the expected admin; yet
    [setProxiesAdmin] calls the backend for this proxy and rewrites its
    entry. *)
Lemma setProxiesAdmin_without_proxy_admin :
  let c := token_controller_without_admin in
  let c' := (setProxiesAdmin (lib := Doubles.zosLib) (names := Doubles.naming)
               (zv := Doubles.zosVersion) (be := Doubles.backend)
               None None None (Some "0xNew") c).2 in
  proxyAdminAddress (networkFile c) = None
  ∧ _proxiesOf (networkFile c) "zos/Token" !! 1 = Some token_foreign
  ∧ proxy_admin token_foreign = Some "0xElse"
  ∧ calls c' = [Deployer_fetchOrDeploy (Some "1.0.0");
                Project_changeProxyAdmin (Some "0xA") (Some "0xNew");
                Project_changeProxyAdmin (Some "0xB") (Some "0xNew")]
  ∧ _proxiesOf (networkFile c') "zos/Token" !! 1
    = Some (with_admin (Some "0xNew") token_foreign).
Proof. vm_compute. done. Qed.



(** ** Runs on concrete records *)

Example satisfiesVersion_caret_accepts :
  satisfiesVersion (sv := Doubles.semver) "1.2.5" (Some "^1.2.0") = true.
Proof. reflexivity. Qed.

Example satisfiesVersion_caret_rejects :
  satisfiesVersion (sv := Doubles.semver) "1.3.0" (Some "^2.0.0") = false.
Proof. reflexivity. Qed.

Example satisfiesVersion_same_string :
  satisfiesVersion (sv := Doubles.semver) "next" (Some "next") = true.
Proof. reflexivity. Qed.

Example getProxies_all :
  getProxies (names := Doubles.naming) (networkFile minimal_controller)
    (mkProxyInterface None None None None None None None None)
  = [decorate (names := Doubles.naming) "zos/Token" token_owned;
     decorate (names := Doubles.naming) "zos/Token" token_minimal].
Proof. vm_compute. reflexivity. Qed.

Example getProxies_upgradeable :
  getProxies (names := Doubles.naming) (networkFile minimal_controller)
    (mkProxyInterface None (Some "zos") (Some "Token") None None None None (Some Upgradeable))
  = [decorate (names := Doubles.naming) "zos/Token" token_owned].
Proof. vm_compute. reflexivity. Qed.

Example hasSameBytecode_missing :
  hasSameBytecode (lib := Doubles.zosLib) (networkFile vault_controller) "Token"
    (mkContract "Token" "bytecode:Token") = None.
Proof. reflexivity. Qed.

Example push_deltas_stale :
  push_deltas (lib := Doubles.zosLib) stale_vault_controller false
  = Ok ([], [("Vault", mkContract "Vault" "bytecode:Vault")]).
Proof. vm_compute. reflexivity. Qed.

Example push_deltas_up_to_date :
  push_deltas (lib := Doubles.zosLib) vault_controller false = Ok ([], []).
Proof. vm_compute. reflexivity. Qed.

Example createProxy_minimal_salt_message :
  (createProxy (lib := Doubles.zosLib) (names := Doubles.naming) (zv := Doubles.zosVersion)
     (be := Doubles.backend) None "Vault" None [] None (Some "0x2a") None (Some Minimal)
     vault_controller).1
  = Throw "Cannot create a minimal proxy with a precomputed address, use an Upgradeable proxy instead.".
Proof. vm_compute. reflexivity. Qed.

Example createProxy_minimal_recorded :
  _proxiesOf
    (networkFile
       (createProxy (lib := Doubles.zosLib) (names := Doubles.naming)
          (zv := Doubles.zosVersion) (be := Doubles.backend)
          None "Vault" None [] None None None (Some Minimal) vault_controller).2)
    "zos/Vault"
  = [mkProxyInterface None None None (Some "0xC0FFEE") (Some "1.0.0") None None (Some Minimal)].
Proof. vm_compute. reflexivity. Qed.

Example setProxiesAdmin_owned_only :
  calls (setProxiesAdmin (lib := Doubles.zosLib) (names := Doubles.naming)
           (zv := Doubles.zosVersion) (be := Doubles.backend)
           None None None (Some "0xNew") token_controller).2
  = [Deployer_fetchOrDeploy (Some "1.0.0");
     Project_changeProxyAdmin (Some "0xA") (Some "0xNew")].
Proof. vm_compute. reflexivity. Qed.

(* ===================================================================== *)
(** * Part II, continued: further properties of the record                 *)
(* ===================================================================== *)

(** ** Adding and removing a proxy *)

Lemma findIndex_app_last {A} (pred : A → bool) (l : list A) (x : A) :
  (∀ y, y ∈ l → pred y = false) → pred x = true →
  findIndex pred (l ++ [x]) = Some (length l).
Proof.
  intros Hl Hx. induction l as [|y l IH]; simpl.
  - by rewrite Hx.
  - rewrite (Hl y) by apply list_elem_of_here.
    rewrite IH; [done|]. intros z Hz. apply Hl. by apply list_elem_of_further.
Qed.

Lemma delete_app_last {A} (l : list A) (x : A) : delete (length l) (l ++ [x]) = l.
Proof. induction l as [|y l IH]; simpl; [done|]. by rewrite IH. Qed.

Section RecordProperties.
Context {lib : ZosLib} {names : Naming} {code : ZosLibCode}.

(** X1.  [addProxy] appends the proxy to the list of its full name and leaves
    the other lists alone; the proxy is then among the results of
    [getProxies()].  When no proxy of the list had its address, and the list
    was not an empty one left in the record, [removeProxy] with this address
    gives back the record as it was. *)
Theorem addProxy_then_removeProxy (d : NetworkData) (thepackage alias address : string)
    (info : ProxyInterface) :
  let fullname := toContractFullName (Some thepackage) (Some alias) in
  ∃ d1, addProxy thepackage alias info d = (Ok tt, d1)
        ∧ _proxiesOf d1 fullname = _proxiesOf d fullname ++ [info]
        ∧ (∀ k, k ≠ fullname → nf_proxies d1 !! k = nf_proxies d !! k)
        ∧ decorate fullname info ∈ getProxies d1 no_filter
        ∧ (proxy_address info = Some address →
           (∀ p, p ∈ _proxiesOf d fullname → proxy_address p ≠ Some address) →
           nf_proxies d !! fullname ≠ Some [] →
           removeProxy thepackage alias address d1 = (Ok tt, d)).
Proof.
  intros fullname.
  set (l := _proxiesOf d fullname).
  exists (set_proxies (<[fullname := l ++ [info]]> (nf_proxies d)) d).
  split; [reflexivity|].
  assert (_proxiesOf (set_proxies (<[fullname := l ++ [info]]> (nf_proxies d)) d) fullname
          = l ++ [info]) as Hl1.
  { rewrite _proxiesOf_insert. by rewrite decide_True. }
  split_and!.
  - done.
  - intros k Hk. simpl. by rewrite lookup_insert_ne.
  - apply elem_of_getProxies. split.
    + unfold proxy_filter, no_filter. simpl. done.
    + apply elem_of_allProxies. exists fullname, info. split; [|done].
      rewrite Hl1. apply elem_of_app. right. apply list_elem_of_here.
  - intros Hinfo Hfresh Hnonempty.
    unfold removeProxy, modify. fold fullname. f_equal.
    unfold _indexOfProxy. rewrite Hl1.
    rewrite (findIndex_app_last _ l info).
    + rewrite delete_app_last. rewrite _proxiesOf_insert, decide_True by done.
      simpl. rewrite insert_insert_eq.
      destruct l as [|p l'] eqn:Hl; simpl.
      * rewrite delete_insert_eq.
        assert (nf_proxies d !! fullname = None) as Hnone.
        { unfold l, _proxiesOf in Hl.
          destruct (nf_proxies d !! fullname) as [l0|]; [|done]. simpl in Hl. by subst. }
        rewrite delete_id by done. unfold set_proxies. simpl. by destruct d.
      * assert (nf_proxies d !! fullname = Some (p :: l')) as Hsome.
        { unfold l, _proxiesOf in Hl.
          destruct (nf_proxies d !! fullname) as [l0|]; simpl in Hl; [by subst | done]. }
        rewrite insert_id by done. unfold set_proxies. simpl. by destruct d.
    + intros y Hy. apply matches_address_false. by apply Hfresh.
    + by apply matches_address_true.
Qed.

(** ** The results of getProxies *)


End RecordProperties.

Lemma foldl_insert_lookup (l : list (string * string)) (m : gmap string string)
    (k v : string) :
  NoDup (l.*1) →
  foldl (λ someLib '(libName, address), <[libName := address]> someLib) m l !! k = Some v ↔
    (k, v) ∈ l ∨ ((k ∉ l.*1) ∧ m !! k = Some v).
Proof.
  revert m. induction l as [|[n a] l IH]; intros m Hnodup; simpl.
  - split; [intros ?; right; split; [apply not_elem_of_nil | done] |].
    intros [?%elem_of_nil | [_ ?]]; done.
  - apply NoDup_cons in Hnodup as [Hn Hnodup]. rewrite (IH _ Hnodup).
    rewrite elem_of_cons, not_elem_of_cons. split.
    + intros [Hin | [Hnot Hlook]]; [by left; right|].
      destruct (decide (n = k)) as [->|Hne].
      * rewrite lookup_insert_eq in Hlook. simplify_eq. by left; left.
      * rewrite lookup_insert_ne in Hlook by done. right. split; [by split|done].
    + intros [[[= -> ->] | Hin] | [[Hne Hnot] Hlook]].
      * right. split; [done | by rewrite lookup_insert_eq].
      * by left.
      * right. split; [done|]. by rewrite lookup_insert_ne.
Qed.

Lemma NoDup_fst_filter {A B} (P : A * B → Prop) `{∀ x, Decision (P x)} (l : list (A * B)) :
  NoDup (l.*1) → NoDup ((filter P l).*1).
Proof.
  induction l as [|x l IH]; simpl; [done|].
  intros [Hx Hl]%NoDup_cons. rewrite filter_cons. destruct (decide (P x)); simpl; [|by apply IH].
  apply NoDup_cons. split; [|by apply IH].
  intros (y & Hy & [_ Hin]%list_elem_of_filter)%list_elem_of_fmap.
  apply Hx, list_elem_of_fmap. eauto.
Qed.

Section RecordProperties2.
Context {lib : ZosLib} {names : Naming} {code : ZosLibCode}.

(** X3.  [getProxy(address)] answers nothing exactly when no recorded entry
    has the address; otherwise it answers the completion of a recorded entry
    with this address. *)
Theorem getProxy_spec (d : NetworkData) (address : string) :
  (getProxy d address = None ↔
     ∀ k e, e ∈ _proxiesOf d k → proxy_address e ≠ Some address)
  ∧ (∀ p, getProxy d address = Some p →
          proxy_address p = Some address
          ∧ ∃ k e, e ∈ _proxiesOf d k ∧ p = decorate k e).
Proof.
  unfold getProxy. split.
  - rewrite head_None. split.
    + intros Hnil k e He Ha.
      eapply (filter_nil_not_elem_of _ _ (decorate k e) Hnil).
      * apply matches_address_true. by rewrite decorate_address.
      * apply elem_of_getProxies. split; [done|]. apply elem_of_allProxies. eauto.
    + intros Hnone.
      destruct (filter _ (getProxies d no_filter)) as [|p l] eqn:Hf; [done|].
      assert (p ∈ filter (λ p, matches_address (Some address) p = true)
                    (getProxies d no_filter)) as Hp.
      { rewrite Hf. apply list_elem_of_here. }
      apply list_elem_of_filter in Hp as [Hm%matches_address_true Hin].
      apply elem_of_getProxies in Hin as [_ (k & e & He & ->)%elem_of_allProxies].
      rewrite decorate_address in Hm. by destruct (Hnone k e).
  - intros p (l & Hf)%head_Some.
    assert (p ∈ filter (λ p, matches_address (Some address) p = true)
                  (getProxies d no_filter)) as Hp.
    { rewrite Hf. apply list_elem_of_here. }
    apply list_elem_of_filter in Hp as [Hm%matches_address_true Hin].
    split; [done|].
    by apply elem_of_getProxies in Hin as [_ ?%elem_of_allProxies].
Qed.

(** X4.  After [addContract] the alias is recorded, and [hasSameBytecode]
    answers [true] for every class with the bytecode of the instance: a
    contract that has just been recorded does not count as changed.  The
    entries of the other aliases, the libraries, the proxies and the
    dependencies are as before. *)
Theorem addContract_recorded (d : NetworkData) (alias : string) (instance : Instance)
    (warnings types storage : option string) :
  ∃ d1, addContract alias instance warnings types storage d = (Ok tt, d1)
        ∧ hasContract d1 alias = true
        ∧ (∀ klass, schema_bytecode klass = schema_bytecode (instance_class instance) →
                    hasSameBytecode d1 alias klass = Some true)
        ∧ (∀ other, other ≠ alias → contract d1 other = contract d other)
        ∧ d1 = set_contracts (nf_contracts d1) d.
Proof.
  eexists. split; [reflexivity|]. split_and!.
  - unfold hasContract, contract. simpl. by rewrite lookup_insert_eq.
  - intros klass Hk. unfold hasSameBytecode, contract. simpl.
    rewrite lookup_insert_eq. simpl. by rewrite Hk, bool_decide_eq_true_2.
  - intros other Hother. unfold contract. simpl. by rewrite lookup_insert_ne.
  - done.
Qed.

(** X5.  After [addSolidityLib] the library is recorded.  [hasSameBytecode]
    then answers [true] for a class with the bytecode of the instance when no
    contract is recorded under the same name; when one is, the answer is
    taken from the entry of the contract, whatever the library entry says. *)
Theorem addSolidityLib_recorded (d : NetworkData) (libName : string) (instance : Instance)
    (klass : Contract) :
  schema_bytecode klass = schema_bytecode (instance_class instance) →
  ∃ d1, addSolidityLib libName instance d = (Ok tt, d1)
        ∧ hasSolidityLib d1 libName = true
        ∧ (nf_contracts d !! libName = None → hasSameBytecode d1 libName klass = Some true)
        ∧ (∀ c, nf_contracts d !! libName = Some c →
                hasSameBytecode d1 libName klass
                = Some (bool_decide (Some (bytecodeDigest (schema_bytecode klass))
                                     = contract_localBytecodeHash c)))
        ∧ (∀ other, other ≠ libName → solidityLib d1 other = solidityLib d other)
        ∧ d1 = set_solidityLibs (nf_solidityLibs d1) d.
Proof.
  intros Hk. eexists. split; [reflexivity|]. split_and!.
  - unfold hasSolidityLib, solidityLib. simpl. rewrite lookup_insert_eq.
    by apply bool_decide_eq_true_2.
  - intros Hnone. unfold hasSameBytecode, contract, solidityLib. simpl.
    rewrite Hnone, lookup_insert_eq. simpl. by rewrite Hk, bool_decide_eq_true_2.
  - intros c Hc. unfold hasSameBytecode, contract. simpl. by rewrite Hc.
  - intros other Hother. unfold solidityLib. simpl. by rewrite lookup_insert_ne.
  - done.
Qed.

(** X6.  [getSolidityLibs(libs)] maps a name to an address exactly when the
    name is in [libs] and a library is recorded under it, and the address is
    the recorded one: names of [libs] that are not recorded are left out. *)
Theorem getSolidityLibs_lookup (d : NetworkData) (libs : list string) (libName : string) :
  getSolidityLibs d libs !! libName
  = if decide (libName ∈ libs) then lib_address <$> nf_solidityLibs d !! libName else None.
Proof.
  unfold getSolidityLibs.
  set (chosen := filter (λ '(n, _), n ∈ libs) (map_to_list (nf_solidityLibs d))).
  set (pairs := (λ '(n, l), (n, lib_address l)) <$> chosen).
  assert (pairs.*1 = chosen.*1) as Hkeys.
  { unfold pairs. rewrite <- list_fmap_compose. apply list_fmap_ext. by intros i [n l] _. }
  assert (NoDup pairs.*1) as Hnodup.
  { rewrite Hkeys. apply NoDup_fst_filter, NoDup_fst_map_to_list. }
  assert (∀ v, (libName, v) ∈ pairs ↔
               libName ∈ libs ∧ ∃ l, nf_solidityLibs d !! libName = Some l ∧ v = lib_address l)
    as Hin.
  { intros v. unfold pairs, chosen. rewrite list_elem_of_fmap. split.
    - intros ([n l] & [= -> ->] & [Hl Hm%elem_of_map_to_list]%list_elem_of_filter). eauto.
    - intros (Hl & l & Hm & ->). exists (libName, l). split; [done|].
      apply list_elem_of_filter. split; [done | by apply elem_of_map_to_list]. }
  apply option_eq. intros v. rewrite (foldl_insert_lookup _ _ _ _ Hnodup), Hin.
  rewrite lookup_empty. case_decide as Hl.
  - destruct (nf_solidityLibs d !! libName) as [l|]; simpl; split.
    + intros [(_ & l' & [= <-] & ->) | [_ ?]]; done.
    + intros [= <-]. left. eauto.
    + intros [(_ & l' & ? & _) | [_ ?]]; done.
    + done.
  - split; [|done]. intros [(? & _) | [_ ?]]; done.
Qed.

(** X7.  [unsetDependency] deletes the entry of the name and nothing else,
    and does nothing at all to a record without a dictionary of
    dependencies.  After [setDependency] for a name that was not recorded it
    gives back the record as it was, if the record had a dictionary; if it
    had none, an empty dictionary is left in the record. *)
Theorem unsetDependency_spec (d : NetworkData) (name : string) :
  (nf_dependencies d = None → unsetDependency name d = (Ok tt, d))
  ∧ (∃ d1, unsetDependency name d = (Ok tt, d1)
           ∧ getDependency d1 name = None
           ∧ hasDependency d1 name = false
           ∧ (∀ other, other ≠ name → getDependency d1 other = getDependency d other)
           ∧ d1 = set_dependencies (nf_dependencies d1) d)
  ∧ (∀ dep version,
       semanticVersionToString (dep_version dep) = Ok version →
       getDependency d name = None →
       (setDependency name dep ≫= λ _, unsetDependency name) d
       = (Ok tt, match nf_dependencies d with
                 | Some _ => d
                 | None => set_dependencies (Some ∅) d
                 end)).
Proof.
  split_and!.
  - intros Hnone. unfold unsetDependency, modify. by rewrite Hnone.
  - eexists. split; [reflexivity|].
    unfold hasDependency, getDependency.
    destruct (nf_dependencies d) as [deps|] eqn:Hdeps; simpl; rewrite ?Hdeps; simpl.
    + split_and!; rewrite ?lookup_delete_eq; [done..| |by destruct d].
      intros other Hother. by rewrite lookup_delete_ne.
    + split_and!; [done..|]. destruct d; simpl in *. by rewrite Hdeps.
  - intros dep version Hv Hnot.
    unfold setDependency, unsetDependency, mbind, M_bind, bind, modify, lift_result.
    rewrite Hv. unfold getDependency in Hnot.
    destruct (nf_dependencies d) as [deps|] eqn:Hdeps; simpl in *; rewrite ?Hdeps; simpl.
    + rewrite delete_insert_eq, delete_id by done. f_equal. destruct d; simpl in *. by subst.
    + by rewrite delete_insert_eq, delete_empty.
Qed.

End RecordProperties2.

(* ===================================================================== *)
(** * Part II, continued: further properties of the controller             *)
(* ===================================================================== *)

Lemma elem_of_pf_contractAliases (pf : PackageFile) (alias : string) :
  alias ∈ pf_contractAliases pf ↔ ∃ contractName, pf_contracts pf !! alias = Some contractName.
Proof.
  unfold pf_contractAliases. rewrite list_elem_of_fmap. split.
  - intros ([a n] & -> & Hin%elem_of_map_to_list). eauto.
  - intros (n & Hn). exists (alias, n). split; [done | by apply elem_of_map_to_list].
Qed.

Lemma pf_hasContract_true (pf : PackageFile) (alias : string) :
  pf_hasContract pf alias = true ↔ alias ∈ pf_contractAliases pf.
Proof.
  unfold pf_hasContract, pf_contract. rewrite bool_decide_eq_true, elem_of_pf_contractAliases.
  done.
Qed.

(** ** A new version of the package *)

Section ControllerProperties.
Context {lib : ZosLib} {names : Naming} {zv : ZosVersion}.

(** X8.  [_checkVersion] does nothing unless a new version is required.  When
    one is, it unfreezes the record and forgets every contract, so that
    [checkNotFrozen] passes and every contract of the manifest counts as not
    deployed and as changed; the libraries, the proxies, the dependencies and
    the version of the record are kept, and a new version is still required
    afterwards. *)
Theorem _checkVersion_spec (c : Controller) :
  ∃ c', _checkVersion c = (Ok tt, c')
    ∧ (_newVersionRequired c = false → c' = c)
    ∧ (_newVersionRequired c = true →
         nf_contracts (networkFile c') = ∅
         ∧ nf_frozen (networkFile c') = Some false
         ∧ checkNotFrozen c' = (Ok tt, c')
         ∧ ∀ alias, alias ∈ pf_contractAliases (packageFile c') →
             isContractDeployed c' alias = false
             ∧ ∀ klass, hasContractChanged c' alias klass = true)
    ∧ nf_solidityLibs (networkFile c') = nf_solidityLibs (networkFile c)
    ∧ nf_proxies (networkFile c') = nf_proxies (networkFile c)
    ∧ nf_dependencies (networkFile c') = nf_dependencies (networkFile c)
    ∧ nf_version (networkFile c') = nf_version (networkFile c)
    ∧ packageFile c' = packageFile c
    ∧ calls c' = calls c
    ∧ _newVersionRequired c' = _newVersionRequired c.
Proof.
  unfold _checkVersion, mbind, M_bind, bind, get.
  destruct (_newVersionRequired c) eqn:Hnew; simpl.
  - eexists. split; [reflexivity|]. split_and!; try done.
    intros _. split_and!; try done.
    intros alias Halias%pf_hasContract_true. simpl in Halias.
    unfold hasContractChanged, isContractDeployed, isLocalContract, hasContract, contract.
    simpl. by rewrite Halias, lookup_empty.
  - exists c. split; [done|]. by split_and!.
Qed.

(** ** The checks before an operation on a contract *)

Lemma isContractDeployed_local (c : Controller) (alias : string) :
  alias ∈ pf_contractAliases (packageFile c) →
  isContractDeployed c alias = hasContract (networkFile c) alias.
Proof.
  intros Halias%pf_hasContract_true. unfold isContractDeployed, isLocalContract.
  by rewrite Halias.
Qed.

(** X9.  [_errorForLocalContractDeployed] reports nothing exactly when the
    alias is in the manifest, the record has an entry for it that is not
    empty, and the hash recorded in the entry is the digest of the bytecode
    the contract has now. *)
Theorem _errorForLocalContractDeployed_None (network : string) (c : Controller)
    (alias : string) :
  _errorForLocalContractDeployed network c alias = None ↔
    ∃ contractName entry,
      pf_contracts (packageFile c) !! alias = Some contractName
      ∧ nf_contracts (networkFile c) !! alias = Some entry
      ∧ entry ≠ mkContractInterface None None None None None None None None
      ∧ contract_localBytecodeHash entry
        = Some (bytecodeDigest (schema_bytecode (getFromLocal contractName))).
Proof.
  unfold _errorForLocalContractDeployed, isContractDefined, hasContractChanged,
    isContractDeployed, isLocalContract, pf_hasContract, pf_contract, hasContract,
    hasSameBytecode, contract, isEmpty_contract.
  destruct (pf_contracts (packageFile c) !! alias) as [contractName|] eqn:Hpf; simpl.
  - destruct (nf_contracts (networkFile c) !! alias) as [entry|] eqn:Hnf; simpl.
    + case_bool_decide as Hempty; simpl.
      * split; [done|]. intros (? & ? & [= <-] & [= <-] & ? & _). done.
      * case_bool_decide as Hhash; simpl.
        -- split; [|done]. intros _. exists contractName, entry. by split_and!.
        -- split; [done|]. intros (? & ? & [= <-] & [= <-] & _ & ?). done.
    + split; [done|]. intros (? & ? & _ & ? & _). done.
  - split; [done|]. intros (? & ? & ? & _). done.
Qed.

(** X10.  [_errorForLocalContractsDeployed] reports nothing exactly when the
    check of a single contract reports nothing for every alias of the
    manifest.  A contract that is not deployed takes precedence over the
    changed ones: the message then lists the aliases of the manifest without
    an entry in the record, and only them. *)
Theorem _errorForLocalContractsDeployed_spec (network : string) (c : Controller) :
  (_errorForLocalContractsDeployed c = None ↔
     ∀ alias, alias ∈ pf_contractAliases (packageFile c) →
              _errorForLocalContractDeployed network c alias = None)
  ∧ (∀ alias, alias ∈ pf_contractAliases (packageFile c) →
       hasContract (networkFile c) alias = false →
       ∃ missing,
         _errorForLocalContractsDeployed c
         = Some ("Contracts " +:+ join ", " missing +:+ " are not deployed.")
         ∧ ∀ other, other ∈ missing ↔
             other ∈ pf_contractAliases (packageFile c)
             ∧ hasContract (networkFile c) other = false).
Proof.
  unfold _errorForLocalContractsDeployed.
  set (aliases := pf_contractAliases (packageFile c)).
  set (missing := filter (λ alias, isContractDeployed c alias ≠ true) aliases).
  set (deployed := filter (λ alias, isContractDeployed c alias = true) aliases).
  set (changed := filter (λ alias, hasContractChanged c alias None = true) deployed).
  assert (∀ other, other ∈ missing ↔
            other ∈ aliases ∧ hasContract (networkFile c) other = false) as Hmissing.
  { intros other. unfold missing. rewrite list_elem_of_filter. split.
    - intros [Hnot Hin]. split; [done|].
      rewrite (isContractDeployed_local c other Hin) in Hnot. by destruct (hasContract _ _).
    - intros [Hin Hhas]. split; [|done].
      rewrite (isContractDeployed_local c other Hin), Hhas. done. }
  split.
  - assert (∀ alias, alias ∈ aliases →
              (_errorForLocalContractDeployed network c alias = None ↔
                 isContractDeployed c alias = true
                 ∧ hasContractChanged c alias None = false)) as Hsingle.
    { intros alias Hin. unfold _errorForLocalContractDeployed, isContractDefined.
      rewrite (proj2 (pf_hasContract_true _ _) Hin). simpl.
      destruct (isContractDeployed c alias); simpl; [|split; [done | by intros [? _]]].
      destruct (hasContractChanged c alias None); simpl; split; try done. by intros [_ ?]. }
    case_bool_decide as Hm; simpl.
    + case_bool_decide as Hc; simpl.
      * split; [|done]. intros _ alias Hin. apply Hsingle; [done|].
        assert (isContractDeployed c alias = true) as Hdep.
        { destruct (isContractDeployed c alias) eqn:Hd; [done|].
          destruct (filter_nil_not_elem_of _ _ alias Hm); [by rewrite Hd | done]. }
        split; [done|].
        destruct (hasContractChanged c alias None) eqn:Hch; [|done].
        destruct (filter_nil_not_elem_of _ _ alias Hc); [done|].
        unfold deployed. by apply list_elem_of_filter.
      * split; [done|]. intros Hall. destruct Hc. apply elem_of_nil_inv.
        intros alias [Hch [_ Hin]%list_elem_of_filter]%list_elem_of_filter.
        destruct (proj1 (Hsingle alias Hin) (Hall alias Hin)) as [_ Hun]. congruence.
    + split; [done|]. intros Hall. destruct Hm. apply elem_of_nil_inv.
      intros alias [Hnot Hin]%list_elem_of_filter.
      by destruct (proj1 (Hsingle alias Hin) (Hall alias Hin)) as [? _].
  - intros alias Hin Hhas.
    assert (alias ∈ missing) as Hmem by (by apply Hmissing).
    rewrite bool_decide_eq_false_2; [|intros Hnil; rewrite Hnil in Hmem; by apply elem_of_nil in Hmem].
    simpl. exists missing. split; [done | apply Hmissing].
Qed.

End ControllerProperties.

(** ** The migration of the format version *)

Lemma preserves_preorder {S X : Type} (f : S → X) : PreOrder (preserves f).
Proof.
  split; [by intros s | intros s1 s2 s3 H1 H2]. unfold preserves in *. congruence.
Qed.

Section Preservation.
Context {lib : ZosLib} {names : Naming} {zv : ZosVersion} {be : Backend}.
Context {X : Type} (f : Controller → X).
Hypothesis f_calls : ∀ c l, f (set_calls l c) = f c.

#[local] Existing Instance preserves_preorder.

Lemma preserves_call (q : Call) : always (preserves f) (call q).
Proof. intros c. apply f_calls. Qed.

Lemma preserves_call_project (q : Call) : always (preserves f) (call_project q).
Proof. intros c. unfold call_project. destruct (project c); [apply f_calls | done]. Qed.

Lemma preserves_modify (g : Controller → Controller) :
  (∀ c, f (g c) = f c) → always (preserves f) (modify g).
Proof. intros Hg c. apply Hg. Qed.

Lemma preserves__tryRegisterProxyAdmin (adminAddress : option string) :
  (∀ c a, f (set_networkFile (set_proxyAdmin a (networkFile c)) c) = f c) →
  always (preserves f) (_tryRegisterProxyAdmin adminAddress).
Proof.
  intros Hf. unfold _tryRegisterProxyAdmin. walk;
    first [apply preserves_call_project | apply preserves_modify; intros; apply Hf].
Qed.

Lemma preserves__migrate :
  (∀ c a, f (set_networkFile (set_proxyAdmin a (networkFile c)) c) = f c) →
  always (preserves f) _migrate.
Proof.
  intros Hf. unfold _migrate, migrate_proxies. walk; try apply preserves_call.
  all: first
    [ apply (preserves__tryRegisterProxyAdmin _ Hf)
    | apply always_batch; [typeclasses eauto|]; intros ? _;
      unfold migrate_proxy; walk; apply preserves_call ].
Qed.

End Preservation.

Section MigrationProperties.
Context {lib : ZosLib} {names : Naming} {zv : ZosVersion} {be : Backend}.

Lemma _updateZosVersionsIfNeeded_current (c : Controller) :
  (_updateZosVersionsIfNeeded ZOS_VERSION c).1 = Ok tt
  ∧ nf_zosversion (networkFile (_updateZosVersionsIfNeeded ZOS_VERSION c).2)
    = Some ZOS_VERSION
  ∧ pf_zosversion (packageFile (_updateZosVersionsIfNeeded ZOS_VERSION c).2)
    = Some ZOS_VERSION
  ∧ calls (_updateZosVersionsIfNeeded ZOS_VERSION c).2 = calls c
  ∧ networkFile (_updateZosVersionsIfNeeded ZOS_VERSION c).2
    = set_zosversion
        (nf_zosversion (networkFile (_updateZosVersionsIfNeeded ZOS_VERSION c).2))
        (networkFile c).
Proof.
  unfold _updateZosVersionsIfNeeded, modify. simpl.
  repeat case_bool_decide; simpl; split_and!; try done;
    try (by apply dec_stable); by destruct (networkFile c).
Qed.

(** X11.  When [_migrateZosversionIfNeeded] returns, the record and the
    manifest both carry the current format version.  When it throws, the
    format version of the record and the manifest are as before, so that the
    migration is attempted again by the next operation.  When the format of
    the record needs no migration, or no proxy is there to migrate, it
    returns without a call to the backend. *)
Theorem _migrateZosversionIfNeeded_versions (c : Controller) :
  ((_migrateZosversionIfNeeded c).1 = Ok tt →
     nf_zosversion (networkFile (_migrateZosversionIfNeeded c).2) = Some ZOS_VERSION
     ∧ pf_zosversion (packageFile (_migrateZosversionIfNeeded c).2) = Some ZOS_VERSION)
  ∧ ((_migrateZosversionIfNeeded c).1 ≠ Ok tt →
     isMigratableZosversion (currentZosversion c) = true
     ∧ nf_zosversion (networkFile (_migrateZosversionIfNeeded c).2)
       = nf_zosversion (networkFile c)
     ∧ packageFile (_migrateZosversionIfNeeded c).2 = packageFile c)
  ∧ (isMigratableZosversion (currentZosversion c) = false
     ∨ _fetchOwnedProxies c None None None (legacy_owner c) = Ok [] →
     (_migrateZosversionIfNeeded c).1 = Ok tt
     ∧ calls (_migrateZosversionIfNeeded c).2 = calls c
     ∧ networkFile (_migrateZosversionIfNeeded c).2
       = set_zosversion (nf_zosversion (networkFile (_migrateZosversionIfNeeded c).2))
           (networkFile c)).
Proof.
  pose proof _updateZosVersionsIfNeeded_current as Hupdate.
  pose proof (preserves__migrate versions (λ _ _, eq_refl) (λ _ _, eq_refl) c) as Hkeep.
  unfold preserves, versions in Hkeep.
  unfold _migrateZosversionIfNeeded, mbind, M_bind, bind, get.
  set (update := _updateZosVersionsIfNeeded ZOS_VERSION) in *. clearbody update.
  destruct (isMigratableZosversion (currentZosversion c)) eqn:Hmig.
  - destruct (_migrate c) as [[[]|e] c1] eqn:Hrun; simpl in *.
    + destruct (Hupdate c1) as (Hr & Hnf & Hpf & Hcalls & Hrest).
      destruct (update c1) as [r c2]; simpl in *. subst r.
      split_and!; [done | done |].
      intros [? | Hnone]; [done|]. split; [done|].
      unfold _migrate, mbind, M_bind, bind, get, lift_result in Hrun.
      rewrite Hnone in Hrun. injection Hrun as <-. done.
    + split_and!; [done | by simplify_eq |].
      intros [? | Hnone]; [done|].
      unfold _migrate, mbind, M_bind, bind, get, lift_result in Hrun.
      rewrite Hnone in Hrun. done.
  - simpl. destruct (Hupdate c) as (Hr & Hnf & Hpf & Hcalls & Hrest).
    destruct (update c) as [r c2]; simpl in *. subst r.
    by split_and!.
Qed.

End MigrationProperties.

(** ** Runs that return *)

Lemma bind_Ok {S A B : Type} (m : M S A) (k : A → M S B) (s s' : S) (b : B) :
  (m ≫= k) s = (Ok b, s') ↔ ∃ a s1, m s = (Ok a, s1) ∧ k a s1 = (Ok b, s').
Proof.
  unfold mbind, M_bind, bind. destruct (m s) as [[a|e] s1]; split.
  - eauto.
  - by intros (? & ? & [= <- <-] & ?).
  - done.
  - by intros (? & ? & [=] & _).
Qed.

Lemma rethrow_Ok {S A : Type} (f : string → string) (m : M S A) (s s' : S) (a : A) :
  rethrow f m s = (Ok a, s') ↔ m s = (Ok a, s').
Proof. unfold rethrow. by destruct (m s) as [[?|?] ?]. Qed.

Lemma get_Ok {S : Type} (s s' x : S) : get s = (Ok x, s') ↔ x = s ∧ s' = s.
Proof. unfold get. split; [by intros [= <- <-] | by intros [-> ->]]. Qed.

Lemma mret_Ok {S A : Type} (a b : A) (s s' : S) :
  (mret a : M S A) s = (Ok b, s') ↔ b = a ∧ s' = s.
Proof. unfold mret, M_ret, ret. split; [by intros [= <- <-] | by intros [-> ->]]. Qed.

Section Returns.
Context {lib : ZosLib} {names : Naming} {zv : ZosVersion} {be : Backend}.

Lemma call_Ok (q : Call) (c c' : Controller) (a : option string) :
  call q c = (Ok a, c') ↔ respond (calls c) q = Ok a ∧ c' = set_calls (calls c ++ [q]) c.
Proof. unfold call. split; [by intros [= -> <-] | by intros [-> ->]]. Qed.

Lemma call_project_Ok (q : Call) (c c' : Controller) (a : option string) :
  call_project q c = (Ok a, c') ↔
    project c = true ∧ respond (calls c) q = Ok a ∧ c' = set_calls (calls c ++ [q]) c.
Proof.
  unfold call_project. destruct (project c); [rewrite call_Ok|]; split; try done.
  - by intros [_ ?].
  - by intros [? _].
Qed.

Lemma updateProxy_Ok (d d' : NetworkData) (id : ProxyInterface)
    (fn : ProxyInterface → Result ProxyInterface) :
  updateProxy id fn d = (Ok tt, d') →
  ∃ index before after,
    _indexOfProxy d (toContractFullName (proxy_package id) (proxy_contract id))
      (proxy_address id) = Some index
    ∧ _proxiesOf d (toContractFullName (proxy_package id) (proxy_contract id)) !! index
      = Some before
    ∧ fn before = Ok after
    ∧ d' = set_proxies
             (<[toContractFullName (proxy_package id) (proxy_contract id) :=
                  <[index := after]>
                    (_proxiesOf d (toContractFullName (proxy_package id) (proxy_contract id)))]>
                (nf_proxies d)) d.
Proof.
  unfold updateProxy.
  set (fullname := toContractFullName (proxy_package id) (proxy_contract id)).
  destruct (_indexOfProxy d fullname (proxy_address id)) as [index|] eqn:Hidx; [|done].
  pose proof Hidx as Hfound.
  apply findIndex_Some in Hfound as (e & He & _). rewrite He. simpl.
  destruct (fn e) as [after|] eqn:Hfn; [|done]. intros [= <-].
  by exists index, e, after.
Qed.

(** X12.  When [_upgradeProxy] returns, the entry of the proxy (the first one
    with its address under its full name) records the implementation the
    project has for the contract, with a version; the other members of the
    entry are as before.  The backend was asked to upgrade the proxy exactly
    when the implementation the proxy had was another one, and no other call
    changed an admin or an implementation. *)
Theorem _upgradeProxy_outcome (c c' : Controller) (proxy : ProxyInterface)
    (initMethod : option string) (initArgs : list string) :
  _upgradeProxy proxy initMethod initArgs c = (Ok tt, c') →
  let fullname := toContractFullName (proxy_package proxy) (proxy_contract proxy) in
  let getClass :=
    ContractManager_getContractClass (proxy_package proxy) (proxy_contract proxy) in
  let getCurrent := Proxy_implementation (proxy_address proxy) in
  let getImplementation :=
    Project_getImplementation (proxy_package proxy) (proxy_contract proxy) in
  let upgrade :=
    Project_upgradeProxy (proxy_address proxy) (proxy_package proxy)
      (proxy_contract proxy) initMethod initArgs in
  ∃ current implementation new index before version,
    respond (calls c ++ [getClass]) getCurrent = Ok current
    ∧ respond (calls c ++ [getClass; getCurrent]) getImplementation = Ok implementation
    ∧ calls c' = calls c ++ new
    ∧ (upgrade ∈ new ↔ current ≠ implementation)
    ∧ (∀ q, q ∈ new → is_Some (batch_target q) → q = upgrade)
    ∧ _indexOfProxy (networkFile c) fullname (proxy_address proxy) = Some index
    ∧ _proxiesOf (networkFile c) fullname !! index = Some before
    ∧ _proxiesOf (networkFile c') fullname !! index
      = Some (with_implementation implementation (Some version) before).
Proof.
  intros Hrun. simpl. unfold _upgradeProxy in Hrun.
  apply rethrow_Ok in Hrun.
  apply bind_Ok in Hrun as (? & c1 & [Hclass ->]%call_Ok & Hrun).
  apply bind_Ok in Hrun as (current & c2 & [Hcurrent ->]%call_Ok & Hrun).
  apply bind_Ok in Hrun as (implementation & c3 & (Hproject & Himpl & ->)%call_project_Ok & Hrun).
  apply bind_Ok in Hrun as (? & c4 & [-> ->]%get_Ok & Hrun).
  apply bind_Ok in Hrun as (packageVersion & c5 & Hversion & Hrun).
  apply bind_Ok in Hrun as (newImplementation & c6 & Hupgrade & Hrun).
  simpl in *.
  rewrite <- app_assoc in Himpl. simpl in Himpl.
  assert (∃ new5, c5 = set_calls (calls c ++ new5) c
                  ∧ ∀ q, q ∈ new5 → batch_target q = None) as (new5 & -> & Hnew5).
  { destruct (decide (proxy_package proxy = Some (pf_name (packageFile c)))) as [Hown|Hdep].
    - rewrite bool_decide_eq_true_2 in Hversion by done.
      apply mret_Ok in Hversion as [_ ->]. eexists. split; [by rewrite <- !app_assoc|].
      intros q Hq. by elem_cases Hq.
    - rewrite bool_decide_eq_false_2 in Hversion by done.
      apply call_project_Ok in Hversion as (_ & _ & ->). simpl.
      eexists. split; [by rewrite <- !app_assoc|]. intros q Hq. by elem_cases Hq. }
  simpl in *.
  assert (newImplementation = implementation
          ∧ ∃ new6, c6 = set_calls (calls c ++ new6) c
                    ∧ (Project_upgradeProxy (proxy_address proxy) (proxy_package proxy)
                         (proxy_contract proxy) initMethod initArgs ∈ new6
                       ↔ current ≠ implementation)
                    ∧ ∀ q, q ∈ new6 → is_Some (batch_target q) →
                           q = Project_upgradeProxy (proxy_address proxy)
                                 (proxy_package proxy) (proxy_contract proxy)
                                 initMethod initArgs) as (-> & new6 & -> & Hiff & Honly).
  { destruct (decide (current = implementation)) as [Hsame|Hdiff].
    2: rewrite bool_decide_eq_true_2 in Hupgrade by done.
    1: rewrite bool_decide_eq_false_2 in Hupgrade by (by intros []).
    2: { apply bind_Ok in Hupgrade as (? & c7 & (_ & _ & ->)%call_project_Ok & [-> ->]%mret_Ok).
      split; [done|]. simpl. eexists. split; [by rewrite <- !app_assoc|]. split.
      + split; [done|]. intros _. apply elem_of_app. right. apply list_elem_of_here.
      + intros q [Hq | Hq]%elem_of_app Hsome.
        * rewrite (Hnew5 q Hq) in Hsome. by destruct Hsome.
        * by elem_cases Hq. }
    apply mret_Ok in Hupgrade as [-> ->].
    split; [done|]. exists new5. split; [done|]. split.
    + split; [|done]. intros Hin. apply Hnew5 in Hin. done.
    + intros q Hq Hsome. rewrite (Hnew5 q Hq) in Hsome. by destruct Hsome. }
  unfold on_networkFile in Hrun. simpl in Hrun.
  destruct (updateProxy proxy _ (networkFile c)) as [r d'] eqn:Hupdate.
  injection Hrun as -> <-.
  apply updateProxy_Ok in Hupdate as (index & before & after & Hindex & Hbefore & Hfn & ->).
  destruct (semanticVersionToString packageVersion) as [version|] eqn:Hv; [|done].
  injection Hfn as <-.
  exists current, implementation, new6, index, before, version.
  split_and!; try done.
  cbn [networkFile set_networkFile]. rewrite _proxiesOf_insert, decide_True by done.
  apply list_lookup_insert_eq. by eapply lookup_lt_Some.
Qed.

End Returns.

(** ** The properties at work on concrete records *)

Lemma addProxy_then_removeProxy_witness :
  let pA := mkProxyInterface None None None (Some "0xA") None None (Some "0xAdmin") None in
  let pB := mkProxyInterface None None None (Some "0xB") None None (Some "0xAdmin") None in
  let d := set_proxies {["zos/Token" := [pA]]} (defaults "2.2") in
  ∃ d1, addProxy (names := Doubles.naming) "zos" "Token" pB d = (Ok tt, d1)
        ∧ _proxiesOf d1 "zos/Token" = [pA; pB]
        ∧ removeProxy (names := Doubles.naming) "zos" "Token" "0xB" d1 = (Ok tt, d).
Proof.
  intros pA pB d.
  destruct (addProxy_then_removeProxy (names := Doubles.naming) d "zos" "Token" "0xB" pB)
    as (d1 & Hadd & Hl & _ & _ & Hrm).
  exists d1. split_and!; [done | exact Hl |]. apply Hrm.
  - reflexivity.
  - intros p Hp. vm_compute in Hp. elem_cases Hp; done.
  - vm_compute. done.
Defined.

Lemma addSolidityLib_recorded_witness :
  let klass := mkContract "SafeMath" "bytecode:SafeMath" in
  let instance := mkInstance "0x5" klass "bytecode:SafeMath, linked" in
  let d := defaults "2.2" in
  ∃ d1, addSolidityLib (lib := Doubles.zosLib) (code := MoreDoubles.zosLibCode)
          "SafeMath" instance d = (Ok tt, d1)
        ∧ hasSolidityLib d1 "SafeMath" = true
        ∧ hasSameBytecode (lib := Doubles.zosLib) d1 "SafeMath" klass = Some true.
Proof.
  intros klass instance d.
  destruct (addSolidityLib_recorded (lib := Doubles.zosLib) (code := MoreDoubles.zosLibCode)
              d "SafeMath" instance klass eq_refl) as (d1 & Hrun & Hhas & Hsame & _).
  exists d1. split_and!; [done.. |]. by apply Hsame.
Defined.

Lemma _upgradeProxy_outcome_witness :
  let c := set_project true token_controller in
  let proxy := decorate (names := Doubles.naming) "zos/Token" token_owned in
  ∃ c', _upgradeProxy (lib := Doubles.zosLib) (names := Doubles.naming)
          (be := Doubles.backend) proxy None [] c = (Ok tt, c')
        ∧ ∃ index before version,
            _proxiesOf (networkFile c) "zos/Token" !! index = Some before
            ∧ _proxiesOf (networkFile c') "zos/Token" !! index
              = Some (with_implementation None (Some version) before).
Proof.
  intros c proxy. eexists. split; [vm_compute; reflexivity|].
  destruct (_upgradeProxy_outcome (lib := Doubles.zosLib) (names := Doubles.naming)
              (be := Doubles.backend) c _ proxy None [] eq_refl)
    as (current & implementation & new & index & before & version
        & _ & Himpl & _ & _ & _ & _ & Hbefore & Hafter).
  vm_compute in Himpl. injection Himpl as <-.
  exists index, before, version. split; [exact Hbefore | exact Hafter].
Defined.

(** ** The creation of a proxy *)

Lemma both_preorder {S : Type} (R1 R2 : relation S) :
  PreOrder R1 → PreOrder R2 → PreOrder (both R1 R2).
Proof.
  intros H1 H2. split.
  - intros s. split; reflexivity.
  - intros s1 s2 s3 [? ?] [? ?]. split; by etrans.
Qed.

Lemma always_both {S A : Type} (R1 R2 : relation S) (m : M S A) :
  always R1 m → always R2 m → always (both R1 R2) m.
Proof. intros H1 H2 s. split; [apply H1 | apply H2]. Qed.

Lemma bind_Ok_always {S A B : Type} (R : relation S) (m : M S A) (k : A → M S B)
    (s s' : S) (b : B) :
  always R m → (m ≫= k) s = (Ok b, s') →
  ∃ a s1, R s s1 ∧ k a s1 = (Ok b, s').
Proof.
  intros Hm (a & s1 & Hrun & Hk)%bind_Ok. exists a, s1. split; [|done].
  specialize (Hm s). by rewrite Hrun in Hm.
Qed.

Lemma try_finally_Ok {S A : Type} (m : M S A) (fin : M S unit) (s s' : S) (a : A) :
  try_finally m fin s = (Ok a, s') → ∃ s1, m s = (Ok a, s1) ∧ fin s1 = (Ok tt, s').
Proof.
  unfold try_finally. destruct (m s) as [r s1]. destruct (fin s1) as [[[]|e] s2] eqn:Hfin.
  - intros [= -> <-]. eauto.
  - done.
Qed.

Lemma filter_creation_nil (l : list Call) :
  Forall (λ q, is_creation q = false) l → filter (λ q, is_creation q = true) l = [].
Proof.
  intros Hl. apply elem_of_nil_inv. intros q [Hq Hin]%list_elem_of_filter.
  rewrite Forall_forall in Hl. rewrite (Hl q Hin) in Hq. done.
Qed.

Section CreationProperties.
Context {lib : ZosLib} {names : Naming} {zv : ZosVersion} {be : Backend}.

#[local] Existing Instance effect_preorder.
#[local] Existing Instance preserves_preorder.
#[local] Existing Instance both_preorder.

Lemma quiet_preorder : PreOrder quiet.
Proof. unfold quiet. typeclasses eauto. Qed.

#[local] Existing Instance quiet_preorder.

Lemma quiet_calls (c c' : Controller) :
  quiet c c' →
  (∃ new, calls c' = calls c ++ new ∧ Forall (λ q, is_creation q = false) new)
  ∧ nf_proxies (networkFile c') = nf_proxies (networkFile c)
  ∧ manifest_name c' = manifest_name c.
Proof.
  intros [Heffect Hname]. split_and!.
  - destruct Heffect as ((new & Hcalls & Hnew) & _). exists new. split; [done|].
    eapply Forall_impl; [done|]. by intros q (? & _).
  - by eapply effect_nil_proxies.
  - done.
Qed.

Lemma quiet_call (q : Call) :
  is_creation q = false → migration_target q = None → batch_target q = None →
  always quiet (call q).
Proof.
  intros Hc Hm Hb. apply always_both.
  - apply always_call. split_and!; [done | by rewrite Hm | by rewrite Hb].
  - by apply preserves_call.
Qed.

Lemma quiet_call_project (q : Call) :
  is_creation q = false → migration_target q = None → batch_target q = None →
  always quiet (call_project q).
Proof.
  intros Hc Hm Hb c. unfold call_project. destruct (project c); [by apply quiet_call|].
  reflexivity.
Qed.

Lemma quiet_modify (g : Controller → Controller) :
  (∀ c, calls (g c) = calls c) →
  (∀ c, nf_proxies (networkFile (g c)) = nf_proxies (networkFile c)) →
  (∀ c, manifest_name (g c) = manifest_name c) →
  always quiet (modify g).
Proof.
  intros Hcalls Hproxies Hname. apply always_both.
  - by apply always_modify.
  - by apply preserves_modify.
Qed.

Lemma quiet__tryRegisterProxyAdmin (adminAddress : option string) :
  always quiet (_tryRegisterProxyAdmin adminAddress).
Proof.
  apply always_both; [apply always__tryRegisterProxyAdmin|].
  by apply preserves__tryRegisterProxyAdmin.
Qed.

Lemma quiet__tryRegisterProxyFactory (factoryAddress : option string) :
  always quiet (_tryRegisterProxyFactory factoryAddress).
Proof.
  unfold _tryRegisterProxyFactory. walk;
    first [by apply quiet_call_project | by apply quiet_modify].
Qed.

Lemma quiet__migrateZosversionIfNeeded : always quiet _migrateZosversionIfNeeded.
Proof.
  apply always_both; [by apply always__migrateZosversionIfNeeded|].
  unfold _migrateZosversionIfNeeded. walk.
  - by apply preserves__migrate.
  - apply preserves_modify. intros c. cbv zeta. by repeat case_bool_decide.
Qed.

Lemma quiet_fetchOrDeploy (requestedVersion : option string) :
  always quiet (fetchOrDeploy requestedVersion).
Proof.
  apply always_both; [apply always_fetchOrDeploy|].
  intros c. unfold fetchOrDeploy. by destruct (respond _ _).
Qed.

Lemma quiet__checkDeploymentAddress (salt : option string) :
  always quiet (_checkDeploymentAddress salt).
Proof.
  unfold _checkDeploymentAddress, getProxyDeploymentAddress. walk.
  all: first
    [ apply quiet__migrateZosversionIfNeeded
    | apply quiet_fetchOrDeploy
    | by apply quiet_call_project
    | by apply quiet_call
    | apply quiet__tryRegisterProxyFactory ].
Qed.

Lemma quiet__updateTruffleDeployedInformation (contractAlias : string)
    (implementation : option string) :
  always quiet (_updateTruffleDeployedInformation contractAlias implementation).
Proof. unfold _updateTruffleDeployedInformation. walk. by apply quiet_call. Qed.

Lemma createProxyInstance_Ok (c c' : Controller) (kind : option ProxyType)
    (salt : option string) (klass : Contract) (signature : option string)
    (createArgs : CreateArgs) (proxy : ProxyType) (instance : option string) :
  createProxyInstance kind salt klass signature createArgs c = (Ok (proxy, instance), c') →
  ∃ q, is_creation q = true
       ∧ respond (calls c) q = Ok instance
       ∧ c' = set_calls (calls c ++ [q]) c
       ∧ kind = Some proxy
       ∧ (proxy = Minimal → truthy salt = false)
       ∧ q = match proxy with
             | Upgradeable =>
                 if truthy salt
                 then Project_createProxyWithSalt klass salt signature createArgs
                 else Project_createProxy klass createArgs
             | Minimal => Project_createMinimalProxy klass createArgs
             end.
Proof.
  unfold createProxyInstance. destruct kind as [[]|]; [| |done].
  - intros (a & c1 & Hcall & [[= -> ->] ->]%mret_Ok)%bind_Ok.
    destruct (truthy salt); apply call_project_Ok in Hcall as (_ & Hr & ->);
      (eexists; split; [|split; [exact Hr|]]; [done|]; by split_and!).
  - destruct (truthy salt) eqn:Hsalt; [done|].
    intros (a & c1 & Hcall & [[= -> ->] ->]%mret_Ok)%bind_Ok.
    apply call_project_Ok in Hcall as (_ & Hr & ->).
    eexists; split; [|split; [exact Hr|]]; [done|]; by split_and!.
Qed.

Lemma quiet_finally :
  always quiet (_tryRegisterProxyAdmin None;; _tryRegisterProxyFactory None).
Proof.
  walk; [apply quiet__tryRegisterProxyAdmin | apply quiet__tryRegisterProxyFactory].
Qed.

(** X13.  When [createProxy] returns, the record has one more proxy: a new
    entry at the end of the list of the full name made of the package (the
    one of the manifest when none is given) and the alias, with the address
    that is returned, the kind that was asked for, and the admin that was
    given, if one was; the other lists are as before.  The backend was asked
    to create exactly one proxy, for the class and the arguments of the
    request: by [createMinimalProxy] for the kind minimal, which is asked for
    without a salt only, and for the kind upgradeable by
    [createProxyWithSalt] when a salt is given and by [createProxy]
    otherwise. *)
Theorem createProxy_recorded (c c' : Controller) (packageName : option string)
    (contractAlias : string) (initMethod : option string) (initArgs : list string)
    (admin salt signature : option string) (kind : option ProxyType)
    (instance : option string) :
  createProxy packageName contractAlias initMethod initArgs admin salt signature kind c
  = (Ok instance, c') →
  let thepackage :=
    if truthy packageName then default "" packageName else pf_name (packageFile c) in
  let fullname := toContractFullName (Some thepackage) (Some contractAlias) in
  let klass := getContractClass (Some thepackage) (Some contractAlias) in
  let createArgs :=
    mkCreateArgs (Some thepackage) (Some contractAlias) initMethod initArgs admin in
  ∃ entry new,
    _proxiesOf (networkFile c') fullname = _proxiesOf (networkFile c) fullname ++ [entry]
    ∧ (∀ k, k ≠ fullname → nf_proxies (networkFile c') !! k = nf_proxies (networkFile c) !! k)
    ∧ proxy_address entry = instance
    ∧ proxy_kind entry = kind
    ∧ is_Some kind
    ∧ (kind = Some Minimal → truthy salt = false)
    ∧ (truthy admin = true → proxy_admin entry = admin)
    ∧ calls c' = calls c ++ new
    ∧ filter (λ q, is_creation q = true) new
      = [match kind with
         | Some Minimal => Project_createMinimalProxy klass createArgs
         | _ =>
             if truthy salt
             then Project_createProxyWithSalt klass salt signature createArgs
             else Project_createProxy klass createArgs
         end].
Proof.
  intros Hrun. cbv zeta. unfold createProxy in Hrun.
  apply try_finally_Ok in Hrun as (cb & Hbody & Hfin).
  pose proof (quiet_finally cb) as Hq_fin. rewrite Hfin in Hq_fin. simpl in Hq_fin.
  clear Hfin.
  eapply (bind_Ok_always quiet) in Hbody as (? & c1 & Hq1 & Hbody);
    [|apply quiet__migrateZosversionIfNeeded].
  apply bind_Ok in Hbody as (? & ? & [-> ->]%get_Ok & Hbody).
  eapply (bind_Ok_always quiet) in Hbody as (? & c2 & Hq2 & Hbody);
    [|apply quiet_fetchOrDeploy].
  apply bind_Ok in Hbody as (? & ? & [-> ->]%get_Ok & Hbody).
  cbv zeta in Hbody.
  assert (quiet c c2) as Hq12 by (by etrans).
  assert (pf_name (packageFile c2) = pf_name (packageFile c)) as Hname
    by apply Hq12.
  rewrite Hname in Hbody. clear Hq1 Hq2 Hname c1.
  set (thepackage :=
         if truthy packageName then default "" packageName else pf_name (packageFile c)) in *.
  set (fullname := toContractFullName (Some thepackage) (Some contractAlias)).
  eapply (bind_Ok_always quiet) in Hbody as (? & c3 & Hq3 & Hbody); [|by apply quiet_call].
  eapply (bind_Ok_always quiet) in Hbody as (? & c4 & Hq4 & Hbody);
    [|destruct (truthy salt); [apply quiet__checkDeploymentAddress | apply always_mret, _]].
  apply bind_Ok in Hbody as ([proxy inst] & c5 & Hcreate & Hbody).
  apply createProxyInstance_Ok in Hcreate as (q & Hq & _ & -> & -> & Hmin & Hshape).
  set (c5 := set_calls (calls c4 ++ [q]) c4) in *.
  eapply (bind_Ok_always quiet) in Hbody as (implementationAddress & c6 & Hq6 & Hbody);
    [|destruct proxy; by apply quiet_call].
  apply bind_Ok in Hbody as (? & ? & [-> ->]%get_Ok & Hbody).
  eapply (bind_Ok_always quiet) in Hbody as (packageVersion & c7 & Hq7 & Hbody);
    [|destruct (bool_decide _); [apply always_mret, _ | by apply quiet_call_project]].
  eapply (bind_Ok_always quiet) in Hbody as (? & c8 & Hq8 & Hbody);
    [|apply quiet__updateTruffleDeployedInformation].
  apply bind_Ok in Hbody as (version & c9 & Hversion & Hbody).
  assert (c9 = c8) as -> by (unfold lift_result in Hversion; by simplify_eq).
  apply bind_Ok in Hbody as (? & ? & [-> ->]%get_Ok & Hbody).
  apply bind_Ok in Hbody as (? & c10 & Hadd & [-> ->]%mret_Ok).
  unfold on_networkFile, addProxy, modify in Hadd. simpl in Hadd.
  injection Hadd as Hadd. subst c10.
  assert (quiet c c4) as Hpre by (etrans; [exact Hq12|]; by etrans).
  assert (quiet c5 c8) as Hmid by (etrans; [exact Hq6|]; by etrans).
  apply quiet_calls in Hpre as ((n1 & Hc1 & Hn1) & Hp1 & _).
  apply quiet_calls in Hmid as ((n2 & Hc2 & Hn2) & Hp2 & _).
  apply quiet_calls in Hq_fin as ((n3 & Hc3 & Hn3) & Hp3 & _).
  simpl in Hc2, Hp2, Hc3, Hp3.
  eexists _, (n1 ++ [q] ++ n2 ++ n3). split_and!.
  - unfold _proxiesOf at 1. rewrite Hp3, lookup_insert_eq. simpl.
    unfold _proxiesOf. by rewrite Hp2, Hp1.
  - intros k Hk. rewrite Hp3, lookup_insert_ne by done. by rewrite Hp2, Hp1.
  - done.
  - done.
  - by eexists.
  - intros [= ->]. by apply Hmin.
  - intros Hadmin. simpl. unfold js_or. by rewrite Hadmin.
  - rewrite Hc3, Hc2, Hc1. by rewrite <- !app_assoc.
  - rewrite !filter_app, (filter_creation_nil n1), (filter_creation_nil n2),
      (filter_creation_nil n3) by done.
    rewrite filter_cons_True by done. rewrite filter_nil, Hshape. by destruct proxy.
Qed.

End CreationProperties.

Lemma createProxy_recorded_witness :
  let c := vault_controller in
  ∃ c' entry,
    createProxy (lib := Doubles.zosLib) (names := Doubles.naming) (zv := Doubles.zosVersion)
      (be := Doubles.backend) None "Vault" None [] None None None (Some Minimal) c
    = (Ok (Some "0xC0FFEE"), c')
    ∧ _proxiesOf (networkFile c') "zos/Vault" = _proxiesOf (networkFile c) "zos/Vault" ++ [entry]
    ∧ proxy_address entry = Some "0xC0FFEE"
    ∧ proxy_kind entry = Some Minimal.
Proof.
  intros c.
  set (run := createProxy (lib := Doubles.zosLib) (names := Doubles.naming)
                (zv := Doubles.zosVersion) (be := Doubles.backend)
                None "Vault" None [] None None None (Some Minimal) c).
  assert (run = (Ok (Some "0xC0FFEE"), run.2)) as Hrun by (vm_compute; reflexivity).
  destruct (createProxy_recorded (lib := Doubles.zosLib) (names := Doubles.naming)
              (zv := Doubles.zosVersion) (be := Doubles.backend)
              c run.2 None "Vault" None [] None None None (Some Minimal) (Some "0xC0FFEE") Hrun)
    as (entry & new & Hlist & _ & Haddress & Hkind & _).
  exists run.2, entry. split_and!; [exact Hrun | exact Hlist | exact Haddress | exact Hkind].
Defined.

(** ** Batches that succeed *)

Lemma settle_stable {S A : Type} (P : S → Prop) (tasks : list (M S A)) (s : S) :
  (∀ task s, task ∈ tasks → P s → P (task s).2) →
  P s → P (settle tasks s).2.
Proof.
  revert s. induction tasks as [|task tasks IH]; intros s Hstable Hs; simpl; [done|].
  pose proof (Hstable task s (list_elem_of_here _ _) Hs) as H1.
  destruct (task s) as [r s1]; simpl in *.
  assert (P (settle tasks s1).2) as H2.
  { apply IH; [|done]. intros t s0 Ht. apply Hstable. by apply list_elem_of_further. }
  by destruct (settle tasks s1) as [rs s2].
Qed.

Lemma allPromisesOrError_state {S A : Type} (tasks : list (M S A)) (s : S) :
  (allPromisesOrError tasks s).2 = (settle tasks s).2.
Proof.
  unfold allPromisesOrError. destruct (settle tasks s) as [rs s1]. by destruct (failures rs).
Qed.

Lemma allPromisesOrError_cons_Ok {S A : Type} (task : M S A) (tasks : list (M S A))
    (s s' : S) :
  allPromisesOrError (task :: tasks) s = (Ok tt, s') →
  ∃ b s1, task s = (Ok b, s1) ∧ allPromisesOrError tasks s1 = (Ok tt, s').
Proof.
  unfold allPromisesOrError. simpl.
  destruct (task s) as [r s1]. destruct (settle tasks s1) as [rs s2] eqn:Hrest.
  destruct r as [b|e]; simpl; [|by destruct (failures rs)].
  destruct (failures rs) eqn:Hfail; [|done]. intros [= <-].
  exists b, s1. split; [done|]. by rewrite Hrest, Hfail.
Qed.

Lemma batch_Ok_among {S A B : Type} (task : A → M S B) (P : A → S → Prop) (l0 l : list A)
    (s s' : S) :
  (∀ x s b s1, x ∈ l0 → task x s = (Ok b, s1) → P x s1) →
  (∀ x y s, x ∈ l0 → y ∈ l0 → P x s → P x (task y s).2) →
  (∀ x, x ∈ l → x ∈ l0) →
  allPromisesOrError (task <$> l) s = (Ok tt, s') →
  ∀ x, x ∈ l → P x s'.
Proof.
  intros Hdone Hstable. revert s. induction l as [|y l IH]; intros s Hsub Hrun x Hx.
  { by apply elem_of_nil in Hx. }
  rewrite fmap_cons in Hrun.
  apply allPromisesOrError_cons_Ok in Hrun as (b & s1 & Hy & Hrest).
  assert (∀ z, z ∈ l → z ∈ l0) as Hsub' by (intros z Hz; by apply Hsub, list_elem_of_further).
  apply elem_of_cons in Hx as [-> | Hx]; [|by apply (IH s1)].
  assert (y ∈ l0) as Hy0 by apply Hsub, list_elem_of_here.
  assert (s' = (settle (task <$> l) s1).2) as ->.
  { by rewrite <- allPromisesOrError_state, Hrest. }
  apply settle_stable; [|by eapply Hdone].
  intros t s0 (z & -> & Hz)%list_elem_of_fmap. apply Hstable; [done | by apply Hsub'].
Qed.

Lemma batch_Ok {S A B : Type} (task : A → M S B) (P : A → S → Prop) (l : list A)
    (s s' : S) :
  (∀ x s b s1, x ∈ l → task x s = (Ok b, s1) → P x s1) →
  (∀ x y s, x ∈ l → y ∈ l → P x s → P x (task y s).2) →
  allPromisesOrError (task <$> l) s = (Ok tt, s') →
  ∀ x, x ∈ l → P x s'.
Proof. intros Hdone Hstable. by apply (batch_Ok_among task P l l). Qed.

Lemma findIndex_ext {A : Type} (pred : A → bool) (l l' : list A) :
  Forall2 (λ x y, pred x = pred y) l l' → findIndex pred l = findIndex pred l'.
Proof.
  induction 1 as [|x y l l' Hxy _ IH]; simpl; [done|]. by rewrite Hxy, IH.
Qed.

Section AdminChange.
Context {lib : ZosLib} {names : Naming} {zv : ZosVersion} {be : Backend}.

Lemma findIndex_with_admin (address newAdmin : option string) (l : list ProxyInterface)
    (i : nat) (e : ProxyInterface) :
  l !! i = Some e →
  findIndex (matches_address address) (<[i := with_admin newAdmin e]> l)
  = findIndex (matches_address address) l.
Proof.
  intros He. apply findIndex_ext, Forall2_same_length_lookup.
  split; [by rewrite length_insert|]. intros j x y Hx Hy.
  destruct (decide (j = i)) as [->|Hne].
  - rewrite list_lookup_insert_eq in Hx by (by eapply lookup_lt_Some). by simplify_eq.
  - rewrite list_lookup_insert_ne in Hx by done. by simplify_eq.
Qed.

Lemma admin_recorded_calls (newAdmin : option string) (p : ProxyInterface)
    (c : Controller) (new : list Call) :
  admin_recorded newAdmin p c → admin_recorded newAdmin p (set_calls (calls c ++ new) c).
Proof.
  intros (index & entry & Hi & He & Ha & Hc). exists index, entry.
  split_and!; [done..|]. simpl. apply elem_of_app. by left.
Qed.

Lemma admin_recorded_update (newAdmin : option string) (p y : ProxyInterface)
    (c : Controller) :
  admin_recorded newAdmin p c →
  admin_recorded newAdmin p
    (on_networkFile
       (updateProxy y (λ anotherProxy, Ok (with_admin newAdmin anotherProxy))) c).2.
Proof.
  intros (index & entry & Hi & He & Ha & Hc).
  unfold on_networkFile.
  destruct (updateProxy y _ (networkFile c)) as [r d'] eqn:Hupdate. simpl.
  destruct r as [[]|e]; [|unfold updateProxy in Hupdate].
  - apply updateProxy_Ok in Hupdate as (i & before & after & Hidx & Hbefore & [= <-] & ->).
    set (k := toContractFullName (proxy_package y) (proxy_contract y)) in *.
    set (fullname := toContractFullName (proxy_package p) (proxy_contract p)) in *.
    unfold admin_recorded. cbv zeta. fold fullname. unfold _indexOfProxy in *.
    cbn [networkFile set_networkFile]. rewrite _proxiesOf_insert.
    case_decide as Heq.
    + rewrite Heq in *. rewrite findIndex_with_admin by done.
      destruct (decide (index = i)) as [->|Hi'].
      * exists i, (with_admin newAdmin before). split_and!; [done | | done | done].
        apply list_lookup_insert_eq. by eapply lookup_lt_Some.
      * exists index, entry. split_and!; [done | | done | done].
        by rewrite list_lookup_insert_ne.
    + exists index, entry. by split_and!.
  - exists index, entry.
    destruct (_indexOfProxy (networkFile c) _ (proxy_address y)) as [i|].
    + destruct (_proxiesOf (networkFile c) _ !! i); simpl in Hupdate; simplify_eq.
    + injection Hupdate as _ <-. by destruct c.
Qed.

Lemma change_proxy_admin_stable (newAdmin : option string) (p y : ProxyInterface)
    (c : Controller) :
  admin_recorded newAdmin p c → admin_recorded newAdmin p (change_proxy_admin newAdmin y c).2.
Proof.
  intros Hp. unfold change_proxy_admin, mbind, M_bind, bind, call_project, call.
  destruct (project c); [|done].
  destruct (respond (calls c) _) as [a|e]; simpl.
  - by apply admin_recorded_update, admin_recorded_calls.
  - by apply admin_recorded_calls.
Qed.

Lemma change_proxy_admin_Ok (newAdmin : option string) (p : ProxyInterface)
    (c c' : Controller) :
  change_proxy_admin newAdmin p c = (Ok tt, c') → admin_recorded newAdmin p c'.
Proof.
  unfold change_proxy_admin.
  intros (a & c1 & (_ & _ & ->)%call_project_Ok & Hupdate)%bind_Ok.
  unfold on_networkFile in Hupdate.
  destruct (updateProxy p _ _) as [r d'] eqn:Hrun. injection Hupdate as -> <-.
  apply updateProxy_Ok in Hrun as (i & before & after & Hidx & Hbefore & [= <-] & ->).
  exists i, (with_admin newAdmin before). cbn [networkFile set_networkFile].
  unfold _indexOfProxy in *. rewrite _proxiesOf_insert, decide_True by done.
  split_and!.
  - by rewrite findIndex_with_admin.
  - apply list_lookup_insert_eq. by eapply lookup_lt_Some.
  - done.
  - simpl. apply elem_of_app. right. apply list_elem_of_here.
Qed.

(** X14.  When [setProxiesAdmin] returns, every proxy it returns has the new
    admin in the record, in the entry that [updateProxy] finds for it, and
    the backend was asked to change the admin of each of them. *)
Theorem setProxiesAdmin_recorded (c c' : Controller)
    (packageName contractAlias proxyAddress newAdmin : option string)
    (proxies : list ProxyInterface) :
  setProxiesAdmin packageName contractAlias proxyAddress newAdmin c = (Ok proxies, c') →
  ∀ p, p ∈ proxies → admin_recorded newAdmin p c'.
Proof.
  unfold setProxiesAdmin.
  intros (? & c1 & _ & Hrun)%bind_Ok.
  apply bind_Ok in Hrun as (? & ? & [-> ->]%get_Ok & Hrun).
  apply bind_Ok in Hrun as (fetched & c2 & Hfetch & Hrun).
  destruct fetched as [|p0 fetched].
  { apply mret_Ok in Hrun as [-> _]. intros p Hp. by apply elem_of_nil in Hp. }
  apply bind_Ok in Hrun as (? & ? & [-> ->]%get_Ok & Hrun).
  apply bind_Ok in Hrun as (? & c3 & _ & Hrun).
  apply bind_Ok in Hrun as ([] & c4 & Hbatch & [-> ->]%mret_Ok).
  unfold _changeProxiesAdmin in Hbatch.
  eapply batch_Ok; [| |exact Hbatch].
  - intros ? ? [] ? _. apply change_proxy_admin_Ok.
  - intros ? ? ? _ _. apply change_proxy_admin_stable.
Qed.

End AdminChange.

Lemma setProxiesAdmin_recorded_witness :
  let c := token_controller in
  ∃ c' proxies,
    setProxiesAdmin (lib := Doubles.zosLib) (names := Doubles.naming) (zv := Doubles.zosVersion)
      (be := Doubles.backend) None None None (Some "0xNew") c = (Ok proxies, c')
    ∧ proxies ≠ []
    ∧ ∀ p, p ∈ proxies → admin_recorded (names := Doubles.naming) (Some "0xNew") p c'.
Proof.
  intros c.
  set (run := setProxiesAdmin (lib := Doubles.zosLib) (names := Doubles.naming)
                (zv := Doubles.zosVersion) (be := Doubles.backend)
                None None None (Some "0xNew") c).
  assert (run = (Ok [decorate (names := Doubles.naming) "zos/Token" token_owned], run.2))
    as Hrun by (vm_compute; reflexivity).
  eexists run.2, _. split; [exact Hrun|]. split; [done|].
  exact (setProxiesAdmin_recorded (lib := Doubles.zosLib) (names := Doubles.naming)
           (zv := Doubles.zosVersion) (be := Doubles.backend)
           c run.2 None None None (Some "0xNew") _ Hrun).
Defined.

(* ===================================================================== *)
(** * Part II, continued: dependencies                                     *)
(* ===================================================================== *)

(** ** A dependency given as name@version *)

Lemma split_without (sep : ascii) (s : string) :
  occurs sep s = false → split sep s = [s].
Proof.
  induction s as [|a s IH]; simpl; [done|].
  intros [Ha Hs]%orb_false_elim. rewrite Ha, (IH Hs). done.
Qed.

Lemma split_append (sep : ascii) (s1 s2 : string) :
  occurs sep s1 = false →
  split sep (s1 +:+ String sep s2) = s1 :: split sep s2.
Proof.
  induction s1 as [|a s1 IH]; simpl.
  - intros _. by rewrite bool_decide_eq_true_2.
  - intros [Ha Hs]%orb_false_elim. rewrite Ha, (IH Hs). done.
Qed.

Section DependencyProperties2.
Context {sv : Semver} {svc : SemverClean} {zv : ZosVersion} {mf : Manifests}.

(** X15.  [fromNameWithVersion] constructs the dependency of the name before
    the first [@] with the text between the first and the second [@] as its
    requirement, and without a requirement when there is no [@].  For a name
    of an npm scope, which starts with [@], the name of the dependency is
    therefore the empty string. *)
Theorem fromNameWithVersion_spec (name version : string) :
  occurs "@" name = false →
  occurs "@" version = false →
  fromNameWithVersion name = new_Dependency name None
  ∧ fromNameWithVersion (name +:+ "@" +:+ version) = new_Dependency name (Some version)
  ∧ (∀ rest, fromNameWithVersion (name +:+ "@" +:+ version +:+ "@" +:+ rest)
             = new_Dependency name (Some version))
  ∧ fromNameWithVersion ("@" +:+ name +:+ "@" +:+ version) = new_Dependency "" (Some name).
Proof.
  intros Hname Hversion. unfold fromNameWithVersion. split_and!.
  - by rewrite split_without.
  - change (name +:+ "@" +:+ version) with (name +:+ String "@" version).
    by rewrite split_append, split_without.
  - intros rest.
    change (name +:+ "@" +:+ version +:+ "@" +:+ rest)
      with (name +:+ String "@" (version +:+ String "@" rest)).
    by rewrite !split_append.
  - change ("@" +:+ name +:+ "@" +:+ version)
      with ("" +:+ String "@" (name +:+ String "@" version)).
    by rewrite !split_append, split_without.
Qed.



End DependencyProperties2.

(* ===================================================================== *)
(** * Part II, continued: uploads, dependencies and push                   *)
(* ===================================================================== *)

Lemma promise_all_Ok {S : Type} (a b : M S unit) (s s' : S) :
  promise_all a b s = (Ok tt, s') ↔ ∃ s1, a s = (Ok tt, s1) ∧ b s1 = (Ok tt, s').
Proof.
  unfold promise_all. split.
  - destruct (a s) as [[[]|e] s1]; [|by destruct (b s1)].
    destruct (b s1) as [rb s2] eqn:Hb. intros [= -> <-]. eauto.
  - intros (s1 & -> & Hb). by rewrite Hb.
Qed.

Lemma always_promise_all {S : Type} (R : relation S) `{!PreOrder R} (a b : M S unit) :
  always R a → always R b → always R (promise_all a b).
Proof.
  intros Ha Hb s. unfold promise_all. specialize (Ha s).
  destruct (a s) as [ra s1]. specialize (Hb s1). destruct (b s1) as [rb s2].
  simpl in *. by etrans.
Qed.

Lemma removes_contracts_preorder (aliases : list string) :
  PreOrder (removes_contracts aliases).
Proof.
  split.
  - intros w. exists []. rewrite app_nil_r. split_and!; [done | done | by left].
  - intros w1 w2 w3 (new1 & Hops1 & Hnew1 & Hc1) (new2 & Hops2 & Hnew2 & Hc2).
    exists (new1 ++ new2). split_and!.
    + by rewrite Hops2, Hops1, app_assoc.
    + by apply Forall_app.
    + intros alias. destruct (Hc2 alias) as [Hsame2 | [Hnone2 Hop2]].
      * rewrite Hsame2. destruct (Hc1 alias) as [Hsame1 | [Hnone1 Hop1]]; [by left|].
        right. split; [done|]. apply elem_of_app. by left.
      * right. split; [done|]. apply elem_of_app. by right.
Qed.

Section Removal.
Context {lib : ZosLib} {names : Naming} {zv : ZosVersion} {be : Backend}
  {code : ZosLibCode} {pb : ProjectBackend}.

#[local] Existing Instance preserves_preorder.
#[local] Existing Instance both_preorder.
#[local] Existing Instance removes_contracts_preorder.

(** The three ways [unsetContract] of the controller ends. *)
Lemma controller_unsetContract_run (contractAlias : string) (w : Session) :
  let q := Project_unsetImplementation contractAlias in
  let w1 := set_operations (operations w ++ [q]) w in
  (project (controller w) = false
   ∧ ∃ e, controller_unsetContract contractAlias w = (Throw e, w))
  ∨ (∃ e, controller_unsetContract contractAlias w = (Throw e, w1))
  ∨ controller_unsetContract contractAlias w
    = (Ok tt, set_record (set_contracts (delete contractAlias (nf_contracts (record w)))
                            (record w)) w1).
Proof.
  unfold controller_unsetContract, rethrow, mbind, M_bind, bind, project_call.
  destruct (project (controller w)) eqn:Hp; [|left; eauto]. right.
  destruct (perform _ _ _) as [b|e]; [right | left; eauto]. done.
Qed.

Lemma always_controller_unsetContract (aliases : list string) (contractAlias : string) :
  contractAlias ∈ aliases →
  always (both (preserves besides_contracts) (removes_contracts aliases))
    (controller_unsetContract contractAlias).
Proof.
  intros Hin w.
  destruct (controller_unsetContract_run contractAlias w)
    as [[_ [e ->]] | [[e ->] | ->]]; simpl.
  - reflexivity.
  - split; [done|]. exists [Project_unsetImplementation contractAlias].
    split_and!; [done | | by left]. constructor; [eauto | done].
  - split; [done|]. exists [Project_unsetImplementation contractAlias].
    split_and!; [done | |]. { constructor; [eauto | done]. }
    intros alias. simpl. destruct (decide (alias = contractAlias)) as [->|Hne].
    + right. rewrite lookup_delete_eq. split; [done | apply list_elem_of_here].
    + left. by rewrite lookup_delete_ne.
Qed.

Lemma unsetContracts_run (w : Session) :
  both (preserves besides_contracts)
    (removes_contracts (contractAliasesMissingFromPackage (record w) (manifest w)))
    w (unsetContracts w).2.
Proof.
  set (missing := contractAliasesMissingFromPackage (record w) (manifest w)).
  assert (always (both (preserves besides_contracts) (removes_contracts missing))
            (allPromisesOrError (controller_unsetContract <$> missing))) as Hrun.
  { apply always_batch; [typeclasses eauto|]. intros alias Hin.
    by apply always_controller_unsetContract. }
  apply Hrun.
Qed.

Lemma unsetContracts_Ok (w w' : Session) :
  unsetContracts w = (Ok tt, w') →
  contractAliasesMissingFromPackage (record w') (manifest w') = [].
Proof.
  intros Hok. destruct (unsetContracts_run w) as [Hrest Hremoves]. rewrite Hok in *.
  set (missing := contractAliasesMissingFromPackage (record w) (manifest w)) in *.
  simpl in *.
  assert (∀ alias, alias ∈ missing → nf_contracts (record w') !! alias = None) as Hgone.
  { eapply (batch_Ok controller_unsetContract
              (λ alias w, nf_contracts (record w) !! alias = None)); [| |exact Hok].
    - intros alias s [] s1 _ Hs.
      destruct (controller_unsetContract_run alias s) as [[_ [e He]] | [[e He] | He]];
        rewrite He in Hs; simplify_eq. simpl. apply lookup_delete_eq.
    - intros alias y s _ _ Hs.
      destruct (controller_unsetContract_run y s) as [[_ [e ->]] | [[e ->] | ->]]; simpl;
        [done | done |].
      rewrite lookup_delete_None. by right. }
  apply elem_of_nil_inv. intros alias.
  unfold contractAliasesMissingFromPackage, contractAliases.
  rewrite list_elem_of_difference, list_elem_of_fmap.
  intros [([a entry] & -> & Hentry%elem_of_map_to_list) Hnot]. simpl in *.
  assert (manifest w' = manifest w) as Hmanifest.
  { change (manifest (besides_contracts w') = manifest (besides_contracts w)).
    by rewrite Hrest. }
  rewrite Hmanifest in Hnot.
  destruct Hremoves as (new & _ & _ & Hcases).
  destruct (Hcases a) as [Hsame | [Hnone _]]; [|congruence].
  rewrite Hentry in Hsame.
  assert (a ∈ missing) as Hin.
  { unfold missing, contractAliasesMissingFromPackage, contractAliases.
    apply list_elem_of_difference. split; [|done].
    apply list_elem_of_fmap. exists (a, entry). split; [done|]. by apply elem_of_map_to_list. }
  rewrite (Hgone a Hin) in Hentry. done.
Qed.

(** X17.  In every run of [unsetContracts], an entry of the record is left as
    it is or removed; it is removed only if its alias is not in the manifest
    and after the backend was asked to remove the implementation, and the
    backend is asked nothing else; the rest of the record is untouched.
    When [unsetContracts] returns, every contract of the record is a
    contract of the manifest. *)
Theorem unsetContracts_spec (w : Session) :
  let missing := contractAliasesMissingFromPackage (record w) (manifest w) in
  besides_contracts (unsetContracts w).2 = besides_contracts w
  ∧ removes_contracts missing w (unsetContracts w).2
  ∧ ((unsetContracts w).1 = Ok tt →
     contractAliasesMissingFromPackage (record (unsetContracts w).2)
       (manifest (unsetContracts w).2) = []).
Proof.
  intros missing. destruct (unsetContracts_run w) as [Hrest Hremoves].
  split_and!; [done..|]. intros Hok. apply (unsetContracts_Ok w).
  destruct (unsetContracts w) as [r w']. simpl in Hok. by subst r.
Qed.

End Removal.

(** ** Linking the dependencies *)

Lemma journal_grows_preorder (ok : ProjectCall → Prop) : PreOrder (journal_grows ok).
Proof.
  split.
  - intros w. exists []. by rewrite app_nil_r.
  - intros w1 w2 w3 (new1 & H1 & Hok1) (new2 & H2 & Hok2). exists (new1 ++ new2).
    rewrite H2, H1, app_assoc. split; [done | by apply Forall_app].
Qed.

Lemma links_dependencies_preorder (linked : list string) :
  PreOrder (links_dependencies linked).
Proof.
  split.
  - intros w. split; [apply journal_grows_preorder | by left].
  - intros w1 w2 w3 [Hj1 Hd1] [Hj2 Hd2]. split.
    + by eapply (@transitivity _ _ (@PreOrder_Transitive _ _ (journal_grows_preorder _))).
    + intros name [H2 | ?]%Hd2; [by apply Hd1 | by right].
Qed.

Section Linking.
Context {lib : ZosLib} {names : Naming} {zv : ZosVersion} {be : Backend}
  {sv : Semver} {svc : SemverClean} {mf : Manifests} {pb : ProjectBackend}.
Context (linked : list string).

#[local] Existing Instance preserves_preorder.
#[local] Existing Instance both_preorder.
#[local] Existing Instance links_dependencies_preorder.

Lemma linking_preorder : PreOrder (linking linked).
Proof. unfold linking. typeclasses eauto. Qed.

#[local] Existing Instance linking_preorder.

Lemma linking_project_call (q : ProjectCall) :
  is_implementation q = false → always (linking linked) (project_call q).
Proof.
  intros Hq w. unfold project_call. destruct (project (controller w)); [|reflexivity].
  simpl. split; [done|]. split; [|by left]. exists [q]. split; [done|]. by constructor.
Qed.

Lemma linking_on_record {A : Type} (m : M NetworkData A) :
  (∀ d, set_dependencies None (m d).2 = set_dependencies None d) →
  (∀ d name, is_Some (dependencies (m d).2 !! name) →
             is_Some (dependencies d !! name) ∨ name ∈ linked) →
  always (linking linked) (on_record m).
Proof.
  intros Hrest Hnames w. unfold on_record, on_controller, on_networkFile.
  specialize (Hrest (record w)). specialize (Hnames (record w)). unfold record in *.
  destruct (m (networkFile (controller w))) as [r d']. simpl in *. split.
  - unfold preserves, besides_dependencies, set_record, record. simpl. by rewrite Hrest.
  - split; [|done]. exists []. by rewrite app_nil_r.
Qed.

Lemma linking_unsetDependency (name : string) :
  always (linking linked) (on_record (unsetDependency name)).
Proof.
  apply linking_on_record; intros d; unfold unsetDependency, modify, dependencies; simpl.
  - by destruct (nf_dependencies d).
  - intros other. destruct (nf_dependencies d) as [deps|] eqn:Hd; simpl; rewrite ?Hd;
      [|by left].
    intros [x [_ Hx]%lookup_delete_Some]. left. by exists x.
Qed.

Lemma linking_setDependency (name : string) (dep : DependencyInterface) :
  name ∈ linked → always (linking linked) (on_record (setDependency name dep)).
Proof.
  intros Hin.
  apply linking_on_record; intros d;
    unfold setDependency, mbind, M_bind, bind, modify, lift_result, dependencies;
    destruct (semanticVersionToString (dep_version dep));
    destruct (nf_dependencies d) eqn:Hd; simpl; rewrite ?Hd; try done.
  - intros other. destruct (decide (other = name)) as [->|Hne]; [by right|].
    rewrite lookup_insert_ne by done. by left.
  - intros other. destruct (decide (other = name)) as [->|Hne]; [by right|].
    rewrite lookup_insert_ne by done. by left.
  - intros other. by left.
  - intros other. by left.
Qed.

Lemma linking_unlinkDependency (depName : string) :
  always (linking linked) (unlinkDependency depName).
Proof.
  unfold unlinkDependency. walk.
  all: first [by apply linking_project_call | apply linking_unsetDependency].
Qed.

Lemma linking_linkDependency (depName depVersion : string) :
  depName ∈ linked → always (linking linked) (linkDependency depName depVersion).
Proof.
  intros Hin. unfold linkDependency. walk.
  all: first [by apply linking_project_call | by apply linking_setDependency].
Qed.

End Linking.

Section LinkingProperties.
Context {lib : ZosLib} {names : Naming} {zv : ZosVersion} {be : Backend}
  {sv : Semver} {svc : SemverClean} {mf : Manifests} {pb : ProjectBackend}.

Lemma unlinkDependency_Ok (depName : string) (w w' : Session) :
  unlinkDependency depName w = (Ok tt, w') → dependencies (record w') !! depName = None.
Proof.
  unfold unlinkDependency. intros Hrun%rethrow_Ok.
  apply bind_Ok in Hrun as (? & w1 & _ & Hrun).
  apply bind_Ok in Hrun as (? & w2 & _ & Hrun).
  unfold on_record, on_controller, on_networkFile, unsetDependency, modify in Hrun.
  simpl in Hrun. injection Hrun as <-.
  unfold dependencies, record. simpl.
  destruct (nf_dependencies (networkFile (controller w2))) eqn:Hd; simpl; rewrite ?Hd; simpl;
    [apply lookup_delete_eq | done].
Qed.

Lemma handleDependenciesLink_tasks (w : Session) :
  handleDependenciesLink w
  = allPromisesOrError
      (dependency_task
         <$> ((inl <$> map_to_list (pf_dependencies (manifest w)))
              ++ (inr <$> dependenciesNamesMissingFromPackage (record w) (manifest w)))) w.
Proof.
  unfold handleDependenciesLink, mbind, M_bind, bind, get.
  rewrite fmap_app, <- !list_fmap_compose. reflexivity.
Qed.

Lemma elem_of_dependenciesNames (d : NetworkData) (name : string) :
  name ∈ dependenciesNames d ↔ is_Some (dependencies d !! name).
Proof.
  unfold dependenciesNames. rewrite list_elem_of_fmap. split.
  - intros ([n x] & -> & Hx%elem_of_map_to_list). by exists x.
  - intros [x Hx]. exists (name, x). split; [done | by apply elem_of_map_to_list].
Qed.

(** X18.  In every run of [handleDependenciesLink] the backend is asked to
    deploy or remove no implementation, nothing but the dependencies of the
    record changes, and a dependency that is recorded afterwards was
    recorded before or is required by the manifest.  When it returns, every
    dependency of the record is required by the manifest. *)
Theorem handleDependenciesLink_spec (w : Session) :
  linking (map_to_list (pf_dependencies (manifest w))).*1 w (handleDependenciesLink w).2
  ∧ ((handleDependenciesLink w).1 = Ok tt →
     dependenciesNamesMissingFromPackage (record (handleDependenciesLink w).2)
       (manifest (handleDependenciesLink w).2) = []).
Proof.
  set (required := (map_to_list (pf_dependencies (manifest w))).*1).
  set (missing := dependenciesNamesMissingFromPackage (record w) (manifest w)).
  rewrite handleDependenciesLink_tasks. fold missing.
  set (tasks := (inl <$> map_to_list (pf_dependencies (manifest w))) ++ (inr <$> missing)).
  assert (∀ x, x ∈ tasks →
               match x with
               | inl (dep, _) => dep ∈ required
               | inr dep => dep ∈ missing
               end) as Htasks.
  { intros x [(y & -> & Hy)%list_elem_of_fmap | (y & -> & Hy)%list_elem_of_fmap]%elem_of_app.
    - destruct y as [dep version]. unfold required. apply list_elem_of_fmap.
      by exists (dep, version).
    - done. }
  assert (always (linking required) (allPromisesOrError (dependency_task <$> tasks))) as Hrun.
  { apply always_batch; [apply linking_preorder|]. intros x Hx. specialize (Htasks x Hx).
    destruct x as [[dep version]|dep]; simpl.
    - by apply linking_linkDependency.
    - apply linking_unlinkDependency. }
  split; [apply Hrun|]. intros Hok.
  destruct (Hrun w) as [Hrest [_ Hnames]].
  destruct (allPromisesOrError (dependency_task <$> tasks) w) as [r w'] eqn:Hbatch.
  simpl in *. subst r.
  assert (manifest w' = manifest w) as Hmanifest.
  { change (manifest (besides_dependencies w') = manifest (besides_dependencies w)).
    by rewrite Hrest. }
  assert (∀ x, x ∈ tasks →
               match x with
               | inl _ => True
               | inr dep => dependencies (record w') !! dep = None
               end) as Hgone.
  { eapply (batch_Ok dependency_task
              (λ x w, match x with
                      | inl _ => True
                      | inr dep => dependencies (record w) !! dep = None
                      end)); [| |exact Hbatch].
    - intros [[dep version]|dep] s [] s1 _ Hs; [done|]. by eapply unlinkDependency_Ok.
    - intros [[dep version]|dep] y s Hx Hy; [done|]. intros Hnone.
      apply Htasks in Hx. apply Htasks in Hy.
      apply eq_None_not_Some. intros Hlater.
      assert (is_Some (dependencies (record s) !! dep)
              ∨ ∃ version', y = inl (dep, version')) as [Hbefore | [version' ->]].
      { destruct y as [[dep' version']|dep']; simpl in Hlater.
        - destruct (linking_linkDependency [dep'] dep' version' (list_elem_of_here _ _) s)
            as [_ [_ Hcases]].
          destruct (Hcases dep Hlater) as [? | Hin]; [by left|].
          apply list_elem_of_singleton in Hin as ->. eauto.
        - destruct (linking_unlinkDependency [] dep' s) as [_ [_ Hcases]].
          destruct (Hcases dep Hlater) as [? | Hin]; [by left | by apply elem_of_nil in Hin]. }
      + rewrite Hnone in Hbefore. by destruct Hbefore.
      + unfold missing, dependenciesNamesMissingFromPackage in Hx.
        apply list_elem_of_difference in Hx as [_ Hnot]. done. }
  apply elem_of_nil_inv. intros name.
  unfold dependenciesNamesMissingFromPackage. rewrite list_elem_of_difference, Hmanifest.
  intros [Hrecorded%elem_of_dependenciesNames Hnot].
  destruct (Hnames name Hrecorded) as [Hbefore | Hin]; [|done].
  assert (name ∈ missing) as Hmissing.
  { unfold missing, dependenciesNamesMissingFromPackage. apply list_elem_of_difference.
    split; [by apply elem_of_dependenciesNames | done]. }
  assert (inr name ∈ tasks) as Htask.
  { apply elem_of_app. right. apply list_elem_of_fmap. by exists name. }
  specialize (Hgone _ Htask). simpl in Hgone. rewrite Hgone in Hrecorded.
  by destruct Hrecorded.
Qed.

End LinkingProperties.

Section LinkProperties.
Context {lib : ZosLib} {names : Naming} {zv : ZosVersion} {be : Backend}
  {sv : Semver} {svc : SemverClean} {mf : Manifests} {pb : ProjectBackend}.

(** X19.  [linkDependency] changes the entry the record has for a dependency
    only in a run that returns, after the backend has accepted
    [setDependency], and for a dependency that is installed with a version
    that satisfies the requirement and whose record for the network has a
    package address: the new entry holds this address and the version of
    that record.  The entries of the other dependencies are never changed,
    and nothing at all is done for a dependency without a custom deployment
    whose recorded version matches the manifest. *)
Theorem linkDependency_outcome (w : Session) (depName depVersion : string) :
  (∀ other, other ≠ depName →
     getDependency (record (linkDependency depName depVersion w).2) other
     = getDependency (record w) other)
  ∧ (getDependency (record (linkDependency depName depVersion w).2) depName
     ≠ getDependency (record w) depName →
     ∃ dependency nf address version,
       (linkDependency depName depVersion w).1 = Ok tt
       ∧ new_Dependency depName (Some depVersion) = Ok dependency
       ∧ (getNetworkFile (files w) (network w) dependency).1 = Ok nf
       ∧ packageAddress (data nf) = Some address
       ∧ address ≠ ""
       ∧ semanticVersionToString (nf_version (data nf)) = Ok version
       ∧ getDependency (record (linkDependency depName depVersion w).2) depName
         = Some (mkDependencyInterface None (Some address) (Some version) None)
       ∧ operations (linkDependency depName depVersion w).2
         = operations w
           ++ [Project_setDependency depName (Some address) (nf_version (data nf))]
       ∧ is_Throw (perform (calls (controller w)) (operations w)
                     (Project_setDependency depName (Some address) (nf_version (data nf))))
         = false)
  ∧ (dependencyHasMatchingCustomDeploy (record w) (manifest w) depName = false →
     dependencySatisfiesVersionRequirement (record w) (manifest w) depName = true →
     linkDependency depName depVersion w = (Ok tt, w)).
Proof.
  unfold linkDependency, rethrow, mbind, M_bind, bind, get. fold (record w) (manifest w).
  destruct (dependencyHasMatchingCustomDeploy (record w) (manifest w) depName) eqn:Hcustom.
  { unfold project_call. destruct (project (controller w)); [|by split_and!].
    destruct (perform _ _ _); by split_and!. }
  destruct (dependencySatisfiesVersionRequirement (record w) (manifest w) depName) eqn:Hsat.
  { by split_and!. }
  simpl. unfold lift_result.
  destruct (new_Dependency depName (Some depVersion)) as [dependency|] eqn:Hdep;
    [|by split_and!].
  destruct (getNetworkFile (files w) (network w) dependency) as [[nf|] dep1] eqn:Hnf;
    simpl; [|by split_and!].
  destruct (truthy (packageAddress (data nf))) eqn:Haddress; [|by split_and!]. simpl.
  unfold project_call. destruct (project (controller w)) eqn:Hproject; [|by split_and!].
  destruct (perform _ _ _) as [b|] eqn:Hperform; [|by split_and!].
  unfold on_record, on_controller, on_networkFile, setDependency, mbind, M_bind, bind,
    modify, lift_result. simpl. fold (record w).
  destruct (packageAddress (data nf)) as [address|] eqn:Ha; [|done].
  destruct (semanticVersionToString (nf_version (data nf))) as [version|] eqn:Hversion.
  - simpl. unfold getDependency, record. simpl. split_and!; [| |done].
    + intros other Hother. rewrite lookup_insert_ne by done.
      destruct (nf_dependencies (networkFile (controller w))) eqn:Hd; simpl; by rewrite ?Hd.
    + intros _. exists dependency, nf, address, version. rewrite lookup_insert_eq.
      split_and!; try done.
      * by rewrite Hnf.
      * intros ->. done.
      * by rewrite Hperform.
  - simpl. unfold getDependency, record. simpl. split_and!; [| |done].
    + intros other _.
      destruct (nf_dependencies (networkFile (controller w))) eqn:Hd; simpl; by rewrite ?Hd.
    + intros Hchanged. destruct Hchanged.
      destruct (nf_dependencies (networkFile (controller w))) eqn:Hd; simpl; by rewrite ?Hd.
Qed.

End LinkProperties.

(** ** The steps of push *)

Lemma prepares_preorder : PreOrder prepares.
Proof.
  split.
  - intros w. split_and!; [apply journal_grows_preorder | done | done | by left].
  - intros w1 w2 w3 (Hj1 & Hm1 & Hl1 & Hc1) (Hj2 & Hm2 & Hl2 & Hc2). split_and!.
    + by eapply (@transitivity _ _ (@PreOrder_Transitive _ _ (journal_grows_preorder _))).
    + congruence.
    + congruence.
    + destruct Hc2 as [-> | ->]; [done | by right].
Qed.

Lemma uploads_contracts_preorder (aliases : list string) :
  PreOrder (uploads_contracts aliases).
Proof.
  split; [by intros w alias _|].
  intros w1 w2 w3 H1 H2 alias Halias. by rewrite H2, H1.
Qed.

Section PushSteps.
Context {lib : ZosLib} {names : Naming} {zv : ZosVersion} {be : Backend}
  {code : ZosLibCode} {sv : Semver} {svc : SemverClean} {mf : Manifests}
  {pb : ProjectBackend} {va : Validation}.

#[local] Existing Instance preserves_preorder.
#[local] Existing Instance both_preorder.
#[local] Existing Instance uploads_contracts_preorder.
#[local] Existing Instance prepares_preorder.

Lemma preserves_project_call {X : Type} (f : Session → X) (q : ProjectCall) :
  (∀ w l, f (set_operations l w) = f w) → always (preserves f) (project_call q).
Proof.
  intros Hf w. unfold project_call. destruct (project (controller w)); [apply Hf | done].
Qed.

Lemma preserves_project_setImplementation {X : Type} (f : Session → X) (klass : Contract)
    (contractName : string) :
  (∀ w l, f (set_operations l w) = f w) →
  always (preserves f) (project_setImplementation klass contractName).
Proof.
  intros Hf w. unfold project_setImplementation.
  destruct (project (controller w)); [apply Hf | done].
Qed.

Lemma preserves_on_record {X A : Type} (f : Session → X) (m : M NetworkData A) :
  (∀ w, f (set_record (m (record w)).2 w) = f w) → always (preserves f) (on_record m).
Proof.
  intros Hf w. unfold on_record, on_controller, on_networkFile.
  specialize (Hf w). unfold record in Hf.
  by destruct (m (networkFile (controller w))) as [r d'].
Qed.

Lemma preserves_on_controller {X A : Type} (f : Session → X) (m : M Controller A) :
  (∀ w, f (set_controller (m (controller w)).2 w) = f w) →
  always (preserves f) (on_controller m).
Proof.
  intros Hf w. unfold on_controller. specialize (Hf w).
  by destruct (m (controller w)) as [r c'].
Qed.

Lemma preserves_uploadSolidityLibs (libs : list Contract) :
  always (preserves besides_solidityLibs) (uploadSolidityLibs libs).
Proof.
  apply always_batch; [typeclasses eauto|]. intros klass _. unfold _uploadSolidityLib.
  walk.
  - by apply preserves_project_setImplementation.
  - by apply preserves_on_record.
Qed.

Lemma preserves__unsetSolidityLibs :
  always (preserves besides_solidityLibs) _unsetSolidityLibs.
Proof.
  unfold _unsetSolidityLibs. walk.
  apply always_batch; [typeclasses eauto|]. intros libName _. unfold _unsetSolidityLib.
  walk.
  - by apply preserves_project_call.
  - by apply preserves_on_record.
Qed.

(** The three ways [uploadContract] ends. *)
Lemma uploadContract_run (contractAlias : string) (klass : Contract) (info : Validated)
    (w : Session) :
  let w1 :=
    set_operations (operations w ++ [Project_setImplementation klass contractAlias]) w in
  (∃ e, uploadContract contractAlias klass info w = (Throw e, w))
  ∨ (∃ e, uploadContract contractAlias klass info w = (Throw e, w1))
  ∨ ∃ instance,
      deploy (calls (controller w)) (operations w) klass contractAlias = Ok instance
      ∧ uploadContract contractAlias klass info w
        = (Ok tt,
           set_record
             (addContract contractAlias instance (validated_warnings info)
                (validated_types info) (validated_storage info) (record w)).2 w1).
Proof.
  unfold uploadContract, rethrow, mbind, M_bind, bind, project_setImplementation.
  destruct (project (controller w)); [|left; eauto]. right.
  destruct (deploy _ _ _ _) as [instance|e]; [right | left; eauto]. eauto.
Qed.

Lemma always_uploadContract (aliases : list string) (contractAlias : string)
    (klass : Contract) (info : Validated) :
  contractAlias ∈ aliases →
  always (both (preserves besides_contracts) (uploads_contracts aliases))
    (uploadContract contractAlias klass info).
Proof.
  intros Hin w.
  destruct (uploadContract_run contractAlias klass info w)
    as [[e ->] | [[e ->] | (instance & _ & ->)]]; simpl.
  - reflexivity.
  - split; [done | by intros alias _].
  - split; [done|]. intros alias Halias. simpl. rewrite lookup_insert_ne; [done|].
    by intros ->.
Qed.

Lemma uploadContract_Ok (contractAlias : string) (klass : Contract) (info : Validated)
    (w w' : Session) :
  deploys_the_class →
  uploadContract contractAlias klass info w = (Ok tt, w') →
  deployed_as contractAlias klass w'.
Proof.
  intros Hclass Hrun.
  destruct (uploadContract_run contractAlias klass info w)
    as [[e He] | [[e He] | (instance & Hdeploy & He)]]; rewrite He in Hrun; simplify_eq.
  eexists. simpl. rewrite lookup_insert_eq. split; [done|]. simpl.
  split; [by eexists|]. by rewrite (Hclass _ _ _ _ _ Hdeploy).
Qed.

Lemma uploadContract_stable (contractAlias other : string) (klass klass' : Contract)
    (info : Validated) (w : Session) :
  deploys_the_class →
  (other = contractAlias → klass' = klass) →
  deployed_as contractAlias klass w →
  deployed_as contractAlias klass (uploadContract other klass' info w).2.
Proof.
  intros Hclass Hsame (entry & Hentry & Haddress & Hhash).
  destruct (uploadContract_run other klass' info w)
    as [[e ->] | [[e ->] | (instance & Hdeploy & ->)]]; simpl.
  - by exists entry.
  - by exists entry.
  - destruct (decide (other = contractAlias)) as [->|Hne].
    + eexists. simpl. rewrite lookup_insert_eq. split; [done|]. simpl.
      split; [by eexists|]. by rewrite (Hclass _ _ _ _ _ Hdeploy), Hsame.
    + exists entry. simpl. by rewrite lookup_insert_ne.
Qed.

Lemma prepares_on_controller {A : Type} (m : M Controller A) :
  (∀ c, packageFile (m c).2 = packageFile c) →
  (∀ c, nf_solidityLibs (networkFile (m c).2) = nf_solidityLibs (networkFile c)) →
  (∀ c, nf_contracts (networkFile (m c).2) = nf_contracts (networkFile c)
        ∨ nf_contracts (networkFile (m c).2) = ∅) →
  always prepares (on_controller m).
Proof.
  intros Hpf Hlibs Hcontracts w. unfold on_controller.
  specialize (Hpf (controller w)). specialize (Hlibs (controller w)).
  specialize (Hcontracts (controller w)).
  destruct (m (controller w)) as [r c']. simpl in *.
  split_and!; [|done..]. exists []. by rewrite app_nil_r.
Qed.

Lemma _checkVersion_run (c : Controller) :
  _checkVersion c
  = (Ok tt, if _newVersionRequired c
            then set_networkFile
                   (set_contracts ∅ (set_frozen (Some false) (networkFile c))) c
            else c).
Proof.
  unfold _checkVersion, mbind, M_bind, bind, get. by destruct (_newVersionRequired c).
Qed.

Lemma prepares__checkVersion : always prepares (on_controller _checkVersion).
Proof.
  apply prepares_on_controller; intros c; rewrite _checkVersion_run;
    destruct (_newVersionRequired c); simpl; auto.
Qed.

Lemma prepares_fetchOrDeploy (requestedVersion : option string) :
  always prepares (on_controller (fetchOrDeploy requestedVersion)).
Proof.
  apply prepares_on_controller; intros c; unfold fetchOrDeploy;
    destruct (respond _ _); simpl; auto.
Qed.

Lemma prepares_handleDependenciesLink : always prepares handleDependenciesLink.
Proof.
  intros w.
  set (required := (map_to_list (pf_dependencies (manifest w))).*1).
  assert (linking required w (handleDependenciesLink w).2) as [Hrest [Hjournal _]].
  { rewrite handleDependenciesLink_tasks.
    set (tasks := (inl <$> map_to_list (pf_dependencies (manifest w))) ++ _).
    assert (always (linking required) (allPromisesOrError (dependency_task <$> tasks)))
      as Hrun; [|apply Hrun].
    apply always_batch; [apply linking_preorder|].
    intros x [(y & -> & Hy)%list_elem_of_fmap | (y & -> & Hy)%list_elem_of_fmap]%elem_of_app.
    - destruct y as [dep version]. simpl. apply linking_linkDependency.
      apply list_elem_of_fmap. by exists (dep, version).
    - apply linking_unlinkDependency. }
  set (w' := (handleDependenciesLink w).2) in *.
  split_and!; [done | | |left].
  - change (manifest (besides_dependencies w') = manifest (besides_dependencies w)).
    by rewrite Hrest.
  - change (nf_solidityLibs (record (besides_dependencies w'))
            = nf_solidityLibs (record (besides_dependencies w))).
    by rewrite Hrest.
  - change (nf_contracts (record (besides_dependencies w'))
            = nf_contracts (record (besides_dependencies w))).
    by rewrite Hrest.
Qed.

End PushSteps.

(** ** Push *)

Lemma bind_run {S A B : Type} (R : relation S) (m : M S A) (k : A → M S B) (s : S) :
  always R m →
  (∃ e, (m ≫= k) s = (Throw e, (m s).2) ∧ R s (m s).2)
  ∨ (∃ a s1, R s s1 ∧ (m ≫= k) s = k a s1).
Proof.
  intros Hm. specialize (Hm s). unfold mbind, M_bind, bind.
  destruct (m s) as [[a|e] s1]; simpl in *; [right | left]; eauto.
Qed.

Section PushProperties.
Context {lib : ZosLib} {names : Naming} {zv : ZosVersion} {be : Backend}
  {code : ZosLibCode} {sv : Semver} {svc : SemverClean} {mf : Manifests}
  {pb : ProjectBackend} {va : Validation}.

#[local] Existing Instance preserves_preorder.
#[local] Existing Instance both_preorder.
#[local] Existing Instance uploads_contracts_preorder.
#[local] Existing Instance prepares_preorder.

Lemma keeps_contracts_fetchOrDeploy (requestedVersion : option string) :
  always (preserves (λ w, nf_contracts (record w)))
    (on_controller (fetchOrDeploy requestedVersion)).
Proof.
  apply preserves_on_controller. intros w. unfold fetchOrDeploy, record.
  by destruct (respond _ _).
Qed.

Lemma keeps_contracts_handleDependenciesLink :
  always (preserves (λ w, nf_contracts (record w))) handleDependenciesLink.
Proof.
  intros w. destruct (prepares_handleDependenciesLink w) as (_ & _ & _ & Hcontracts).
  set (required := (map_to_list (pf_dependencies (manifest w))).*1).
  assert (linking required w (handleDependenciesLink w).2) as [Hrest _].
  { rewrite handleDependenciesLink_tasks.
    set (tasks := (inl <$> map_to_list (pf_dependencies (manifest w))) ++ _).
    assert (always (linking required) (allPromisesOrError (dependency_task <$> tasks)))
      as Hrun; [|apply Hrun].
    apply always_batch; [apply linking_preorder|].
    intros x [(y & -> & Hy)%list_elem_of_fmap | (y & -> & Hy)%list_elem_of_fmap]%elem_of_app.
    - destruct y as [dep version]. simpl. apply linking_linkDependency.
      apply list_elem_of_fmap. by exists (dep, version).
    - apply linking_unlinkDependency. }
  unfold preserves.
  change (nf_contracts (record (besides_dependencies (handleDependenciesLink w).2))
          = nf_contracts (record (besides_dependencies w))).
  by rewrite Hrest.
Qed.

Lemma push_unfold (w : Session) (reupload force : bool) :
  push reupload force w
  = match _solidityLibsForPush (controller w) (negb reupload) with
    | Throw e => (Throw e, w)
    | Ok changedLibraries =>
        let contracts :=
          _contractsListForPush (controller w) (negb reupload) changedLibraries in
        if negb (validateContracts (controller w) contracts) && negb force
        then (Throw "One or more contracts have validation errors. Please review the items listed above and fix them, or run this command again with the --force option.", w)
        else
          (on_controller _checkVersion;;
           w1 ← get;
           on_controller (fetchOrDeploy (packageVersion (controller w1)));;
           handleDependenciesLink;;
           on_controller checkNotFrozen;;
           uploadSolidityLibs changedLibraries;;
           promise_all (uploadContracts (validated (controller w) contracts)) unsetContracts;;
           _unsetSolidityLibs) w
    end.
Proof.
  unfold push. unfold mbind at 1, M_bind at 1, bind at 1, get at 1.
  unfold mbind at 1, M_bind at 1, bind at 1, lift_result at 1.
  destruct (_solidityLibsForPush (controller w) (negb reupload)); [|done].
  by destruct (negb _ && negb force).
Qed.

(** The ways a push ends: before its first step, in its preparation or at
    the check that the record is not frozen, or in the uploads. *)
Lemma push_run (w : Session) (reupload force : bool) :
  (∃ e, push reupload force w = (Throw e, w))
  ∨ ∃ changedLibraries w3,
      _solidityLibsForPush (controller w) (negb reupload) = Ok changedLibraries
      ∧ prepares w w3
      ∧ nf_contracts (record w3)
        = (if _newVersionRequired (controller w) then ∅ else nf_contracts (record w))
      ∧ ((∃ e, push reupload force w = (Throw e, w3))
         ∨ (truthy_bool (nf_frozen (record w3)) = false
            ∧ push reupload force w
              = (uploadSolidityLibs changedLibraries;;
                 promise_all
                   (uploadContracts
                      (validated (controller w)
                         (_contractsListForPush (controller w) (negb reupload)
                            changedLibraries)))
                   unsetContracts;;
                 _unsetSolidityLibs) w3)).
Proof.
  rewrite push_unfold. cbv zeta.
  destruct (_solidityLibsForPush (controller w) (negb reupload)) as [changedLibraries|e];
    [|left; eauto].
  destruct (negb _ && negb force); [left; eauto|].
  right. exists changedLibraries.
  set (rest := uploadSolidityLibs changedLibraries;;
               promise_all
                 (uploadContracts
                    (validated (controller w)
                       (_contractsListForPush (controller w) (negb reupload)
                          changedLibraries)))
                 unsetContracts;;
               _unsetSolidityLibs).
  set (K := both prepares (preserves (λ w, nf_contracts (record w)))).
  assert (PreOrder K) as HK by (unfold K; typeclasses eauto).
  assert (∃ w1, nf_contracts (record w1)
                  = (if _newVersionRequired (controller w) then ∅
                     else nf_contracts (record w))
                ∧ prepares w w1
                ∧ (on_controller _checkVersion;;
                   w1 ← get;
                   on_controller (fetchOrDeploy (packageVersion (controller w1)));;
                   handleDependenciesLink;;
                   on_controller checkNotFrozen;;
                   rest) w
                  = (on_controller (fetchOrDeploy (packageVersion (controller w1)));;
                     handleDependenciesLink;;
                     on_controller checkNotFrozen;;
                     rest) w1) as (w1 & Hc1 & Hp1 & ->).
  { exists (on_controller _checkVersion w).2.
    pose proof (prepares__checkVersion w) as Hp.
    unfold mbind at 1, M_bind at 1, bind at 1. unfold on_controller in *.
    rewrite _checkVersion_run in *. simpl in *.
    split_and!; [| done | done].
    by destruct (_newVersionRequired (controller w)). }
  destruct (bind_run K (on_controller (fetchOrDeploy (packageVersion (controller w1))))
              (λ _, handleDependenciesLink;; on_controller checkNotFrozen;; rest) w1)
    as [(e & -> & [Hp2 Hc2]) | (? & w2 & [Hp2 Hc2] & ->)].
  { apply always_both; [apply prepares_fetchOrDeploy | apply keeps_contracts_fetchOrDeploy]. }
  { eexists. split_and!; [done | by etrans | | left; eauto].
    unfold preserves in Hc2. by rewrite Hc2. }
  destruct (bind_run K handleDependenciesLink
              (λ _, on_controller checkNotFrozen;; rest) w2)
    as [(e & -> & [Hp3 Hc3]) | (? & w3 & [Hp3 Hc3] & ->)].
  { apply always_both;
      [apply prepares_handleDependenciesLink | apply keeps_contracts_handleDependenciesLink]. }
  { eexists. split_and!; [done | etrans; [|done]; by etrans | | left; eauto].
    unfold preserves in *. by rewrite Hc3, Hc2. }
  exists w3. split_and!; [done | etrans; [|done]; by etrans | |].
  { unfold preserves in *. by rewrite Hc3, Hc2. }
  assert (on_controller checkNotFrozen w3
          = (if truthy_bool (nf_frozen (record w3))
             then Throw "Cannot modify contracts in a frozen version. Run zos bump to create a new version first."
             else Ok tt, w3)) as Hcheck.
  { unfold on_controller, checkNotFrozen, mbind, M_bind, bind, get, record.
    destruct (truthy_bool _); by destruct w3. }
  unfold mbind, M_bind, bind. rewrite Hcheck.
  destruct (truthy_bool (nf_frozen (record w3))); [left; eauto | by right].
Qed.

(** X20.  A push whose libraries clash in name with a contract alias of the
    manifest, or whose contracts do not pass the validation when it is not
    forced, throws before anything is done: no call is made and the record,
    the manifest and the journal are as before. *)
Theorem push_fails_fast (w : Session) (reupload force : bool) :
  (∀ libName,
     libName ∈ _getAllSolidityLibNames (pf_contractNames (manifest w)) →
     libName ∈ pf_contractAliases (manifest w) →
     ∃ e, push reupload force w = (Throw e, w))
  ∧ (∀ changedLibraries,
       _solidityLibsForPush (controller w) (negb reupload) = Ok changedLibraries →
       validateContracts (controller w)
         (_contractsListForPush (controller w) (negb reupload) changedLibraries) = false →
       force = false →
       push reupload force w
       = (Throw "One or more contracts have validation errors. Please review the items listed above and fix them, or run this command again with the --force option.", w)).
Proof.
  split.
  - intros libName Hlib Halias. rewrite push_unfold.
    unfold _solidityLibsForPush. fold (manifest w).
    rewrite bool_decide_eq_false_2; [simpl; eauto|].
    apply intersection_nonempty. eauto.
  - intros changedLibraries Hlibs Hvalid ->. rewrite push_unfold, Hlibs. cbv zeta.
    by rewrite Hvalid.
Qed.

Lemma rest_keeps (changedLibraries : list Contract)
    (contracts : list (string * Contract * Validated)) :
  always (preserves (λ w, (nf_frozen (record w), manifest w)))
    (uploadSolidityLibs changedLibraries;;
     promise_all (uploadContracts contracts) unsetContracts;;
     _unsetSolidityLibs).
Proof.
  assert (∀ A (m : M Session A),
            always (preserves besides_solidityLibs) m →
            always (preserves (λ w, (nf_frozen (record w), manifest w))) m) as Hlibs.
  { intros A m Hm w. specialize (Hm w). unfold preserves in *.
    change ((nf_frozen (record (besides_solidityLibs (m w).2)),
             manifest (besides_solidityLibs (m w).2))
            = (nf_frozen (record (besides_solidityLibs w)),
               manifest (besides_solidityLibs w))).
    by rewrite Hm. }
  assert (∀ A (m : M Session A),
            always (preserves besides_contracts) m →
            always (preserves (λ w, (nf_frozen (record w), manifest w))) m) as Hcontracts.
  { intros A m Hm w. specialize (Hm w). unfold preserves in *.
    change ((nf_frozen (record (besides_contracts (m w).2)),
             manifest (besides_contracts (m w).2))
            = (nf_frozen (record (besides_contracts w)),
               manifest (besides_contracts w))).
    by rewrite Hm. }
  walk.
  - apply Hlibs, preserves_uploadSolidityLibs.
  - apply always_promise_all; [typeclasses eauto | |].
    + apply Hcontracts. unfold uploadContracts.
      apply always_batch; [typeclasses eauto|]. intros [[alias klass] info] _ w.
      by destruct (always_uploadContract [alias] alias klass info (list_elem_of_here _ _) w).
    + apply Hcontracts. intros w. apply unsetContracts_run.
  - apply Hlibs, preserves__unsetSolidityLibs.
Qed.

(** X21.  A push that leaves the record frozen has failed, and it has asked
    the backend to deploy or remove no implementation: the libraries of the
    record are as before, and its contracts are as before or have all been
    forgotten for a new version. *)
Theorem push_frozen (w : Session) (reupload force : bool) :
  truthy_bool (nf_frozen (record (push reupload force w).2)) = true →
  (push reupload force w).1 ≠ Ok tt
  ∧ prepares w (push reupload force w).2.
Proof.
  intros Hfrozen.
  destruct (push_run w reupload force)
    as [[e Hrun] | (changedLibraries & w3 & _ & Hprepares & _
                    & [[e Hrun] | [Hnot Hrun]])];
    rewrite Hrun in *; simpl in *.
  - split; [done | reflexivity].
  - done.
  - pose proof (rest_keeps changedLibraries
                  (validated (controller w)
                     (_contractsListForPush (controller w) (negb reupload)
                        changedLibraries)) w3) as Hkeep.
    unfold preserves in Hkeep. injection Hkeep as Hkeep _. congruence.
Qed.

Lemma contracts_of_besides_solidityLibs (w w' : Session) :
  besides_solidityLibs w' = besides_solidityLibs w →
  nf_contracts (record w') = nf_contracts (record w).
Proof.
  intros Hrest.
  change (nf_contracts (record (besides_solidityLibs w'))
          = nf_contracts (record (besides_solidityLibs w))).
  by rewrite Hrest.
Qed.

Lemma no_error_for_local_contracts (c : Controller) :
  (∀ alias, alias ∈ pf_contractAliases (packageFile c) →
            isContractDeployed c alias = true ∧ hasContractChanged c alias None = false) →
  _errorForLocalContractsDeployed c = None.
Proof.
  intros Hall. unfold _errorForLocalContractsDeployed.
  rewrite bool_decide_eq_true_2.
  - simpl. rewrite bool_decide_eq_true_2; [done|].
    apply elem_of_nil_inv.
    intros alias [Hch [_ Hin]%list_elem_of_filter]%list_elem_of_filter.
    destruct (Hall alias Hin). congruence.
  - apply elem_of_nil_inv. intros alias [Hnot Hin]%list_elem_of_filter.
    by destruct (Hall alias Hin).
Qed.

Lemma deployed_unchanged (c : Controller) (alias name : string) (entry : ContractInterface) :
  pf_contracts (packageFile c) !! alias = Some name →
  nf_contracts (networkFile c) !! alias = Some entry →
  hasContract (networkFile c) alias = true →
  contract_localBytecodeHash entry
  = Some (bytecodeDigest (schema_bytecode (getFromLocal name))) →
  isContractDeployed c alias = true ∧ hasContractChanged c alias None = false.
Proof.
  intros Hname Hentry Hhas Hhash.
  unfold hasContractChanged, isContractDeployed, isLocalContract, pf_hasContract, pf_contract.
  rewrite Hname, Hhas. rewrite bool_decide_eq_true_2 by eauto. simpl. split; [done|].
  unfold hasSameBytecode, contract. rewrite Hentry. simpl.
  by rewrite Hhash, bool_decide_eq_true_2.
Qed.

(** X22.  When the backend answers [setImplementation] with an instance of
    the class it was given, a push that returns leaves every contract of the
    manifest deployed with its current bytecode, so that
    [checkLocalContractsDeployed] finds nothing to report; every contract of
    the record is then a contract of the manifest, and the record is not
    frozen. *)
Theorem push_effective (w w' : Session) (reupload force : bool) :
  deploys_the_class →
  push reupload force w = (Ok tt, w') →
  _errorForLocalContractsDeployed (controller w') = None
  ∧ contractAliasesMissingFromPackage (record w') (manifest w') = []
  ∧ truthy_bool (nf_frozen (record w')) = false
  ∧ manifest w' = manifest w.
Proof.
  intros Hclass Hrun.
  destruct (push_run w reupload force)
    as [[e He] | (changedLibraries & w3 & Hlibs & Hprepares & Hc3
                  & [[e He] | [Hnot He]])];
    rewrite He in Hrun; [done | done |]. clear He.
  set (delta := _contractsListForPush (controller w) (negb reupload) changedLibraries) in *.
  pose proof (rest_keeps changedLibraries (validated (controller w) delta) w3) as Hkeep.
  rewrite Hrun in Hkeep. unfold preserves in Hkeep. simpl in Hkeep.
  injection Hkeep as Hfrozen Hmanifest.
  destruct Hprepares as (_ & Hmanifest3 & _ & _).
  apply bind_Ok in Hrun as ([] & w4 & Hup & Hrun).
  apply bind_Ok in Hrun as ([] & w6 & Hall & Hrun).
  apply promise_all_Ok in Hall as (w5 & Hupload & Hunset).
  assert (nf_contracts (record w4) = nf_contracts (record w3)) as Hc4.
  { apply contracts_of_besides_solidityLibs.
    pose proof (preserves_uploadSolidityLibs changedLibraries w3) as H. by rewrite Hup in H. }
  assert (nf_contracts (record w') = nf_contracts (record w6)) as Hc7.
  { apply contracts_of_besides_solidityLibs.
    pose proof (preserves__unsetSolidityLibs w6) as H. by rewrite Hrun in H. }
  assert (manifest w5 = manifest w ∧ manifest w6 = manifest w) as [Hm5 Hm6].
  { pose proof (preserves_uploadSolidityLibs changedLibraries w3) as H4.
    rewrite Hup in H4. unfold preserves in H4. simpl in H4.
    assert (besides_contracts w5 = besides_contracts w4) as H5.
    { assert (always (preserves besides_contracts)
                (uploadContracts (validated (controller w) delta))) as Hb.
      { apply always_batch; [typeclasses eauto|]. intros [[alias klass] info] _ s.
        by destruct (always_uploadContract [alias] alias klass info
                       (list_elem_of_here _ _) s). }
      specialize (Hb w4). by rewrite Hupload in Hb. }
    destruct (unsetContracts_run w5) as [H6 _]. rewrite Hunset in H6.
    unfold preserves in H6. simpl in H6.
    assert (manifest w4 = manifest w3) as E4.
    { change (manifest (besides_solidityLibs w4) = manifest (besides_solidityLibs w3)).
      by rewrite H4. }
    assert (manifest w5 = manifest w4) as E5.
    { change (manifest (besides_contracts w5) = manifest (besides_contracts w4)).
      by rewrite H5. }
    assert (manifest w6 = manifest w5) as E6.
    { change (manifest (besides_contracts w6) = manifest (besides_contracts w5)).
      by rewrite H6. }
    split; congruence. }
  split_and!; [| | by rewrite Hfrozen | congruence].
  2: { unfold contractAliasesMissingFromPackage, contractAliases.
       rewrite Hc7, Hmanifest, Hmanifest3, <- Hm6. by apply (unsetContracts_Ok w5). }
  apply no_error_for_local_contracts. intros alias Halias.
  assert (packageFile (controller w') = manifest w) as Hpf by (unfold manifest in *; congruence).
  rewrite Hpf in Halias.
  pose proof Halias as [name Hname]%elem_of_pf_contractAliases.
  set (klass := getFromLocal name).
  assert (∀ x, x ∈ validated (controller w) delta →
               (x.1.1, x.1.2) ∈ delta) as Hvalidated.
  { intros x ([a k] & -> & Hin)%list_elem_of_fmap. done. }
  assert (∀ a k, (a, k) ∈ delta →
                 ∃ n, pf_contracts (manifest w) !! a = Some n ∧ k = getFromLocal n) as Hdelta.
  { intros a k Hin. by apply elem_of__contractsListForPush in Hin as [? _]. }
  assert (∃ entry, nf_contracts (record w5) !! alias = Some entry
                   ∧ entry ≠ mkContractInterface None None None None None None None None
                   ∧ contract_localBytecodeHash entry
                     = Some (bytecodeDigest (schema_bytecode klass)))
    as (entry & Hentry5 & Hnonempty & Hhash).
  { destruct (decide ((alias, klass) ∈ delta)) as [Hin | Hout].
    - assert ((alias, klass, (validateContract (controller w) alias klass).2)
              ∈ validated (controller w) delta) as Hx.
      { apply list_elem_of_fmap. by exists (alias, klass). }
      assert (deployed_as alias klass w5) as (entry & He & [address Ha] & Hh).
      { unfold uploadContracts in Hupload.
        refine (batch_Ok (λ '(a, k, info), uploadContract a k info)
                  (λ x s, deployed_as x.1.1 x.1.2 s) _ w4 w5 _ _ Hupload _ Hx).
        - intros [[a k] info] s [] s1 _ Hs. simpl. by eapply uploadContract_Ok.
        - intros [[a k] info] [[a' k'] info'] s Hx1 Hy1. simpl.
          apply uploadContract_stable; [done|]. intros ->.
          apply Hvalidated in Hx1. apply Hvalidated in Hy1. simpl in *.
          destruct (Hdelta _ _ Hx1) as (n1 & Hn1 & ->).
          destruct (Hdelta _ _ Hy1) as (n2 & Hn2 & ->). congruence. }
      exists entry. split_and!; [done | | done]. intros ->. done.
    - assert (negb reupload = true ∧ _newVersionRequired (controller w) = false
              ∧ hasContract (record w) alias = true
              ∧ ¬ hash_differs (record w) alias klass) as (Hre & Hnew & Hhas & Hsame).
      { destruct (negb reupload) eqn:Hre;
          destruct (_newVersionRequired (controller w)) eqn:Hnew;
          destruct (hasContract (record w) alias) eqn:Hhas; try (split_and!; [done..|]);
          try (destruct Hout; apply elem_of__contractsListForPush; split; [by eauto|];
               rewrite ?Hre, ?Hnew; fold (record w); rewrite ?Hhas; tauto).
        intros Hdiff. destruct Hout. apply elem_of__contractsListForPush.
        split; [by eauto|]. tauto. }
      rewrite Hnew in Hc3.
      unfold hasContract, isEmpty_contract, contract in Hhas.
      destruct (nf_contracts (record w) !! alias) as [entry|] eqn:Hentry; [|done].
      exists entry.
      assert (nf_contracts (record w5) !! alias = nf_contracts (record w4) !! alias) as H5.
      { assert (always (uploads_contracts (validated (controller w) delta).*1.*1)
                  (uploadContracts (validated (controller w) delta))) as Hb.
        { apply always_batch; [typeclasses eauto|]. intros [[a k] info] Hin s.
          apply (always_uploadContract _ a k info).
          apply list_elem_of_fmap. exists (a, k). split; [done|].
          apply list_elem_of_fmap. by exists (a, k, info). }
        specialize (Hb w4). rewrite Hupload in Hb. apply Hb.
        intros ([a k] & -> & ([[a' k'] info] & [= <- <-] & Hin)%list_elem_of_fmap)%list_elem_of_fmap.
        apply Hvalidated in Hin. simpl in Hin.
        destruct (Hdelta _ _ Hin) as (n & Hn & ->). simpl in *.
        rewrite Hname in Hn. injection Hn as <-. done. }
      rewrite H5, Hc4, Hc3. split_and!; [done | |].
      + intros ->. by rewrite bool_decide_eq_true_2 in Hhas.
      + destruct (decide (contract_localBytecodeHash entry
                          = Some (bytecodeDigest (schema_bytecode klass)))) as [|Hne];
          [done|].
        destruct Hsame. by exists entry. }
  assert (nf_contracts (record w') !! alias = Some entry) as Hentry.
  { rewrite Hc7. destruct (unsetContracts_run w5) as [_ (new & _ & Hnew & Hcases)].
    rewrite Hunset in *. simpl in *.
    destruct (Hcases alias) as [-> | [_ Hop]]; [done|].
    rewrite Forall_forall in Hnew. destruct (Hnew _ Hop) as (a & [= <-] & Hmissing).
    unfold contractAliasesMissingFromPackage in Hmissing.
    apply list_elem_of_difference in Hmissing as [_ Hnotin]. rewrite Hm5 in Hnotin. done. }
  apply (deployed_unchanged (controller w') alias name entry); [by rewrite Hpf | done | | done].
  unfold hasContract, contract, isEmpty_contract. fold (record w'). rewrite Hentry.
  by rewrite bool_decide_eq_false_2.
Qed.

End PushProperties.

(** ** The libraries after a push *)

Lemma removes_libraries_preorder (libNames : list string) :
  PreOrder (removes_libraries libNames).
Proof.
  split; [by left|].
  intros w1 w2 w3 H1 H2 libName.
  destruct (H2 libName) as [-> | ?]; [apply H1 | by right].
Qed.

Lemma keeps_libraries_preorder : PreOrder keeps_libraries.
Proof. split; [by intros w libName | intros w1 w2 w3 H1 H2 libName ?; by apply H2, H1]. Qed.

Section Libraries.
Context {lib : ZosLib} {names : Naming} {zv : ZosVersion} {be : Backend}
  {code : ZosLibCode} {sv : Semver} {svc : SemverClean} {mf : Manifests}
  {pb : ProjectBackend} {va : Validation}.

#[local] Existing Instance preserves_preorder.
#[local] Existing Instance both_preorder.
#[local] Existing Instance removes_libraries_preorder.
#[local] Existing Instance keeps_libraries_preorder.

(** The three ways [_uploadSolidityLib] ends. *)
Lemma _uploadSolidityLib_run (libClass : Contract) (w : Session) :
  let libName := schema_contractName libClass in
  let w1 := set_operations (operations w ++ [Project_setImplementation libClass libName]) w in
  (∃ e, _uploadSolidityLib libClass w = (Throw e, w))
  ∨ (∃ e, _uploadSolidityLib libClass w = (Throw e, w1))
  ∨ ∃ instance,
      _uploadSolidityLib libClass w
      = (Ok tt, set_record (addSolidityLib libName instance (record w)).2 w1).
Proof.
  unfold _uploadSolidityLib, mbind, M_bind, bind, project_setImplementation.
  destruct (project (controller w)); [|left; eauto]. right.
  destruct (deploy _ _ _ _) as [instance|e]; [right | left; eauto]. eauto.
Qed.

Lemma keeps__uploadSolidityLib (libClass : Contract) :
  always keeps_libraries (_uploadSolidityLib libClass).
Proof.
  intros w libName Hrecorded.
  destruct (_uploadSolidityLib_run libClass w) as [[e ->] | [[e ->] | [instance ->]]];
    simpl; [done | done |].
  destruct (decide (libName = schema_contractName libClass)) as [->|Hne].
  - by rewrite lookup_insert_eq.
  - by rewrite lookup_insert_ne.
Qed.

Lemma _uploadSolidityLib_Ok (libClass : Contract) (w w' : Session) :
  _uploadSolidityLib libClass w = (Ok tt, w') →
  is_Some (nf_solidityLibs (record w') !! schema_contractName libClass).
Proof.
  intros Hrun.
  destruct (_uploadSolidityLib_run libClass w) as [[e He] | [[e He] | [instance He]]];
    rewrite He in Hrun; simplify_eq. simpl. by rewrite lookup_insert_eq.
Qed.

(** The three ways [_unsetSolidityLib] ends. *)
Lemma _unsetSolidityLib_run (libName : string) (w : Session) :
  let w1 := set_operations (operations w ++ [Project_unsetImplementation libName]) w in
  (∃ e, _unsetSolidityLib libName w = (Throw e, w))
  ∨ (∃ e, _unsetSolidityLib libName w = (Throw e, w1))
  ∨ _unsetSolidityLib libName w
    = (Ok tt, set_record (set_solidityLibs (delete libName (nf_solidityLibs (record w)))
                            (record w)) w1).
Proof.
  unfold _unsetSolidityLib, rethrow, mbind, M_bind, bind, project_call.
  destruct (project (controller w)); [|left; eauto]. right.
  destruct (perform _ _ _) as [b|e]; [right | left; eauto]. done.
Qed.

Lemma removes__unsetSolidityLib (libNames : list string) (libName : string) :
  libName ∈ libNames → always (removes_libraries libNames) (_unsetSolidityLib libName).
Proof.
  intros Hin w other.
  destruct (_unsetSolidityLib_run libName w) as [[e ->] | [[e ->] | ->]]; simpl;
    [by left | by left |].
  destruct (decide (other = libName)) as [->|Hne].
  - right. by rewrite lookup_delete_eq.
  - left. by rewrite lookup_delete_ne.
Qed.

Lemma _unsetSolidityLibs_run (w : Session) :
  removes_libraries
    (solidityLibsMissing (record w)
       (_getAllSolidityLibNames (pf_contractNames (manifest w))))
    w (_unsetSolidityLibs w).2.
Proof.
  set (missing := solidityLibsMissing (record w) _).
  assert (always (removes_libraries missing)
            (allPromisesOrError (_unsetSolidityLib <$> missing))) as Hrun.
  { apply always_batch; [typeclasses eauto|]. intros libName Hin.
    by apply removes__unsetSolidityLib. }
  apply Hrun.
Qed.

Lemma _unsetSolidityLibs_Ok (w w' : Session) :
  _unsetSolidityLibs w = (Ok tt, w') →
  ∀ libName, libName ∈ solidityLibsMissing (record w)
                          (_getAllSolidityLibNames (pf_contractNames (manifest w))) →
             nf_solidityLibs (record w') !! libName = None.
Proof.
  intros Hok.
  eapply (batch_Ok _unsetSolidityLib
            (λ libName w, nf_solidityLibs (record w) !! libName = None)); [| |exact Hok].
  - intros libName s [] s1 _ Hs.
    destruct (_unsetSolidityLib_run libName s) as [[e He] | [[e He] | He]];
      rewrite He in Hs; simplify_eq. simpl. apply lookup_delete_eq.
  - intros libName y s _ _ Hs.
    destruct (_unsetSolidityLib_run y s) as [[e ->] | [[e ->] | ->]]; simpl;
      [done | done |].
    rewrite lookup_delete_None. by right.
Qed.

Lemma libraries_of_besides_contracts (w w' : Session) :
  besides_contracts w' = besides_contracts w →
  nf_solidityLibs (record w') = nf_solidityLibs (record w).
Proof.
  intros Hrest.
  change (nf_solidityLibs (record (besides_contracts w'))
          = nf_solidityLibs (record (besides_contracts w))).
  by rewrite Hrest.
Qed.

(** X23.  When the classes of the libraries carry the name they are looked
    up by, a push that returns leaves in the record exactly the libraries
    the contracts of the manifest refer to: each of them is recorded, and no
    other library is. *)
Theorem push_libraries (w w' : Session) (reupload force : bool) :
  named_as_found (_getAllSolidityLibNames (pf_contractNames (manifest w))) →
  push reupload force w = (Ok tt, w') →
  ∀ libName,
    hasSolidityLib (record w') libName = true ↔
      libName ∈ _getAllSolidityLibNames (pf_contractNames (manifest w')).
Proof.
  intros Hnamed Hrun.
  destruct (push_run w reupload force)
    as [[e He] | (changedLibraries & w3 & Hlibs & Hprepares & _
                  & [[e He] | [_ He]])];
    rewrite He in Hrun; [done | done |]. clear He.
  set (delta := _contractsListForPush (controller w) (negb reupload) changedLibraries) in *.
  set (libNames := _getAllSolidityLibNames (pf_contractNames (manifest w))) in *.
  pose proof (rest_keeps changedLibraries (validated (controller w) delta) w3) as Hkeep.
  rewrite Hrun in Hkeep. unfold preserves in Hkeep. simpl in Hkeep.
  injection Hkeep as _ Hmanifest.
  destruct Hprepares as (_ & Hmanifest3 & Hlibs3 & _).
  apply bind_Ok in Hrun as ([] & w4 & Hup & Hrun).
  apply bind_Ok in Hrun as ([] & w6 & Hall & Hrun).
  apply promise_all_Ok in Hall as (w5 & Hupload & Hunset).
  assert (nf_solidityLibs (record w6) = nf_solidityLibs (record w4)
          ∧ manifest w6 = manifest w4) as [Hl6 Hm6].
  { assert (besides_contracts w5 = besides_contracts w4) as H5.
    { assert (always (preserves besides_contracts)
                (uploadContracts (validated (controller w) delta))) as Hb.
      { apply always_batch; [typeclasses eauto|]. intros [[alias klass] info] _ s.
        by destruct (always_uploadContract [alias] alias klass info
                       (list_elem_of_here _ _) s). }
      specialize (Hb w4). by rewrite Hupload in Hb. }
    destruct (unsetContracts_run w5) as [H6 _]. rewrite Hunset in H6.
    unfold preserves in H6. simpl in H6.
    split.
    - rewrite (libraries_of_besides_contracts _ _ H6).
      apply (libraries_of_besides_contracts _ _ H5).
    - change (manifest (besides_contracts w6) = manifest (besides_contracts w4)).
      by rewrite H6, H5. }
  assert (manifest w4 = manifest w3) as Hm4.
  { pose proof (preserves_uploadSolidityLibs changedLibraries w3) as H4.
    rewrite Hup in H4. unfold preserves in H4. simpl in H4.
    change (manifest (besides_solidityLibs w4) = manifest (besides_solidityLibs w3)).
    by rewrite H4. }
  assert (manifest w6 = manifest w) as Hm by congruence.
  assert (manifest w' = manifest w) as Hm' by congruence.
  rewrite Hm'. fold libNames.
  pose proof (_unsetSolidityLibs_run w6) as Hremoved. rewrite Hrun, Hm in Hremoved.
  simpl in Hremoved. fold libNames in Hremoved.
  pose proof (_unsetSolidityLibs_Ok w6 w' Hrun) as Hgone. rewrite Hm in Hgone.
  fold libNames in Hgone.
  intros libName. unfold hasSolidityLib, solidityLib. rewrite bool_decide_eq_true. split.
  - intros Hrecorded. destruct (decide (libName ∈ libNames)) as [|Hnot]; [done|].
    assert (nf_solidityLibs (record w') !! libName = None) as Hnone;
      [|rewrite Hnone in Hrecorded; by destruct Hrecorded].
    destruct (Hremoved libName) as [Hsame | [Hnone _]]; [|done].
    apply Hgone. rewrite Hsame in Hrecorded.
    unfold solidityLibsMissing. apply list_elem_of_difference. split; [|done].
    destruct Hrecorded as [x Hx]. apply list_elem_of_fmap. exists (libName, x).
    split; [done | by apply elem_of_map_to_list].
  - intros Hin.
    assert (is_Some (nf_solidityLibs (record w4) !! libName)) as Hrecorded4.
    { assert (always keeps_libraries (uploadSolidityLibs changedLibraries)) as Hkeeps.
      { apply always_batch; [typeclasses eauto|]. intros klass _.
        apply keeps__uploadSolidityLib. }
      specialize (Hkeeps w3). rewrite Hup in Hkeeps. simpl in Hkeeps.
      destruct (decide (getFromLocal libName ∈ changedLibraries)) as [Hdelta | Hout].
      - rewrite <- (Hnamed libName Hin).
        unfold uploadSolidityLibs in Hup.
        refine (batch_Ok _uploadSolidityLib
                  (λ klass s, is_Some (nf_solidityLibs (record s) !! schema_contractName klass))
                  _ w3 w4 _ _ Hup _ Hdelta).
        + intros klass s [] s1 _ Hs. by eapply _uploadSolidityLib_Ok.
        + intros klass y s _ _ Hs. by apply keeps__uploadSolidityLib.
      - apply Hkeeps. rewrite Hlibs3.
        unfold _solidityLibsForPush in Hlibs. fold (manifest w) libNames in Hlibs.
        destruct (negb (bool_decide _)); [done|]. injection Hlibs as Hlibs.
        destruct (hasSolidityLib (record w) (schema_contractName (getFromLocal libName)))
          eqn:Hhas.
        + unfold hasSolidityLib, solidityLib in Hhas. apply bool_decide_eq_true in Hhas.
          by rewrite (Hnamed libName Hin) in Hhas.
        + destruct Hout. rewrite <- Hlibs. apply list_elem_of_filter. split.
          * fold (record w). by rewrite Hhas.
          * apply list_elem_of_fmap. by exists libName. }
    rewrite <- Hl6 in Hrecorded4.
    destruct (Hremoved libName) as [-> | [_ Hmissing]]; [done|].
    unfold solidityLibsMissing in Hmissing.
    apply list_elem_of_difference in Hmissing as [_ Hnot]. done.
Qed.

End Libraries.

(** ** Freezing *)

Section Freeze.
Context {lib : ZosLib} {names : Naming} {zv : ZosVersion} {be : Backend}
  {code : ZosLibCode} {sv : Semver} {svc : SemverClean} {mf : Manifests}
  {pb : ProjectBackend} {va : Validation}.

(** X24.  [freeze] of a project that has no package address throws and
    changes nothing.  When [freeze] returns, the record is frozen, so that
    [checkNotFrozen] throws from then on; the manifest and the contracts,
    libraries, proxies and dependencies of the record are as before; and the
    backend was asked to freeze exactly when the project is an app
    project. *)
Theorem freeze_spec (w : Session) :
  (truthy (packageAddress (record w)) = false →
   freeze w = (Throw "Cannot freeze an unpublished project", w))
  ∧ ∀ w', freeze w = (Ok tt, w') →
      truthy (packageAddress (record w)) = true
      ∧ nf_frozen (record w') = Some true
      ∧ on_controller checkNotFrozen w'
        = (Throw "Cannot modify contracts in a frozen version. Run zos bump to create a new version first.", w')
      ∧ manifest w' = manifest w
      ∧ nf_contracts (record w') = nf_contracts (record w)
      ∧ nf_solidityLibs (record w') = nf_solidityLibs (record w)
      ∧ nf_proxies (record w') = nf_proxies (record w)
      ∧ nf_dependencies (record w') = nf_dependencies (record w)
      ∧ operations w'
        = operations w ++ (if isAppProject (calls (controller w')) then [Project_freeze] else []).
Proof.
  unfold freeze, mbind, M_bind, bind, get, record. split.
  - by intros ->.
  - intros w'. destruct (truthy (packageAddress _)); simpl; [|done].
    unfold on_controller at 1, fetchOrDeploy.
    destruct (respond _ _); simpl; [|done].
    destruct (isAppProject _) eqn:Happ; simpl.
    + unfold project_call. simpl. destruct (perform _ _ _); simpl; [|done].
      intros [= <-]. simpl. rewrite Happ. destruct w as [[] ? ? ?]. split_and!; done.
    + intros [= <-]. simpl. rewrite Happ. destruct w as [[] ? ? ?].
      split_and!; try done. simpl. by rewrite app_nil_r.
Qed.

End Freeze.

(** ** The proxy a command refers to *)

Section PromptProperties.
Context {names : Naming} {value : NamingValue}.

(** X25.  The reference [proxyInfo] answers is the address it was given,
    whenever one was given, and the full name it answers otherwise; it
    answers nothing at all when neither an address nor an alias was given.
    An address in the answer is that of a recorded proxy which agrees with
    the address, the alias and the package that were given, and the full
    name is then what [toContractFullName] makes of the package and the
    contract of this proxy.  When no recorded proxy agrees with them, the
    full name is what [toContractFullName] makes of the package and the
    alias as given, no address is answered, and an address that was given
    is taken as the reference without being looked up. *)
Theorem proxyInfo_spec (d : NetworkData) (contractAlias proxyAddress packageName : option string) :
  let info := proxyInfo d contractAlias proxyAddress packageName in
  let given := mkProxyInterface None packageName contractAlias proxyAddress None None None None in
  (truthy proxyAddress = true → reference_proxyReference info = proxyAddress)
  ∧ (truthy proxyAddress = false →
     reference_proxyReference info = reference_contractFullName info)
  ∧ (truthy proxyAddress = false → truthy contractAlias = false →
     info = mkProxyReference None None None)
  ∧ (∀ address, reference_address info = Some address →
       ∃ k e, e ∈ _proxiesOf d k
              ∧ proxy_address e = Some address
              ∧ proxy_filter given (decorate k e) = true
              ∧ reference_contractFullName info
                = toContractFullName_value (proxy_package (decorate k e))
                    (proxy_contract (decorate k e)))
  ∧ ((∀ k e, e ∈ _proxiesOf d k → proxy_filter given (decorate k e) = false) →
     truthy proxyAddress || truthy contractAlias = true →
     info = mkProxyReference (toContractFullName_value packageName contractAlias) None
              (js_or proxyAddress (toContractFullName_value packageName contractAlias))).
Proof.
  intros info given.
  assert (∀ p l, getProxies d given = p :: l →
            ∃ k e, e ∈ _proxiesOf d k ∧ p = decorate k e
                   ∧ proxy_filter given (decorate k e) = true) as Hhead.
  { intros p l Hproxies.
    assert (p ∈ getProxies d given) as Hin by (rewrite Hproxies; apply list_elem_of_here).
    apply elem_of_getProxies in Hin as [Hfilter (k & e & He & ->)%elem_of_allProxies].
    eauto. }
  unfold info, proxyInfo, hasProxies, js_or. fold given.
  destruct (getProxies d given) as [|p l] eqn:Hproxies;
    [clear Hhead | destruct (Hhead p l eq_refl) as (k & e & He & -> & Hfilter)];
    destruct (truthy proxyAddress) eqn:Haddress, (truthy contractAlias) eqn:Halias;
    simpl; split_and!;
    try done;
    try (intros address Ha; exists k, e; by rewrite <- (decorate_address k));
    try (intros Hnone _; by rewrite (Hnone k e He) in Hfilter).
Qed.

End PromptProperties.

(** ** The properties at work on concrete sessions *)

Lemma fromNameWithVersion_spec_witness :
  fromNameWithVersion (sv := Doubles.semver) (svc := MoreDoubles.semverClean)
    (mf := MoreDoubles.manifests) "lib-a@^1.0.0"
  = new_Dependency (sv := Doubles.semver) (svc := MoreDoubles.semverClean)
      (mf := MoreDoubles.manifests) "lib-a" (Some "^1.0.0")
  ∧ ∃ dep, fromNameWithVersion (sv := Doubles.semver) (svc := MoreDoubles.semverClean)
             (mf := MoreDoubles.manifests) "lib-a@^1.0.0" = Ok dep
           ∧ dependency_version dep = Some "1.1.0".
Proof.
  destruct (fromNameWithVersion_spec (sv := Doubles.semver) (svc := MoreDoubles.semverClean)
              (mf := MoreDoubles.manifests) "lib-a" "^1.0.0" eq_refl eq_refl)
    as (_ & Hsplit & _).
  split; [exact Hsplit|]. eexists. split; [vm_compute; reflexivity | reflexivity].
Defined.


Lemma push_frozen_witness :
  let w := frozen_vault_session in
  let run := push (lib := Doubles.zosLib) (zv := Doubles.zosVersion)
               (be := Doubles.backend) (code := MoreDoubles.zosLibCode) (sv := Doubles.semver)
               (svc := MoreDoubles.semverClean) (mf := MoreDoubles.manifests)
               (pb := MoreDoubles.projectBackend) (va := MoreDoubles.validation)
               false false w in
  run.1 ≠ Ok tt ∧ operations run.2 = [] ∧ nf_contracts (record run.2) = nf_contracts (record w).
Proof.
  intros w run.
  destruct (push_frozen (lib := Doubles.zosLib)
              (zv := Doubles.zosVersion) (be := Doubles.backend)
              (code := MoreDoubles.zosLibCode) (sv := Doubles.semver)
              (svc := MoreDoubles.semverClean) (mf := MoreDoubles.manifests)
              (pb := MoreDoubles.projectBackend) (va := MoreDoubles.validation)
              w false false) as [Hfailed _].
  - vm_compute. reflexivity.
  - split; [exact Hfailed|]. split; vm_compute; reflexivity.
Defined.

Lemma push_effective_witness :
  let w := stale_vault_session in
  ∃ w', push (lib := Doubles.zosLib) (zv := Doubles.zosVersion)
          (be := Doubles.backend) (code := MoreDoubles.zosLibCode) (sv := Doubles.semver)
          (svc := MoreDoubles.semverClean) (mf := MoreDoubles.manifests)
          (pb := MoreDoubles.projectBackend) (va := MoreDoubles.validation)
          false false w = (Ok tt, w')
        ∧ _errorForLocalContractsDeployed (lib := Doubles.zosLib) (controller w)
          = Some "Contracts Vault have changed since the last deploy."
        ∧ _errorForLocalContractsDeployed (lib := Doubles.zosLib) (controller w') = None.
Proof.
  intros w.
  set (run := push (lib := Doubles.zosLib) (zv := Doubles.zosVersion)
                (be := Doubles.backend) (code := MoreDoubles.zosLibCode) (sv := Doubles.semver)
                (svc := MoreDoubles.semverClean) (mf := MoreDoubles.manifests)
                (pb := MoreDoubles.projectBackend) (va := MoreDoubles.validation)
                false false w).
  assert (run = (Ok tt, run.2)) as Hrun by (vm_compute; reflexivity).
  exists run.2. split; [exact Hrun|]. split; [vm_compute; reflexivity|].
  refine (proj1 (push_effective (lib := Doubles.zosLib)
                   (zv := Doubles.zosVersion) (be := Doubles.backend)
                   (code := MoreDoubles.zosLibCode) (sv := Doubles.semver)
                   (svc := MoreDoubles.semverClean) (mf := MoreDoubles.manifests)
                   (pb := MoreDoubles.projectBackend) (va := MoreDoubles.validation)
                   w run.2 false false _ Hrun)).
  intros journal done klass contractName instance [= <-]. reflexivity.
Defined.

Lemma push_libraries_witness :
  let w := token_library_session in
  ∃ w', push (lib := Doubles.zosLib) (zv := Doubles.zosVersion)
          (be := Doubles.backend) (code := MoreDoubles.zosLibCode) (sv := Doubles.semver)
          (svc := MoreDoubles.semverClean) (mf := MoreDoubles.manifests)
          (pb := MoreDoubles.projectBackend) (va := MoreDoubles.validation)
          false false w = (Ok tt, w')
        ∧ hasSolidityLib (record w) "SafeMath" = false
        ∧ hasSolidityLib (record w) "Legacy" = true
        ∧ hasSolidityLib (record w') "SafeMath" = true
        ∧ hasSolidityLib (record w') "Legacy" = false.
Proof.
  intros w.
  set (run := push (lib := Doubles.zosLib) (zv := Doubles.zosVersion)
                (be := Doubles.backend) (code := MoreDoubles.zosLibCode) (sv := Doubles.semver)
                (svc := MoreDoubles.semverClean) (mf := MoreDoubles.manifests)
                (pb := MoreDoubles.projectBackend) (va := MoreDoubles.validation)
                false false w).
  assert (run = (Ok tt, run.2)) as Hrun by (vm_compute; reflexivity).
  assert (named_as_found (lib := Doubles.zosLib)
            (_getAllSolidityLibNames (lib := Doubles.zosLib)
               (pf_contractNames (manifest w)))) as Hnamed.
  { intros libName _. reflexivity. }
  pose proof (push_libraries (lib := Doubles.zosLib)
                (zv := Doubles.zosVersion) (be := Doubles.backend)
                (code := MoreDoubles.zosLibCode) (sv := Doubles.semver)
                (svc := MoreDoubles.semverClean) (mf := MoreDoubles.manifests)
                (pb := MoreDoubles.projectBackend) (va := MoreDoubles.validation)
                w run.2 false false Hnamed Hrun) as Hexact.
  exists run.2. split; [exact Hrun|].
  split; [vm_compute; reflexivity|]. split; [vm_compute; reflexivity|]. split.
  - apply Hexact. vm_compute. apply list_elem_of_here.
  - destruct (hasSolidityLib (record run.2) "Legacy") eqn:Hlegacy; [|reflexivity].
    apply Hexact in Hlegacy. vm_compute in Hlegacy.
    apply list_elem_of_singleton in Hlegacy. discriminate Hlegacy.
Defined.

Lemma freeze_spec_witness :
  ∃ w', freeze (be := Doubles.backend)
          (pb := MoreDoubles.projectBackend) published_vault_session = (Ok tt, w')
        ∧ nf_frozen (record published_vault_session) = None
        ∧ nf_frozen (record w') = Some true
        ∧ operations w' = [Project_freeze].
Proof.
  set (run := freeze (be := Doubles.backend)
                (pb := MoreDoubles.projectBackend) published_vault_session).
  assert (run = (Ok tt, run.2)) as Hrun by (vm_compute; reflexivity).
  destruct (proj2 (freeze_spec (be := Doubles.backend)
                     (pb := MoreDoubles.projectBackend) published_vault_session)
              run.2 Hrun) as (_ & Hfrozen & _ & _ & _ & _ & _ & _ & Hjournal).
  exists run.2. split; [exact Hrun|]. split; [vm_compute; reflexivity|].
  split; [exact Hfrozen|]. rewrite Hjournal. reflexivity.
Defined.

(** ** Runs of the dependency and of the prompt *)

Example getNetworkFile_refused_record :
  ∃ dep dep1 nf,
    new_Dependency (sv := Doubles.semver) (svc := MoreDoubles.semverClean)
      (mf := MoreDoubles.manifests) "lib-a" (Some "^1.0.0") = Ok dep
    ∧ getNetworkFile (sv := Doubles.semver) (zv := Doubles.zosVersion) lib_a_files_next
        "test" dep
      = (Throw "Required dependency version ^1.0.0 does not match version 2.0.0", dep1)
    ∧ getNetworkFile (sv := Doubles.semver) (zv := Doubles.zosVersion) lib_a_files_next
        "test" dep1
      = (Ok nf, dep1)
    ∧ nf_version (data nf) = Some "2.0.0".
Proof.
  eexists _, _, _. split; [vm_compute; reflexivity|]. split; [vm_compute; reflexivity|].
  split; vm_compute; reflexivity.
Qed.

Example proxyInfo_unrecorded_address :
  proxyInfo (names := Doubles.naming) (value := MoreDoubles.namingValue)
    (networkFile token_controller) None (Some "0xZ") None
  = mkProxyReference None None (Some "0xZ").
Proof. vm_compute. reflexivity. Qed.

Example proxyInfo_recorded_address :
  proxyInfo (names := Doubles.naming) (value := MoreDoubles.namingValue)
    (networkFile token_controller) None (Some "0xB") None
  = mkProxyReference (Some "zos/Token") (Some "0xB") (Some "0xB").
Proof. vm_compute. reflexivity. Qed.
